(** * GitHub calendar server: event extraction, workload aggregation,
      calendar grid, fetch fallback and tool dispatch

    A shallow embedding of [index.js] (class [GitHubCalendarMCPServer]).
    The definitions follow the methods of the class one by one; the
    theorems at the end of the file state what the methods do.

    Conventions of the embedding:
    - a JavaScript string is a [string] of code units below 256, so the
      only line terminators are LF and CR, and [toLowerCase] acts on the
      letters A-Z;
    - a [Date] object is its time value: an integer number of
      milliseconds since the epoch, or NaN ([InvalidDate]); the range
      limit of time values is not modelled;
    - local time is UTC shifted by a fixed offset [tz] (no daylight-saving
      transitions);
    - [new Date(str)] is the engine's parser, a parameter [parseDate] of
      everything that parses; [isoParse] is a concrete parser for the ISO
      forms used in the examples;
    - the [date-fns] functions are modelled after release 4 of that
      library;
    - an object created by [{}] and used as a dictionary is the list of
      its own properties in creation order; a lookup also finds the
      names inherited from [Object.prototype], and [Object.values] lists
      the properties named by an array index first;
    - the two upstream APIs are scripts of responses, one per request. *)

From Stdlib Require Import ZArith Lia List String Ascii Bool.
From Stdlib Require Import Sorting.Sorted Sorting.Permutation.
From Stdlib Require Import DecimalString.
From stdpp Require Import base option list strings gmap.
Import ListNotations.

Local Open Scope string_scope.
Local Open Scope Z_scope.

(* ===================================================================== *)
(** * JavaScript strings *)
(* ===================================================================== *)

Module JsString.

Definition lowerAscii (c : ascii) : ascii :=
  let n := nat_of_ascii c in
  if ((65 <=? n) && (n <=? 90))%nat then ascii_of_nat (n + 32) else c.

(** [String.prototype.toLowerCase] *)
Fixpoint toLowerCase (s : string) : string :=
  match s with
  | EmptyString => EmptyString
  | String c r => String (lowerAscii c) (toLowerCase r)
  end.

(** [String.prototype.startsWith] *)
Fixpoint startsWith (s p : string) : bool :=
  match p, s with
  | EmptyString, _ => true
  | String _ _, EmptyString => false
  | String a p', String b s' => Ascii.eqb a b && startsWith s' p'
  end.

(** [String.prototype.includes] *)
Fixpoint includes (s p : string) : bool :=
  startsWith s p ||
  match s with
  | EmptyString => false
  | String _ r => includes r p
  end.

Fixpoint drop (n : nat) (s : string) : string :=
  match n, s with
  | O, _ => s
  | S n', String _ r => drop n' r
  | S _, EmptyString => EmptyString
  end.

(** Truthiness of a value that is a string, [null] or [undefined]. *)
Definition truthy (o : option string) : bool :=
  match o with
  | Some s => negb (String.eqb s "")
  | None => false
  end.

(** The value of [o || ''] . *)
Definition orEmpty (o : option string) : string :=
  match o with Some s => s | None => "" end.

(** Decimal rendering of an integer, as in a template literal. *)
Definition ofZ (z : Z) : string := NilZero.string_of_int (Z.to_int z).

Definition LF : string := String (ascii_of_nat 10) EmptyString.

Fixpoint zeros (n : nat) : string :=
  match n with O => "" | S k => String "0" (zeros k) end.

(** [padStart(width, '0')] of the decimal rendering of a natural number. *)
Definition padZeros (width : nat) (z : Z) : string :=
  let s := ofZ z in
  zeros (width - String.length s) +:+ s.

End JsString.

(* ===================================================================== *)
(** * Dates *)
(* ===================================================================== *)

Module JsDate.

Inductive Date : Type :=
| Instant (t : Z)
| InvalidDate.

(** The relational operators on two [Date] objects compare their time
    values as numbers; a comparison with NaN is false. *)
Definition lt (a b : Date) : bool :=
  match a, b with Instant x, Instant y => x <? y | _, _ => false end.
Definition gt (a b : Date) : bool := lt b a.
Definition le (a b : Date) : bool :=
  match a, b with Instant x, Instant y => x <=? y | _, _ => false end.
Definition ge (a b : Date) : bool := le b a.

(** [a.getTime() !== b.getTime()]; NaN differs from everything. *)
Definition timeDiffers (a b : Date) : bool :=
  match a, b with Instant x, Instant y => negb (x =? y) | _, _ => true end.

Definition msPerDay : Z := 86400000.

(** Day number (days since 1970-01-01) of a proleptic Gregorian date. *)
Definition daysFromCivil (y m d : Z) : Z :=
  let y' := if m <=? 2 then y - 1 else y in
  let era := y' / 400 in
  let yoe := y' - era * 400 in
  let mp := (m + 9) mod 12 in
  let doy := (153 * mp + 2) / 5 + d - 1 in
  let doe := yoe * 365 + yoe / 4 - yoe / 100 + doy in
  era * 146097 + doe - 719468.

(** Year, month (1-12) and day of the month of a day number. *)
Definition civilFromDays (z : Z) : Z * Z * Z :=
  let z := z + 719468 in
  let era := z / 146097 in
  let doe := z - era * 146097 in
  let yoe := (doe - doe / 1460 + doe / 36524 - doe / 146096) / 365 in
  let y := yoe + era * 400 in
  let doy := doe - (365 * yoe + yoe / 4 - yoe / 100) in
  let mp := (5 * doy + 2) / 153 in
  let d := doy - (153 * mp + 2) / 5 + 1 in
  let m := if mp <? 10 then mp + 3 else mp - 9 in
  (if m <=? 2 then y + 1 else y, m, d).

Section LocalTime.
(** Offset of local time from UTC, in milliseconds. *)
Variable tz : Z.

(** Local day number of an instant. *)
Definition localDay (t : Z) : Z := (t + tz) / msPerDay.

(** The instant of local midnight at the start of a local day. *)
Definition localMidnight (d : Z) : Z := d * msPerDay - tz.

(** [setHours(0, 0, 0, 0)] *)
Definition startOfDay (t : Z) : Z := localMidnight (localDay t).

Definition getFullYear (t : Z) : Z := fst (fst (civilFromDays (localDay t))).
(** Month of the year, 1-12 (one more than [getMonth]). *)
Definition getMonth1 (t : Z) : Z := snd (fst (civilFromDays (localDay t))).
Definition getDate (t : Z) : Z := snd (civilFromDays (localDay t)).

(** date-fns [startOfMonth]: [setDate(1); setHours(0, 0, 0, 0)]. *)
Definition startOfMonth (t : Z) : Z :=
  localMidnight (daysFromCivil (getFullYear t) (getMonth1 t) 1).

(** date-fns [endOfMonth]:
    [setFullYear(year, month + 1, 0); setHours(23, 59, 59, 999)]. *)
Definition endOfMonth (t : Z) : Z :=
  let y := getFullYear t in
  let m := getMonth1 t in
  let first_next :=
    if m =? 12 then daysFromCivil (y + 1) 1 1 else daysFromCivil y (m + 1) 1 in
  localMidnight (first_next - 1) + (msPerDay - 1).

(** date-fns [isSameMonth]: both local years and both local months are
    equal; an invalid date is in no month. *)
Definition isSameMonth (a b : Date) : bool :=
  match a, b with
  | Instant x, Instant y =>
      (getFullYear x =? getFullYear y) && (getMonth1 x =? getMonth1 y)
  | _, _ => false
  end.

(** The loop of date-fns [eachDayOfInterval]: starting at local
    midnight of [from], push the current day and advance by one day
    while the current day is not after [endTime].  The number of
    rounds is written in closed form. *)
Definition daysUpTo (from endTime : Z) : list Z :=
  let first := startOfDay from in
  let rounds := Z.to_nat ((endTime - first) / msPerDay + 1) in
  List.map (fun k => first + Z.of_nat k * msPerDay) (seq 0 rounds).

(** date-fns [eachDayOfInterval] on two valid dates: an interval
    whose start is after its end is walked from its end and the
    result is reversed. *)
Definition eachDayOfInterval (s e : Z) : list Z :=
  if e <? s then rev (daysUpTo e s) else daysUpTo s e.

(** date-fns [format(date, 'yyyy-MM-dd')] on a valid date.  The year
    token prints the year of the era, so a year [y <= 0] prints as
    [1 - y]. *)
Definition formatDayKey (t : Z) : string :=
  let '(y, m, d) := civilFromDays (localDay t) in
  let yy := if 0 <? y then y else 1 - y in
  JsString.padZeros 4 yy +:+ "-" +:+ JsString.padZeros 2 m +:+ "-" +:+ JsString.padZeros 2 d.

End LocalTime.

(** ** A concrete parser for ISO date strings

    [isoParse] reads [YYYY-MM-DD] (midnight UTC) and
    [YYYY-MM-DDTHH:mm:ssZ] when they name a day of the calendar and a
    time of day up to 23:59:59; on these it agrees with [Date.parse].
    Every other string is read as an invalid date here, also the few of
    these forms that an engine accepts beyond that (a day number up to
    31 past the end of a month, the time 24:00:00).  It serves the
    examples, which use no such string. *)

Definition digit (c : ascii) : option Z :=
  let n := nat_of_ascii c in
  if ((48 <=? n) && (n <=? 57))%nat then Some (Z.of_nat (n - 48)) else None.

Fixpoint digits (n : nat) (s : string) (acc : Z) : option (Z * string) :=
  match n with
  | O => Some (acc, s)
  | S k =>
      match s with
      | String c r =>
          match digit c with
          | Some v => digits k r (acc * 10 + v)
          | None => None
          end
      | EmptyString => None
      end
  end.

Definition expect (c : ascii) (s : string) : option string :=
  match s with
  | String a r => if Ascii.eqb a c then Some r else None
  | EmptyString => None
  end.

Definition daysInMonth (y m : Z) : Z :=
  (if m =? 12 then daysFromCivil (y + 1) 1 1 else daysFromCivil y (m + 1) 1)
  - daysFromCivil y m 1.

Definition isoParse (s : string) : Date :=
  match digits 4 s 0 with
  | Some (y, s1) =>
    match expect "-" s1 with
    | Some s2 =>
      match digits 2 s2 0 with
      | Some (m, s3) =>
        match expect "-" s3 with
        | Some s4 =>
          match digits 2 s4 0 with
          | Some (d, s5) =>
            if (1 <=? m) && (m <=? 12) && (1 <=? d) && (d <=? daysInMonth y m) then
              let day := daysFromCivil y m d in
              match s5 with
              | EmptyString => Instant (day * msPerDay)
              | _ =>
                match expect "T" s5 with
                | Some s6 =>
                  match digits 2 s6 0 with
                  | Some (hh, s7) =>
                    match expect ":" s7 with
                    | Some s8 =>
                      match digits 2 s8 0 with
                      | Some (mi, s9) =>
                        match expect ":" s9 with
                        | Some s10 =>
                          match digits 2 s10 0 with
                          | Some (ss, "Z") =>
                            if (hh <=? 23) && (mi <=? 59) && (ss <=? 59) then
                              Instant (day * msPerDay + hh * 3600000 + mi * 60000 + ss * 1000)
                            else InvalidDate
                          | _ => InvalidDate
                          end
                        | None => InvalidDate
                        end
                      | None => InvalidDate
                      end
                    | None => InvalidDate
                    end
                  | None => InvalidDate
                  end
                | None => InvalidDate
                end
              end
            else InvalidDate
          | None => InvalidDate
          end
        | None => InvalidDate
        end
      | None => InvalidDate
      end
    | None => InvalidDate
    end
  | None => InvalidDate
  end.

End JsDate.

(* ===================================================================== *)
(** * The date markers of an issue body *)
(* ===================================================================== *)

Module BodyPattern.

(** The characters that [.] does not match. *)
Definition isLineTerminator (c : ascii) : bool :=
  Ascii.eqb c (ascii_of_nat 10) || Ascii.eqb c (ascii_of_nat 13).

(** The run of characters up to the first [")"] of [s], when there is
    one: what the greedy [[^)]+] followed by [\)] can capture. *)
Fixpoint upToParen (s : string) : option string :=
  match s with
  | EmptyString => None
  | String c r =>
      if Ascii.eqb c ")" then Some EmptyString
      else option_map (String c) (upToParen r)
  end.

(** [([^)]+)\)] at the head of [s]: the run must not be empty. *)
Definition group (s : string) : option string :=
  match upToParen s with
  | Some EmptyString => None
  | o => o
  end.

(** [.*?\(([^)]+)\)] at the head of [s].  The lazy [.*?] first tries
    to stop here; when the group fails it takes one more character,
    which must not be a line terminator. *)
Fixpoint lazyGroup (s : string) : option string :=
  match s with
  | EmptyString => None
  | String c r =>
      let further := if isLineTerminator c then None else lazyGroup r in
      if Ascii.eqb c "(" then
        match group r with
        | Some g => Some g
        | None => further
        end
      else further
  end.

(** [s.match(/marker.*?\(([^)]+)\)/)]: capture 1 of the leftmost
    match, [None] for [null]. *)
Fixpoint matchMarker (marker s : string) : option string :=
  let here :=
    if JsString.startsWith s marker
    then lazyGroup (JsString.drop (String.length marker) s)
    else None in
  match here with
  | Some g => Some g
  | None =>
      match s with
      | EmptyString => None
      | String _ r => matchMarker marker r
      end
  end.

(** [body.match(/\*\*Start Date:\*\*.*?\(([^)]+)\)/)] *)
Definition startDateMatch (body : string) : option string :=
  matchMarker "**Start Date:**" body.

(** [body.match(/\*\*End Date:\*\*.*?\(([^)]+)\)/)] *)
Definition endDateMatch (body : string) : option string :=
  matchMarker "**End Date:**" body.

End BodyPattern.

(* ===================================================================== *)
(** * Project items and calendar events *)
(* ===================================================================== *)

Record Label := {
  label_id : string;
  label_name : string;
  label_color : string;
  label_description : option string }.

Module Assignee.
Record t := {
  login : string;
  avatar_url : string }.
End Assignee.

Record Milestone := {
  milestone_title : string;
  milestone_description : option string;
  due_on : option string }.

(** [item.content] *)
Record Issue := {
  issue_id : string;
  number : Z;
  title : string;
  body : option string;
  state : string;
  created_at : string;
  updated_at : string;
  closed_at : option string;
  html_url : string;
  user : Assignee.t;
  labels : list Label;
  assignees : list Assignee.t;
  milestone : option Milestone }.

(** One node of [item.fieldValues.nodes]. *)
Record FieldValue := {
  field_name : string;
  fv_date : option string;
  fv_text : option string;
  fv_name : option string;
  fv_number : option Z }.

Record ProjectItem := {
  item_id : string;
  content : Issue;
  fieldValues : list FieldValue }.

Record EventLabel := {
  el_name : string;
  el_color : string }.

(** The object returned for one item.  [startDate] and [endDate] are a
    [Date] object or [null]. *)
Record CalendarEvent := {
  id : string;
  ev_title : string;
  startDate : option JsDate.Date;
  endDate : option JsDate.Date;
  url : string;
  ev_labels : list EventLabel;
  ev_assignees : list Assignee.t;
  status : string;
  projectStatus : option string;
  type : string }.

Module Extractor.
Section WithParser.
(** [new Date(str)] *)
Variable parseDate : string -> JsDate.Date.

(** The three variables assigned by the loop over the field values. *)
Record Slots := {
  slot_start : option JsDate.Date;
  slot_end : option JsDate.Date;
  slot_status : option string }.

Definition noSlots : Slots :=
  {| slot_start := None; slot_end := None; slot_status := None |}.

(** The guards of the three branches of the loop body. *)
Definition isStartField (fv : FieldValue) : bool :=
  JsString.includes (JsString.toLowerCase (field_name fv)) "start"
  && JsString.truthy (fv_date fv).

Definition isEndField (fv : FieldValue) : bool :=
  let fieldName := JsString.toLowerCase (field_name fv) in
  (JsString.includes fieldName "end" || JsString.includes fieldName "due")
  && JsString.truthy (fv_date fv).

Definition isStatusField (fv : FieldValue) : bool :=
  let fieldName := JsString.toLowerCase (field_name fv) in
  (JsString.includes fieldName "status" || JsString.includes fieldName "state"
   || JsString.includes fieldName "progress")
  && JsString.truthy (fv_name fv).

(** The body of [item.fieldValues.nodes.forEach]. *)
Definition scanField (s : Slots) (fv : FieldValue) : Slots :=
  if isStartField fv then
    {| slot_start := Some (parseDate (JsString.orEmpty (fv_date fv)));
       slot_end := slot_end s; slot_status := slot_status s |}
  else if isEndField fv then
    {| slot_start := slot_start s;
       slot_end := Some (parseDate (JsString.orEmpty (fv_date fv)));
       slot_status := slot_status s |}
  else if isStatusField fv then
    {| slot_start := slot_start s; slot_end := slot_end s;
       slot_status := fv_name fv |}
  else s.

Definition scanFields (nodes : list FieldValue) : Slots :=
  fold_left scanField nodes noSlots.

(** The slot that a field value is assigned to.  The branches are
    tried in order: a field that passes the first guard never
    reaches the second. *)
Definition suppliesStart (fv : FieldValue) : bool := isStartField fv.

Definition suppliesEnd (fv : FieldValue) : bool :=
  negb (isStartField fv) && isEndField fv.

(** [x || y] on two values that are a [Date] or [null]: a [Date]
    object is truthy, also an invalid one. *)
Definition orElse {A} (x y : option A) : option A :=
  match x with Some _ => x | None => y end.

Definition isNull {A} (x : option A) : bool :=
  match x with Some _ => false | None => true end.

(** The dates after the scan of the issue body. *)
Definition bodyStart (issue : Issue) (s : Slots) : option JsDate.Date :=
  if isNull (slot_start s) || isNull (slot_end s) then
    orElse (slot_start s)
      (option_map parseDate (BodyPattern.startDateMatch (JsString.orEmpty (body issue))))
  else slot_start s.

Definition bodyEnd (issue : Issue) (s : Slots) : option JsDate.Date :=
  if isNull (slot_start s) || isNull (slot_end s) then
    orElse (slot_end s)
      (option_map parseDate (BodyPattern.endDateMatch (JsString.orEmpty (body issue))))
  else slot_end s.

(** [issue.milestone?.due_on], when truthy. *)
Definition milestoneDue (issue : Issue) : option string :=
  match milestone issue with
  | Some m => if JsString.truthy (due_on m) then due_on m else None
  | None => None
  end.

(** The callback of [items.map]. *)
Definition transformItem (item : ProjectItem) : CalendarEvent :=
  let issue := content item in
  let s := scanFields (fieldValues item) in
  let startDate1 := bodyStart issue s in
  let endDate1 := bodyEnd issue s in
  let startDate2 := orElse startDate1 (Some (parseDate (created_at issue))) in
  let endDate2 := orElse endDate1 (option_map parseDate (milestoneDue issue)) in
  {| id := JsString.ofZ (number issue);
     ev_title := title issue;
     startDate := startDate2;
     endDate := endDate2;
     url := html_url issue;
     ev_labels :=
       List.map (fun l => {| el_name := label_name l;
                             el_color := "#" +:+ label_color l |}) (labels issue);
     ev_assignees :=
       List.map (fun a => {| Assignee.login := Assignee.login a;
                             Assignee.avatar_url := Assignee.avatar_url a |})
                (assignees issue);
     status := state issue;
     projectStatus := slot_status s;
     type := "issue" |}.

(** [items.map(...).filter((event) => event.startDate)] *)
Definition transformToCalendarEvents (items : list ProjectItem) : list CalendarEvent :=
  List.filter (fun event => negb (isNull (startDate event)))
              (List.map transformItem items).

End WithParser.
End Extractor.

(* ===================================================================== *)
(** * Plain objects used as dictionaries *)
(* ===================================================================== *)

Module JsObject.

(** The own properties of an object created by [{}], in the order in
    which they were created. *)
Definition t (V : Type) : Type := list (string * V).

(** The property names that every plain object inherits from
    [Object.prototype]; each of them reads as a truthy value (a
    function, or the prototype itself for [__proto__]). *)
Definition objectPrototypeKeys : list string :=
  [ "constructor"; "__defineGetter__"; "__defineSetter__"; "hasOwnProperty";
    "__lookupGetter__"; "__lookupSetter__"; "isPrototypeOf";
    "propertyIsEnumerable"; "toString"; "valueOf"; "__proto__";
    "toLocaleString" ].

Definition inherited (k : string) : bool :=
  existsb (String.eqb k) objectPrototypeKeys.

Fixpoint getOwn {V} (k : string) (o : t V) : option V :=
  match o with
  | [] => None
  | (k', v) :: r => if String.eqb k k' then Some v else getOwn k r
  end.

(** Assignment to an own property that exists: the value changes, the
    position does not. *)
Fixpoint replaceOwn {V} (k : string) (v : V) (o : t V) : t V :=
  match o with
  | [] => []
  | (k', v') :: r =>
      if String.eqb k k' then (k', v) :: r else (k', v') :: replaceOwn k v r
  end.

(** Creation of a property that the object does not own yet. *)
Definition addOwn {V} (k : string) (v : V) (o : t V) : t V := (o ++ [(k, v)])%list.

(** ** Property order

    [Object.values] lists the properties whose name is an array index
    (a canonical decimal numeral below 2^32 - 1) first, in ascending
    numeric order, and then the other properties in creation order. *)

Fixpoint allDigits (s : string) (acc : Z) : option Z :=
  match s with
  | EmptyString => Some acc
  | String c r =>
      match JsDate.digit c with
      | Some v => allDigits r (acc * 10 + v)
      | None => None
      end
  end.

Definition arrayIndex (k : string) : option Z :=
  match k with
  | EmptyString => None
  | String c r =>
      if Ascii.eqb c "0" && negb (String.eqb r "") then None
      else
        match allDigits k 0 with
        | Some n => if n <? 4294967295 then Some n else None
        | None => None
        end
  end.

Fixpoint insertIndexed {V} (n : Z) (v : V) (l : list (Z * V)) : list (Z * V) :=
  match l with
  | [] => [(n, v)]
  | (m, w) :: r => if n <? m then (n, v) :: l else (m, w) :: insertIndexed n v r
  end.

Fixpoint indexed {V} (o : t V) : list (Z * V) :=
  match o with
  | [] => []
  | (k, v) :: r =>
      match arrayIndex k with
      | Some n => insertIndexed n v (indexed r)
      | None => indexed r
      end
  end.

Fixpoint named {V} (o : t V) : list V :=
  match o with
  | [] => []
  | (k, v) :: r =>
      match arrayIndex k with
      | Some _ => named r
      | None => v :: named r
      end
  end.

(** [Object.values(o)] *)
Definition values {V} (o : t V) : list V :=
  (List.map snd (indexed o) ++ named o)%list.

End JsObject.

(* ===================================================================== *)
(** * Team workload *)
(* ===================================================================== *)

Module Workload.

Record Entry := {
  login : string;
  avatar_url : string;
  activeIssues : Z;
  upcomingIssues : Z;
  overdueIssues : Z;
  totalWorkload : Z }.

Definition newEntry (a : Assignee.t) : Entry :=
  {| login := Assignee.login a;
     avatar_url := Assignee.avatar_url a;
     activeIssues := 0;
     upcomingIssues := 0;
     overdueIssues := 0;
     totalWorkload := 0 |}.

Section WithClock.
(** The time value of [new Date()] read at the start of the analysis. *)
Variable now : Z.

(** [event.endDate && event.endDate < now] *)
Definition isOverdue (event : CalendarEvent) : bool :=
  match endDate event with
  | Some d => JsDate.lt d (JsDate.Instant now)
  | None => false
  end.

(** [event.startDate > now] *)
Definition isUpcoming (event : CalendarEvent) : bool :=
  match startDate event with
  | Some d => JsDate.gt d (JsDate.Instant now)
  | None => false
  end.

(** The four updates of [member] in the inner loop. *)
Definition count (event : CalendarEvent) (member : Entry) : Entry :=
  {| login := login member;
     avatar_url := avatar_url member;
     activeIssues := activeIssues member + 1;
     upcomingIssues :=
       if isUpcoming event then upcomingIssues member + 1 else upcomingIssues member;
     overdueIssues :=
       if isOverdue event then overdueIssues member + 1 else overdueIssues member;
     totalWorkload := totalWorkload member + 1 |}.

(** The body of [event.assignees.forEach].  When [teamWorkload] has
    no own property [assignee.login] but inherits one, the test
    [!teamWorkload[assignee.login]] is false, no entry is created,
    and [member] is the inherited object: the increments land
    outside [teamWorkload]. *)
Definition visitAssignee (event : CalendarEvent)
    (teamWorkload : JsObject.t Entry) (assignee : Assignee.t) : JsObject.t Entry :=
  let key := Assignee.login assignee in
  let teamWorkload1 :=
    match JsObject.getOwn key teamWorkload with
    | Some _ => teamWorkload
    | None =>
        if JsObject.inherited key then teamWorkload
        else JsObject.addOwn key (newEntry assignee) teamWorkload
    end in
  match JsObject.getOwn key teamWorkload1 with
  | Some member => JsObject.replaceOwn key (count event member) teamWorkload1
  | None => teamWorkload1
  end.

(** The body of [events.forEach]. *)
Definition visitEvent (teamWorkload : JsObject.t Entry) (event : CalendarEvent)
    : JsObject.t Entry :=
  if String.eqb (status event) "closed" then teamWorkload
  else fold_left (visitAssignee event) (ev_assignees event) teamWorkload.

Definition collect (events : list CalendarEvent) : JsObject.t Entry :=
  fold_left visitEvent events [].

(** [(a, b) => a.totalWorkload - b.totalWorkload] *)
Definition compareFn (a b : Entry) : Z := totalWorkload a - totalWorkload b.

(** [Array.prototype.sort] with [compareFn]: a stable sort. *)
Fixpoint insertSorted (x : Entry) (l : list Entry) : list Entry :=
  match l with
  | [] => [x]
  | y :: r => if compareFn x y <=? 0 then x :: l else y :: insertSorted x r
  end.

Definition sort (l : list Entry) : list Entry :=
  fold_right insertSorted [] l.

Definition analyzeTeamWorkload (events : list CalendarEvent) : list Entry :=
  sort (JsObject.values (collect events)).

End WithClock.

(** ** Vocabulary for the statements about the analysis *)

Definition isOpen (event : CalendarEvent) : bool :=
  negb (String.eqb (status event) "closed").

(** The pairs of an event and one of its assignees that the two nested
    loops visit, in the order of the visits. *)
Definition visits (events : list CalendarEvent) : list (CalendarEvent * Assignee.t) :=
  flat_map (fun event => List.map (pair event) (ev_assignees event))
           (List.filter isOpen events).

(** The elements of a list in the order of their first occurrence,
    without those already [seen]. *)
Fixpoint firsts (seen l : list string) : list string :=
  match l with
  | [] => []
  | x :: r =>
      if existsb (String.eqb x) seen then firsts seen r
      else x :: firsts (seen ++ [x])%list r
  end.


(** How many of the visits are visits of the login [l] on an event
    that satisfies [p]. *)
Definition countVisits (p : CalendarEvent -> bool) (l : string)
    (events : list CalendarEvent) : Z :=
  Z.of_nat (List.length
    (List.filter (fun v => String.eqb (Assignee.login (snd v)) l && p (fst v))
                 (visits events))).

End Workload.

(* ===================================================================== *)
(** * Calendar grid: the grouping of events by day in [createCalendarUI] *)
(* ===================================================================== *)

Module Grid.
Section WithZone.
Variable tz : Z.

(** [event.startDate > monthStart ? event.startDate : monthStart] *)
Definition clipStart (start : JsDate.Date) (monthStart : Z) : Z :=
  match start with
  | JsDate.Instant s =>
      if JsDate.gt start (JsDate.Instant monthStart) then s else monthStart
  | JsDate.InvalidDate => monthStart
  end.

(** [event.endDate < monthEnd ? event.endDate : monthEnd] *)
Definition clipEnd (end_ : JsDate.Date) (monthEnd : Z) : Z :=
  match end_ with
  | JsDate.Instant e =>
      if JsDate.lt end_ (JsDate.Instant monthEnd) then e else monthEnd
  | JsDate.InvalidDate => monthEnd
  end.

(** [eventStart <= monthEnd && eventEnd >= monthStart] *)
Definition reachesMonth (currentDate : Z) (start end_ : JsDate.Date) : bool :=
  let monthStart := JsDate.startOfMonth tz currentDate in
  let monthEnd := JsDate.endOfMonth tz currentDate in
  (clipStart start monthStart <=? monthEnd) && (monthStart <=? clipEnd end_ monthEnd).

(** The branch "Multi-day event". *)
Definition multiDayDates (currentDate : Z) (start end_ : JsDate.Date) : list Z :=
  let monthStart := JsDate.startOfMonth tz currentDate in
  let monthEnd := JsDate.endOfMonth tz currentDate in
  let eventStart := clipStart start monthStart in
  let eventEnd := clipEnd end_ monthEnd in
  if reachesMonth currentDate start end_
  then JsDate.eachDayOfInterval tz eventStart eventEnd
  else [].

(** The branch "Single day event". *)
Definition singleDayDates (currentDate : Z) (start : JsDate.Date) : list Z :=
  match start with
  | JsDate.Instant s =>
      if JsDate.isSameMonth tz start (JsDate.Instant currentDate) then [s] else []
  | JsDate.InvalidDate => []
  end.

(** The array [eventDates] built for an event with start date
    [start] and end date [end_] ([None] for [null]). *)
Definition datesOf (currentDate : Z) (start : JsDate.Date)
    (end_ : option JsDate.Date) : list Z :=
  match end_ with
  | Some e =>
      if JsDate.timeDiffers start e
      then multiDayDates currentDate start e
      else singleDayDates currentDate start
  | None => singleDayDates currentDate start
  end.

(** [eventDates] of an event; reading [startDate.getTime()] of an
    event without a start date throws, which is [None] here.  No
    event returned by [transformToCalendarEvents] is without one. *)
Definition eventDates (currentDate : Z) (event : CalendarEvent) : option (list Z) :=
  match startDate event with
  | Some start => Some (datesOf currentDate start (endDate event))
  | None => None
  end.

(** The day keys under which an event is stored. *)
Definition dayKeys (currentDate : Z) (event : CalendarEvent) : option (list string) :=
  option_map (List.map (JsDate.formatDayKey tz)) (eventDates currentDate event).

(** The body of [eventDates.forEach].  A day key contains a hyphen,
    so it is not the name of an inherited property, and the object
    [eventsByDate] behaves as a finite map on day keys. *)
Definition pushUnder (event : CalendarEvent)
    (byDate : gmap string (list CalendarEvent)) (date : Z)
    : gmap string (list CalendarEvent) :=
  let dateKey := JsDate.formatDayKey tz date in
  <[ dateKey := (default [] (byDate !! dateKey) ++ [event])%list ]> byDate.

(** [events.forEach] of [createCalendarUI], from a given state of
    [eventsByDate]. *)
Fixpoint groupFrom (currentDate : Z) (events : list CalendarEvent)
    (byDate : gmap string (list CalendarEvent))
    : option (gmap string (list CalendarEvent)) :=
  match events with
  | [] => Some byDate
  | event :: rest =>
      match eventDates currentDate event with
      | Some dates =>
          groupFrom currentDate rest (fold_left (pushUnder event) dates byDate)
      | None => None
      end
  end.

(** The object [eventsByDate] that [createCalendarUI] builds. *)
Definition eventsByDate (currentDate : Z) (events : list CalendarEvent)
    : option (gmap string (list CalendarEvent)) :=
  groupFrom currentDate events ∅.

(** [eventsByDate[dateKey] || []], the events drawn in a day cell. *)
Definition dayEvents (byDate : gmap string (list CalendarEvent))
    (dateKey : string) : list CalendarEvent :=
  default [] (byDate !! dateKey).

(** ** The projection as the specification words it *)

(** The day numbers from [first] to [last], both included. *)
Definition dayRange (first last : Z) : list Z :=
  List.map (fun k => first + Z.of_nat k) (seq 0 (Z.to_nat (last - first + 1))).

(** The day key of a local day. *)
Definition keyOfDay (d : Z) : string :=
  JsDate.formatDayKey tz (JsDate.localMidnight tz d).

(** "Clip the event's [startDate, endDate] to the month's bounds and
    enumerate every day in the clipped inclusive range; skip
    entirely if the clipped range is empty." *)
Definition specMultiDayKeys (currentDate s e : Z) : list string :=
  let clippedStart := Z.max s (JsDate.startOfMonth tz currentDate) in
  let clippedEnd := Z.min e (JsDate.endOfMonth tz currentDate) in
  if clippedStart <=? clippedEnd
  then List.map keyOfDay
         (dayRange (JsDate.localDay tz clippedStart) (JsDate.localDay tz clippedEnd))
  else [].

End WithZone.
End Grid.

(* ===================================================================== *)
(** * Fetching project items: GraphQL first, label search on failure *)
(* ===================================================================== *)

(** The value of a call: it returns, or it throws an [Error] with a
    message. *)
Inductive Outcome (A : Type) : Type :=
| Returned (a : A)
| Thrown (message : string).
Arguments Returned {A} a.
Arguments Thrown {A} message.

Module Fetch.

Definition DEFAULT_ORG : string := "squareup".
Definition DEFAULT_PROJECT_NUMBER : Z := 333.
Definition DEFAULT_LABEL : string := "area: devrel-opensource".

(** ** The upstream responses *)

Record GqlActor := { g_login : string; g_avatarUrl : string }.

Record GqlMilestone := {
  g_ms_title : string;
  g_ms_description : option string;
  g_dueOn : option string }.

(** [item.content] of a GraphQL node. *)
Record GqlIssue := {
  g_id : string;
  g_number : Z;
  g_title : string;
  g_body : option string;
  g_state : string;
  g_createdAt : string;
  g_updatedAt : string;
  g_closedAt : option string;
  g_url : string;
  g_author : option GqlActor;
  g_labels : option (list Label);
  g_assignees : option (list GqlActor);
  g_milestone : option GqlMilestone }.

Record GqlFieldValue := {
  g_field : option string;
  g_date : option string;
  g_text : option string;
  g_name : option string;
  g_fv_number : option Z }.

Record GqlNode := {
  g_node_id : string;
  g_type : string;
  g_content : option GqlIssue;
  g_fieldValues : list GqlFieldValue }.

Inductive GqlResponse : Type :=
| GqlFailure (message : string)
| GqlNoProject
| GqlPage (nodes : list GqlNode) (hasNextPage : bool) (endCursor : option string).

(** An item of a search result. *)
Record RestIssue := {
  r_id : Z;
  r_number : Z;
  r_title : string;
  r_body : option string;
  r_state : string;
  r_created_at : string;
  r_updated_at : string;
  r_closed_at : option string;
  r_html_url : string;
  r_user : option Assignee.t;
  r_labels : list Label;
  r_assignees : option (list Assignee.t);
  r_milestone : option Milestone }.

Inductive SearchResponse : Type :=
| SearchFailure (message : string)
| SearchPage (items : list RestIssue).

(** What the process does that can be seen from outside. *)
Inductive Effect : Type :=
| Console (line : string)
| GraphqlRequest (org : string) (projectNumber : Z) (cursor : option string)
| SearchRequest (org : string) (page : Z).

(** The upstream is a script of responses for each API, one response
    per request in request order, and the effects so far.  A request
    past the end of a script fails. *)
Record World := {
  graphql : list GqlResponse;
  search : list SearchResponse;
  effects : list Effect }.

Definition emit (e : Effect) (w : World) : World :=
  {| graphql := graphql w; search := search w;
     effects := (effects w ++ [e])%list |}.

Section WithParser.
Variable parseDate : string -> JsDate.Date.

(** ** [fetchProjectItemsGraphQL] *)

(** The callback of [items.filter]. *)
Definition keepNode (since : JsDate.Date) (item : GqlNode) : bool :=
  match g_content item with
  | None => false
  | Some c =>
      if negb (String.eqb (g_type item) "ISSUE") then false
      else
        let hasRequiredLabel :=
          match g_labels c with
          | Some nodes => existsb (fun l => String.eqb (label_name l) DEFAULT_LABEL) nodes
          | None => false
          end in
        if negb hasRequiredLabel then false
        else JsDate.ge (parseDate (g_createdAt c)) since
  end.

(** [v || null] on a string. *)
Definition orNull (o : option string) : option string :=
  if JsString.truthy o then o else None.

Definition toAssignee (a : GqlActor) : Assignee.t :=
  {| Assignee.login := g_login a; Assignee.avatar_url := g_avatarUrl a |}.

Definition noActor : Assignee.t :=
  {| Assignee.login := ""; Assignee.avatar_url := "" |}.

(** The callback of [filteredItems.map], on a node that has content. *)
Definition convertIssue (c : GqlIssue) : Issue :=
  {| issue_id := g_id c;
     number := g_number c;
     title := g_title c;
     body := Some (JsString.orEmpty (g_body c));
     state := JsString.toLowerCase (g_state c);
     created_at := g_createdAt c;
     updated_at := g_updatedAt c;
     closed_at := g_closedAt c;
     html_url := g_url c;
     user := match g_author c with
             | Some a => toAssignee a
             | None => noActor
             end;
     labels := match g_labels c with Some nodes => nodes | None => [] end;
     assignees := match g_assignees c with
                  | Some nodes => List.map toAssignee nodes
                  | None => []
                  end;
     milestone := match g_milestone c with
                  | Some m => Some {| milestone_title := g_ms_title m;
                                      milestone_description := g_ms_description m;
                                      due_on := g_dueOn m |}
                  | None => None
                  end |}.

Definition convertFieldValue (fv : GqlFieldValue) : FieldValue :=
  {| field_name := JsString.orEmpty (g_field fv);
     fv_date := orNull (g_date fv);
     fv_text := orNull (g_text fv);
     fv_name := orNull (g_name fv);
     fv_number := match g_fv_number fv with
                  | Some 0 => None
                  | o => o
                  end |}.

Definition convertNode (item : GqlNode) : list ProjectItem :=
  match g_content item with
  | Some c => [ {| item_id := g_node_id item;
                   content := convertIssue c;
                   fieldValues := List.map convertFieldValue (g_fieldValues item) |} ]
  | None => []
  end.

Definition notFoundMessage (org : string) (projectNumber : Z) : string :=
  "Project " +:+ JsString.ofZ projectNumber +:+ " not found for organization " +:+ org.

(** The [while (hasNextPage)] loop, by recursion on the script of
    GraphQL responses that is left. *)
Fixpoint graphqlLoop (org : string) (projectNumber : Z) (since : JsDate.Date)
    (script : list GqlResponse) (cursor : option string)
    (allItems : list ProjectItem) (log : list Effect)
    : Outcome (list ProjectItem) * list GqlResponse * list Effect :=
  let log1 := (log ++ [GraphqlRequest org projectNumber cursor])%list in
  match script with
  | [] => (Thrown "request failed", [], log1)
  | GqlFailure m :: rest => (Thrown m, rest, log1)
  | GqlNoProject :: rest => (Thrown (notFoundMessage org projectNumber), rest, log1)
  | GqlPage nodes hasNextPage endCursor :: rest =>
      let filteredItems := List.filter (keepNode since) nodes in
      let allItems1 := (allItems ++ List.concat (List.map convertNode filteredItems))%list in
      if hasNextPage
      then graphqlLoop org projectNumber since rest endCursor allItems1 log1
      else (Returned allItems1, rest,
            (log1 ++ [Console ("Successfully fetched "
                               +:+ JsString.ofZ (Z.of_nat (List.length allItems1))
                               +:+ " items using GraphQL API")])%list)
  end.

Definition fetchProjectItemsGraphQL (org : string) (projectNumber : Z)
    (since : JsDate.Date) (w : World) : Outcome (list ProjectItem) * World :=
  let '(r, script, log) :=
    graphqlLoop org projectNumber since (graphql w) None [] (effects w) in
  (r, {| graphql := script; search := search w; effects := log |}).

(** ** [fetchIssuesByLabel] *)

Definition convertRest (issue : RestIssue) : ProjectItem :=
  {| item_id := JsString.ofZ (r_id issue);
     content :=
       {| issue_id := JsString.ofZ (r_id issue);
          number := r_number issue;
          title := r_title issue;
          body := Some (JsString.orEmpty (r_body issue));
          state := r_state issue;
          created_at := r_created_at issue;
          updated_at := r_updated_at issue;
          closed_at := r_closed_at issue;
          html_url := r_html_url issue;
          user := match r_user issue with
                  | Some u => {| Assignee.login := Assignee.login u;
                                 Assignee.avatar_url := Assignee.avatar_url u |}
                  | None => noActor
                  end;
          labels := r_labels issue;
          assignees := match r_assignees issue with Some l => l | None => [] end;
          milestone := r_milestone issue |};
     fieldValues := [] |}.

Definition perPage : Z := 100.

(** The [while (hasNextPage)] loop with its [try]/[catch], by
    recursion on the script of search responses that is left.  A
    failed request is caught, reported on the console and ends the
    loop. *)
Fixpoint searchLoop (org : string) (script : list SearchResponse) (page : Z)
    (allItems : list ProjectItem) (log : list Effect)
    : list ProjectItem * list SearchResponse * list Effect :=
  let log1 := (log ++ [SearchRequest org page])%list in
  match script with
  | [] => (allItems, [], (log1 ++ [Console "Error searching issues:"])%list)
  | SearchFailure _ :: rest =>
      (allItems, rest, (log1 ++ [Console "Error searching issues:"])%list)
  | SearchPage items :: rest =>
      if Z.of_nat (List.length items) =? 0 then (allItems, rest, log1)
      else
        let allItems1 := (allItems ++ List.map convertRest items)%list in
        if Z.of_nat (List.length items) =? perPage
        then searchLoop org rest (page + 1) allItems1 log1
        else (allItems1, rest, log1)
  end.

(** [since.toISOString()] throws on an invalid date; this happens
    inside the [try], before any request is sent. *)
Definition fetchIssuesByLabel (org : string) (since : JsDate.Date) (w : World)
    : Outcome (list ProjectItem) * World :=
  match since with
  | JsDate.InvalidDate =>
      (Returned [], emit (Console "Error searching issues:") w)
  | JsDate.Instant _ =>
      let '(items, script, log) := searchLoop org (search w) 1 [] (effects w) in
      (Returned items, {| graphql := graphql w; search := script; effects := log |})
  end.

(** ** [fetchProjectItems] *)

Definition fallbackLine : string :=
  "GraphQL API failed, falling back to Search API:".

(** [sinceDate || new Date('2025-08-01')] *)
Definition sinceOrDefault (sinceDate : option JsDate.Date) : JsDate.Date :=
  match sinceDate with
  | Some d => d
  | None => parseDate "2025-08-01"
  end.

Definition fetchProjectItems (org : string) (projectNumber : Z)
    (sinceDate : option JsDate.Date) (w : World)
    : Outcome (list ProjectItem) * World :=
  let since := sinceOrDefault sinceDate in
  let w1 := emit (Console "Attempting to use GraphQL API for Projects v2...") w in
  match fetchProjectItemsGraphQL org projectNumber since w1 with
  | (Returned items, w2) => (Returned items, w2)
  | (Thrown _, w2) => fetchIssuesByLabel org since (emit (Console fallbackLine) w2)
  end.

(** [getCalendarEvents] *)
Definition getCalendarEvents (org : string) (projectNumber : Z)
    (sinceDate : option JsDate.Date) (w : World)
    : Outcome (list CalendarEvent) * World :=
  match fetchProjectItems org projectNumber sinceDate w with
  | (Returned items, w1) =>
      (Returned (Extractor.transformToCalendarEvents parseDate items), w1)
  | (Thrown m, w1) => (Thrown m, w1)
  end.

(** How often the fallback to the search API was taken. *)
Definition fallbacks (log : list Effect) : nat :=
  List.length (List.filter
    (fun e => match e with
              | Console l => String.eqb l fallbackLine
              | _ => false
              end) log).

(** How many search requests were sent. *)
Definition searchRequests (log : list Effect) : nat :=
  List.length (List.filter
    (fun e => match e with
              | SearchRequest _ _ => true
              | _ => false
              end) log).

End WithParser.
End Fetch.

(* ===================================================================== *)
(** * The tool-call handler *)
(* ===================================================================== *)

Module Dispatch.

Inductive ContentBlock : Type :=
| TextBlock (text : string)
| UIResource (uri : string) (htmlString : string).

(** The object returned to the caller; [isError] is [false] when the
    property is absent. *)
Record Result := {
  content : list ContentBlock;
  isError : bool }.

Definition toolNames : list string :=
  [ "get_team_status"; "get_person_schedule"; "analyze_workload";
    "find_best_assignee"; "get_calendar_events" ].

Definition bestAssigneeText (bestAssignee : Workload.Entry) : string :=
  "# Best Assignee Recommendation" +:+ JsString.LF +:+ JsString.LF
  +:+ "**" +:+ Workload.login bestAssignee +:+ "** has the lightest workload:" +:+ JsString.LF
  +:+ "- Current workload: " +:+ JsString.ofZ (Workload.totalWorkload bestAssignee)
  +:+ " issues" +:+ JsString.LF
  +:+ "- Active: " +:+ JsString.ofZ (Workload.activeIssues bestAssignee) +:+ JsString.LF
  +:+ "- Upcoming: " +:+ JsString.ofZ (Workload.upcomingIssues bestAssignee) +:+ JsString.LF
  +:+ "- Overdue: " +:+ JsString.ofZ (Workload.overdueIssues bestAssignee).

(** [workloadAnalysis[0]], when the analysis is not empty. *)
Definition bestAssignee (workloadAnalysis : list Workload.Entry) : option Workload.Entry :=
  match workloadAnalysis with
  | [] => None
  | first :: _ => Some first
  end.

Section WithEnvironment.
Variable parseDate : string -> JsDate.Date.
(** The argument object of a request. *)
Variable Args : Type.
(** [createBestAssigneeUI], the HTML view of a recommendation. *)
Variable createBestAssigneeUI : Workload.Entry -> list Workload.Entry -> string.
(** The bodies of the other four cases of the [switch]: each fetches
    the events and builds a text and an HTML view, and each can
    throw. *)
Variable teamStatusCase personScheduleCase analyzeWorkloadCase calendarEventsCase :
  Args -> Fetch.World -> Outcome Result * Fetch.World.
(** The clock: [new Date()] in the analysis, [Date.now()] in the
    resource address. *)
Variable now : Z.

(** The part of the case [find_best_assignee] after the analysis. *)
Definition bestAssigneeResult (workloadAnalysis : list Workload.Entry) : Result :=
  match bestAssignee workloadAnalysis with
  | None =>
      {| content := [TextBlock "No team members found in the current project."];
         isError := false |}
  | Some best =>
      {| content :=
           [ TextBlock (bestAssigneeText best);
             UIResource ("ui://best-assignee/" +:+ JsString.ofZ now)
                        (createBestAssigneeUI best workloadAnalysis) ];
         isError := false |}
  end.

Definition findBestAssigneeCase (w : Fetch.World) : Outcome Result * Fetch.World :=
  match Fetch.getCalendarEvents parseDate Fetch.DEFAULT_ORG
          Fetch.DEFAULT_PROJECT_NUMBER None w with
  | (Returned events, w1) =>
      (Returned (bestAssigneeResult (Workload.analyzeTeamWorkload now events)), w1)
  | (Thrown m, w1) => (Thrown m, w1)
  end.

(** The [switch (name)] inside the [try]. *)
Definition runTool (name : string) (args : Args) (w : Fetch.World)
    : Outcome Result * Fetch.World :=
  if String.eqb name "get_team_status" then teamStatusCase args w
  else if String.eqb name "get_person_schedule" then personScheduleCase args w
  else if String.eqb name "analyze_workload" then analyzeWorkloadCase args w
  else if String.eqb name "find_best_assignee" then findBestAssigneeCase w
  else if String.eqb name "get_calendar_events" then calendarEventsCase args w
  else (Thrown ("Unknown tool: " +:+ name), w).

(** The [catch] clause. *)
Definition errorResult (message : string) : Result :=
  {| content := [TextBlock ("Error: " +:+ message)]; isError := true |}.

(** The handler of [CallToolRequestSchema]. *)
Definition callTool (name : string) (args : Args) (w : Fetch.World)
    : Result * Fetch.World :=
  match runTool name args w with
  | (Returned r, w1) => (r, w1)
  | (Thrown m, w1) =>
      (errorResult m, Fetch.emit (Fetch.Console ("Error in tool " +:+ name +:+ ":")) w1)
  end.

End WithEnvironment.
End Dispatch.

(* ===================================================================== *)
(** * Sample inputs *)
(* ===================================================================== *)

Module Samples.

Definition dateField (name date : string) : FieldValue :=
  {| field_name := name; fv_date := Some date; fv_text := None;
     fv_name := None; fv_number := None |}.

Definition person (name : string) : Assignee.t :=
  {| Assignee.login := name;
     Assignee.avatar_url := "https://avatars.example/" +:+ name |}.

Definition issue (n : Z) (text : string) (st : string) (who : list Assignee.t) : Issue :=
  {| issue_id := "I_" +:+ JsString.ofZ n;
     number := n;
     title := "Issue " +:+ JsString.ofZ n;
     body := Some text;
     state := st;
     created_at := "2025-08-15T12:00:00Z";
     updated_at := "2025-08-16T12:00:00Z";
     closed_at := None;
     html_url := "https://github.com/squareup/repo/issues/" +:+ JsString.ofZ n;
     user := person "author";
     labels := [];
     assignees := who;
     milestone := None |}.

Definition item (n : Z) (text : string) (fields : list FieldValue) : ProjectItem :=
  {| item_id := "PVTI_" +:+ JsString.ofZ n;
     content := issue n text "open" [];
     fieldValues := fields |}.

(** Two fields for each slot. *)
Definition twoStartFields : ProjectItem :=
  item 1 "" [ dateField "Start Date" "2025-09-01"; dateField "Restart" "2025-09-15" ].

Definition twoEndFields : ProjectItem :=
  item 2 "" [ dateField "End Date" "2025-09-20"; dateField "Due" "2025-09-25" ].

(** The body of the scenario, no field values. *)
Definition markedBody : string :=
  "**Start Date:** foo (2025-09-01)" +:+ JsString.LF +:+ "**End Date:** bar (2025-09-10)".

Definition markedItem : ProjectItem := item 3 markedBody [].

Definition bareItem : ProjectItem := item 4 "No dates in here." [].

(** ** Events *)

Definition sep (day : Z) : JsDate.Date :=
  JsDate.Instant (JsDate.daysFromCivil 2025 9 day * JsDate.msPerDay).

Definition event (n : Z) (st : string) (who : list string)
    (start : JsDate.Date) (finish : option JsDate.Date) : CalendarEvent :=
  {| id := JsString.ofZ n;
     ev_title := "Issue " +:+ JsString.ofZ n;
     startDate := Some start;
     endDate := finish;
     url := "https://github.com/squareup/repo/issues/" +:+ JsString.ofZ n;
     ev_labels := [];
     ev_assignees := List.map person who;
     status := st;
     projectStatus := None;
     type := "issue" |}.

(** Noon UTC on 2025-09-10, the clock of the examples. *)
Definition noon10 : Z := JsDate.daysFromCivil 2025 9 10 * JsDate.msPerDay + 43200000.

(** Three open events of alice, none overdue and one upcoming, and one
    closed event that is both overdue and assigned to her. *)
Definition aliceEvents : list CalendarEvent :=
  [ event 1 "open" ["alice"] (sep 1) None;
    event 2 "open" ["alice"] (sep 2) (Some (sep 20));
    event 3 "closed" ["alice"] (sep 3) (Some (sep 4));
    event 4 "open" ["alice"] (sep 15) (Some (sep 16)) ].





(** An open event of the user whose login is constructor. *)
Definition constructorEvent : CalendarEvent :=
  event 1 "open" ["constructor"] (sep 1) None.

(** ** Events for the calendar grid (UTC) *)

(** 2025-08-30 to 2025-09-05. *)
Definition augustToSeptember : CalendarEvent :=
  event 10 "open" ["alice"] (JsDate.isoParse "2025-08-30")
        (Some (JsDate.isoParse "2025-09-05")).

(** An event whose end date is before its start date. *)
Definition backwards : CalendarEvent :=
  event 11 "open" ["alice"] (JsDate.isoParse "2025-09-10")
        (Some (JsDate.isoParse "2025-09-05")).

(** One day, with and without an end date. *)
Definition oneDay : CalendarEvent :=
  event 12 "open" ["bob"] (JsDate.isoParse "2025-09-15")
        (Some (JsDate.isoParse "2025-09-15")).

Definition openEnded : CalendarEvent :=
  event 13 "open" ["bob"] (JsDate.isoParse "2025-09-15") None.

(** A date in September 2025. *)
Definition midSeptember : Z := noon10.

(** ** Upstream scripts *)

Definition restIssue (n : nat) : Fetch.RestIssue :=
  {| Fetch.r_id := Z.of_nat n;
     Fetch.r_number := Z.of_nat n;
     Fetch.r_title := "Issue";
     Fetch.r_body := None;
     Fetch.r_state := "open";
     Fetch.r_created_at := "2025-08-15T12:00:00Z";
     Fetch.r_updated_at := "2025-08-16T12:00:00Z";
     Fetch.r_closed_at := None;
     Fetch.r_html_url := "https://github.com/squareup/repo/issues";
     Fetch.r_user := None;
     Fetch.r_labels := [];
     Fetch.r_assignees := None;
     Fetch.r_milestone := None |}.

(** Both APIs fail at the first request. *)
Definition bothDown : Fetch.World :=
  {| Fetch.graphql := [Fetch.GqlFailure "Bad credentials"];
     Fetch.search := [Fetch.SearchFailure "API rate limit exceeded"];
     Fetch.effects := [] |}.

(** GraphQL fails; the search returns a full page and then fails. *)
Definition searchBreaks : Fetch.World :=
  {| Fetch.graphql := [Fetch.GqlNoProject];
     Fetch.search := [Fetch.SearchPage (List.map restIssue (seq 1 100));
                      Fetch.SearchFailure "API rate limit exceeded"];
     Fetch.effects := [] |}.

(** Bodies for the four cases that the dispatcher takes as parameters. *)
Definition failingCase (_ : unit) (w : Fetch.World)
    : Outcome Dispatch.Result * Fetch.World :=
  (Thrown "Invalid time value", w).

Definition noView (_ : Workload.Entry) (_ : list Workload.Entry) : string := "".

End Samples.

(* ===================================================================== *)
(** * Further vocabulary for the extractor *)
(* ===================================================================== *)

Module Fields.

(** The third branch of the loop over the field values is reached only
    by a field value that passed neither of the first two guards. *)
Definition suppliesStatus (fv : FieldValue) : bool :=
  negb (Extractor.isStartField fv) && negb (Extractor.isEndField fv)
  && Extractor.isStatusField fv.

(** An issue with another body. *)
Definition withBody (text : option string) (issue : Issue) : Issue :=
  {| issue_id := issue_id issue;
     number := number issue;
     title := title issue;
     body := text;
     state := state issue;
     created_at := created_at issue;
     updated_at := updated_at issue;
     closed_at := closed_at issue;
     html_url := html_url issue;
     user := user issue;
     labels := labels issue;
     assignees := assignees issue;
     milestone := milestone issue |}.

Definition itemWithBody (text : option string) (item : ProjectItem) : ProjectItem :=
  {| item_id := item_id item;
     content := withBody text (content item);
     fieldValues := fieldValues item |}.

(** Sample field values and items. *)
Definition statusField (name value : string) : FieldValue :=
  {| field_name := name; fv_date := None; fv_text := None;
     fv_name := Some value; fv_number := None |}.

(** A field whose name matches two branches and that carries both a
    date and a select name. *)
Definition startStatus : FieldValue :=
  {| field_name := "Start status"; fv_date := Some "2025-09-01"; fv_text := None;
     fv_name := Some "Planned"; fv_number := None |}.

Definition statusItem : ProjectItem :=
  Samples.item 20 Samples.markedBody
    [ statusField "Status" "Todo"; startStatus; statusField "Progress" "In review";
      Samples.dateField "Due" "2025-09-30" ].

Definition milestoneIssue : Issue :=
  {| issue_id := "I_21"; number := 21; title := "Issue 21";
     body := Some "Nothing to see.";
     state := "open";
     created_at := "2025-08-15T12:00:00Z";
     updated_at := "2025-08-16T12:00:00Z";
     closed_at := None;
     html_url := "https://github.com/squareup/repo/issues/21";
     user := Samples.person "author";
     labels := [];
     assignees := [];
     milestone := Some {| milestone_title := "Q3";
                          milestone_description := None;
                          due_on := Some "2025-09-30T00:00:00Z" |} |}.

Definition milestoneItem : ProjectItem :=
  {| item_id := "PVTI_21"; content := milestoneIssue; fieldValues := [] |}.

End Fields.

Module Text.

(** Every character of a text satisfies [p]. *)
Fixpoint all (p : ascii -> bool) (s : string) : bool :=
  match s with
  | EmptyString => true
  | String c r => p c && all p r
  end.

(** A text that stays on one line. *)
Definition oneLine (s : string) : bool :=
  all (fun c => negb (BodyPattern.isLineTerminator c)) s.

End Text.

(* ===================================================================== *)
(** * Further vocabulary for the fetch *)
(* ===================================================================== *)

Module FetchLog.

(** The page numbers of the search requests, in the order sent. *)
Definition searchPages (log : list Fetch.Effect) : list Z :=
  flat_map (fun e => match e with
                     | Fetch.SearchRequest _ page => [page]
                     | _ => []
                     end) log.

(** The cursors of the GraphQL requests, in the order sent. *)
Definition graphqlCursors (log : list Fetch.Effect) : list (option string) :=
  flat_map (fun e => match e with
                     | Fetch.GraphqlRequest _ _ cursor => [cursor]
                     | _ => []
                     end) log.

(** The end cursors of the responses that announce a next page. *)
Definition nextCursors (responses : list Fetch.GqlResponse) : list (option string) :=
  flat_map (fun r => match r with
                     | Fetch.GqlPage _ true endCursor => [endCursor]
                     | _ => []
                     end) responses.

(** [labels.some((label) => label.name === DEFAULT_LABEL)] on the labels
    of a normalized issue. *)
Definition hasRequiredLabel (issue : Issue) : bool :=
  existsb (fun l => String.eqb (label_name l) Fetch.DEFAULT_LABEL) (labels issue).

(** ** Sample responses *)

Definition devrel : Label :=
  {| label_id := "LA_1"; label_name := Fetch.DEFAULT_LABEL;
     label_color := "0e8a16"; label_description := None |}.

Definition bug : Label :=
  {| label_id := "LA_2"; label_name := "bug";
     label_color := "d73a4a"; label_description := None |}.

Definition gqlIssue (n : Z) (created : string) (tags : list Label) : Fetch.GqlIssue :=
  {| Fetch.g_id := "I_" +:+ JsString.ofZ n;
     Fetch.g_number := n;
     Fetch.g_title := "Issue " +:+ JsString.ofZ n;
     Fetch.g_body := None;
     Fetch.g_state := "OPEN";
     Fetch.g_createdAt := created;
     Fetch.g_updatedAt := created;
     Fetch.g_closedAt := None;
     Fetch.g_url := "https://github.com/squareup/repo/issues/" +:+ JsString.ofZ n;
     Fetch.g_author := None;
     Fetch.g_labels := Some tags;
     Fetch.g_assignees := Some [ {| Fetch.g_login := "alice"; Fetch.g_avatarUrl := "" |} ];
     Fetch.g_milestone := None |}.

Definition gqlNode (n : Z) (created : string) (tags : list Label) : Fetch.GqlNode :=
  {| Fetch.g_node_id := "PVTI_" +:+ JsString.ofZ n;
     Fetch.g_type := "ISSUE";
     Fetch.g_content := Some (gqlIssue n created tags);
     Fetch.g_fieldValues :=
       [ {| Fetch.g_field := Some "Status"; Fetch.g_date := None; Fetch.g_text := None;
            Fetch.g_name := Some "Todo"; Fetch.g_fv_number := None |} ] |}.

(** Two GraphQL pages: of the four issues, one is too old and one lacks
    the label. *)
Definition twoPages : Fetch.World :=
  {| Fetch.graphql :=
       [ Fetch.GqlPage [ gqlNode 1 "2025-08-15T12:00:00Z" [devrel];
                         gqlNode 2 "2025-07-01T12:00:00Z" [devrel] ]
                       true (Some "cursor-1");
         Fetch.GqlPage [ gqlNode 3 "2025-08-20T12:00:00Z" [bug];
                         gqlNode 4 "2025-08-21T12:00:00Z" [bug; devrel] ]
                       false None ];
     Fetch.search := [];
     Fetch.effects := [] |}.

End FetchLog.

(* ===================================================================== *)
(** * The figures of the workload view *)
(* ===================================================================== *)

Module WorkloadView.

(** [workloadAnalysis.reduce((sum, m) => sum + m.totalWorkload, 0)] in
    [createWorkloadAnalysisUI]. *)
Definition totalIssues (workloadAnalysis : list Workload.Entry) : Z :=
  fold_left (fun sum m => sum + Workload.totalWorkload m) workloadAnalysis 0.

(** The level shown for a member, in the views and in the text of
    [analyze_workload]. *)
Definition workloadLevel (member : Workload.Entry) : string :=
  if Workload.totalWorkload member <=? 2 then "Light"
  else if Workload.totalWorkload member <=? 4 then "Moderate"
  else "Heavy".

(** [allMembers.slice(0, 5)] with the test
    [member.login === bestAssignee.login] of [createBestAssigneeUI]:
    which of the cards compared are drawn as the recommended one. *)
Definition recommendedMarks (bestAssignee : Workload.Entry)
    (allMembers : list Workload.Entry) : list bool :=
  List.map (fun member => String.eqb (Workload.login member) (Workload.login bestAssignee))
           (firstn 5 allMembers).

(** An event with two assignees and a closed event. *)
Definition pairEvents : list CalendarEvent :=
  [ Samples.event 1 "open" ["alice"; "bob"] (Samples.sep 1) None;
    Samples.event 2 "open" ["bob"] (Samples.sep 20) (Some (Samples.sep 21));
    Samples.event 3 "closed" ["carol"] (Samples.sep 2) (Some (Samples.sep 3));
    Samples.event 4 "open" ["bob"; "toString"] (Samples.sep 2) (Some (Samples.sep 3)) ].

(** The entries that the analysis of [pairEvents] gives at noon of
    10 September 2025. *)
Definition aliceEntry : Workload.Entry :=
  {| Workload.login := "alice";
     Workload.avatar_url := "https://avatars.example/alice";
     Workload.activeIssues := 1; Workload.upcomingIssues := 0;
     Workload.overdueIssues := 0; Workload.totalWorkload := 1 |}.

Definition bobEntry : Workload.Entry :=
  {| Workload.login := "bob";
     Workload.avatar_url := "https://avatars.example/bob";
     Workload.activeIssues := 3; Workload.upcomingIssues := 1;
     Workload.overdueIssues := 1; Workload.totalWorkload := 3 |}.

End WorkloadView.

(* ===================================================================== *)
(** * The day cells of [createCalendarUI] *)
(* ===================================================================== *)

Module CalendarView.
Section WithZone.
Variable tz : Z.

(** [eachDayOfInterval({ start: monthStart, end: monthEnd })], the days
    for which a cell is drawn. *)
Definition calendarDays (currentDate : Z) : list Z :=
  JsDate.eachDayOfInterval tz (JsDate.startOfMonth tz currentDate)
                              (JsDate.endOfMonth tz currentDate).

(** [eventsByDate[dateKey] || []] for the cell of [day]. *)
Definition cellEvents (byDate : gmap string (list CalendarEvent)) (day : Z)
    : list CalendarEvent :=
  Grid.dayEvents byDate (JsDate.formatDayKey tz day).

(** [dayEvents.slice(0, 3)], the events drawn in the cell. *)
Definition shownEvents (byDate : gmap string (list CalendarEvent)) (day : Z)
    : list CalendarEvent :=
  firstn 3 (cellEvents byDate day).

(** [dayEvents.length > 3 ? dayEvents.length - 3 : 0] *)
Definition moreCount (byDate : gmap string (list CalendarEvent)) (day : Z) : Z :=
  let n := Z.of_nat (List.length (cellEvents byDate day)) in
  if 3 <? n then n - 3 else 0.

End WithZone.

(** ** The colours of the events *)

Definition assigneeColors : list string :=
  [ "#3b82f6"; "#10b981"; "#f59e0b"; "#ef4444"; "#8b5cf6";
    "#06b6d4"; "#ec4899"; "#84cc16"; "#f97316"; "#6366f1" ].

(** [Array.from(new Set(events.flatMap(event =>
    event.assignees.map(a => a.login))))]: a set keeps the order of the
    first insertions. *)
Definition uniqueAssignees (events : list CalendarEvent) : list string :=
  Workload.firsts []
    (flat_map (fun event => List.map Assignee.login (ev_assignees event)) events).

(** [assigneeColors[index % assigneeColors.length]] *)
Definition paletteAt (index : nat) : string :=
  nth (index mod List.length assigneeColors) assigneeColors "".

(** [assigneeColorMap[login] = color].  The name [__proto__] is an
    accessor that every object inherits, and its setter drops a string;
    every other name becomes an own property. *)
Definition setColor (login color : string) (m : JsObject.t string) : JsObject.t string :=
  if String.eqb login "__proto__" then m
  else match JsObject.getOwn login m with
       | Some _ => JsObject.replaceOwn login color m
       | None => JsObject.addOwn login color m
       end.

(** [uniqueAssignees.forEach((login, index) => ...)] from [index] on. *)
Fixpoint colorsFrom (index : nat) (logins : list string) (m : JsObject.t string)
    : JsObject.t string :=
  match logins with
  | [] => m
  | login :: rest => colorsFrom (S index) rest (setColor login (paletteAt index) m)
  end.

Definition assigneeColorMap (events : list CalendarEvent) : JsObject.t string :=
  colorsFrom 0 (uniqueAssignees events) [].

(** What [assigneeColorMap[login]] reads: a colour that was written, a
    value that every object inherits, or [undefined]. *)
Inductive Paint : Type :=
| Hex (code : string)
| InheritedValue
| UndefinedValue.

Definition readColor (m : JsObject.t string) (login : string) : Paint :=
  match JsObject.getOwn login m with
  | Some code => Hex code
  | None => if JsObject.inherited login then InheritedValue else UndefinedValue
  end.

(** [primaryAssignee ? assigneeColorMap[primaryAssignee.login] : '#6b7280'] *)
Definition eventColor (events : list CalendarEvent) (event : CalendarEvent) : Paint :=
  match ev_assignees event with
  | [] => Hex "#6b7280"
  | primaryAssignee :: _ =>
      readColor (assigneeColorMap events) (Assignee.login primaryAssignee)
  end.

(** Five events that have 15 September 2025 among their days, and one
    that ends ten days before. *)
Definition busyDay : list CalendarEvent :=
  [ Samples.oneDay; Samples.augustToSeptember; Samples.openEnded;
    Samples.event 14 "closed" ["carol"] (JsDate.isoParse "2025-09-12")
                  (Some (JsDate.isoParse "2025-09-15"));
    Samples.event 15 "open" [] (JsDate.isoParse "2025-09-15") None;
    Samples.event 16 "open" ["bob"] (JsDate.isoParse "2025-09-15T10:00:00Z") None ].

(** An issue whose body leaves both dates open. *)
Definition undatedItem : ProjectItem :=
  Samples.item 30
    ("**Start Date:** not before the release (TBD)" +:+ JsString.LF
     +:+ "**End Date:** open (TBD)")
    [].

End CalendarView.

(* ===================================================================== *)
(** * The five tools *)
(* ===================================================================== *)

(** The bodies of the cases of the [switch] in the handler of
    [CallToolRequestSchema].  The texts are built as the code builds
    them.  The HTML views are kept abstract: each is a function of the
    values it is called with and returns a string.  The only dates that
    a view formats with [format] are dates that the text of the same
    answer has formatted before, and the day keys of [createCalendarUI],
    which are keys of valid dates.  A request may come without an
    argument object; the properties of an argument object are read as
    the input schemas declare them: strings, and integers for the
    numbers. *)

Module Handlers.

(** The argument object of a request, with the properties that the
    input schemas name; [None] is a property that is absent.  The
    handlers receive an [option Args]: [None] is a request without
    [arguments], for which [args] is [undefined]. *)
Record Args := {
  login : option string;
  days : option Z;
  org : option string;
  project : option Z;
  since : option string;
  assignee : option string }.

Definition noArgs : Args :=
  {| login := None; days := None; org := None; project := None;
     since := None; assignee := None |}.

(** [Array.prototype.join] *)
Fixpoint join (sep : string) (l : list string) : string :=
  match l with
  | [] => ""
  | x :: r =>
      match r with
      | [] => x
      | _ :: _ => x +:+ sep +:+ join sep r
      end
  end.

(** [text || alternative] on a string. *)
Definition orText (text alternative : string) : string :=
  if String.eqb text "" then alternative else text.

(** A template literal prints an absent value as [undefined]. *)
Definition printed (o : option string) : string :=
  match o with
  | Some s => s
  | None => "undefined"
  end.

Definition bind {A B} (o : Outcome A) (f : A -> Outcome B) : Outcome B :=
  match o with
  | Returned a => f a
  | Thrown m => Thrown m
  end.

(** [Array.prototype.map] with a callback that can throw: the first
    exception ends the loop. *)
Fixpoint mapOutcome {A B} (f : A -> Outcome B) (l : list A) : Outcome (list B) :=
  match l with
  | [] => Returned []
  | x :: r =>
      bind (f x) (fun y => bind (mapOutcome f r) (fun ys => Returned (y :: ys)))
  end.

Definition monthNames : list string :=
  [ "Jan"; "Feb"; "Mar"; "Apr"; "May"; "Jun";
    "Jul"; "Aug"; "Sep"; "Oct"; "Nov"; "Dec" ].

(** The start date of an event as the handlers read it.  An event of
    [transformToCalendarEvents] always has one; [null] is read as the
    time value 0, by the comparisons and by [format] (date-fns 4)
    alike. *)
Definition startOf (event : CalendarEvent) : JsDate.Date :=
  match startDate event with
  | Some d => d
  | None => JsDate.Instant 0
  end.

(** [event.assignees.some(a => a.login === name)] *)
Definition assignedTo (name : option string) (event : CalendarEvent) : bool :=
  match name with
  | Some l => existsb (fun a => String.eqb (Assignee.login a) l) (ev_assignees event)
  | None => false
  end.

(** [a.startDate - b.startDate]; [None] is NaN. *)
Definition compareStart (a b : CalendarEvent) : option Z :=
  match startOf a, startOf b with
  | JsDate.Instant x, JsDate.Instant y => Some (x - y)
  | _, _ => None
  end.

(** [Array.prototype.sort] with [compareStart]: a stable sort; a
    comparison that gives NaN counts as 0. *)
Fixpoint insertByStart (x : CalendarEvent) (l : list CalendarEvent) : list CalendarEvent :=
  match l with
  | [] => [x]
  | y :: r =>
      if match compareStart x y with Some c => c <=? 0 | None => true end
      then x :: l
      else y :: insertByStart x r
  end.

Definition sortByStart (l : list CalendarEvent) : list CalendarEvent :=
  fold_right insertByStart [] l.

(** ** Vocabulary for the statements about the tools *)

(** The time value of the start date, when it is a number. *)
Definition startTime (event : CalendarEvent) : option Z :=
  match startOf event with
  | JsDate.Instant t => Some t
  | JsDate.InvalidDate => None
  end.

(** The event has an end date, and it is an invalid date. *)
Definition endIsInvalid (event : CalendarEvent) : bool :=
  match endDate event with
  | Some JsDate.InvalidDate => true
  | _ => false
  end.

(** One of the dates that the texts print is an invalid date. *)
Definition hasInvalidDate (event : CalendarEvent) : bool :=
  match startOf event with
  | JsDate.InvalidDate => true
  | JsDate.Instant _ => endIsInvalid event
  end.

Section WithEnvironment.
(** Offset of local time from UTC, in milliseconds. *)
Variable tz : Z.
(** [new Date(string)] and date-fns [parseISO]. *)
Variable parseDate parseISO : string -> JsDate.Date.
(** The HTML views. *)
Variable createTeamStatusUI createWorkloadAnalysisUI : list Workload.Entry -> string.
Variable createBestAssigneeUI : Workload.Entry -> list Workload.Entry -> string.
Variable createPersonScheduleUI : list CalendarEvent -> option string -> Z -> string.
Variable createCalendarUI : list CalendarEvent -> string.
(** The message of the [TypeError] that the engine throws when a
    destructuring pattern reads its first property, which is named, from
    [args] and [args] is [undefined]. *)
Variable destructuringMessage : string -> string.
(** What a template literal prints for the number [days]: for an
    integer below 10^21, its decimal numeral. *)
Variable numberToString : Z -> string.
(** The clock. *)
Variable now : Z.

(** date-fns [format(date, 'MMM dd, yyyy')]: an invalid date makes it
    throw a [RangeError]. *)
Definition formatMedium (date : JsDate.Date) : Outcome string :=
  match date with
  | JsDate.Instant t =>
      let '(y, m, d) := JsDate.civilFromDays (JsDate.localDay tz t) in
      let yy := if 0 <? y then y else 1 - y in
      Returned (nth (Z.to_nat (m - 1)) monthNames "" +:+ " " +:+ JsString.padZeros 2 d
                +:+ ", " +:+ JsString.padZeros 4 yy)
  | JsDate.InvalidDate => Thrown "Invalid time value"
  end.

(** [event.endDate ? format(event.endDate, 'MMM dd, yyyy') : 'No end date'] *)
Definition endText (event : CalendarEvent) : Outcome string :=
  match endDate event with
  | Some e => formatMedium e
  | None => Returned "No end date"
  end.

(** ** [get_team_status] *)

Definition memberReport (member : Workload.Entry) : string :=
  "**" +:+ Workload.login member +:+ "**" +:+ JsString.LF
  +:+ "- Active Issues: " +:+ JsString.ofZ (Workload.activeIssues member) +:+ JsString.LF
  +:+ "- Upcoming Issues: " +:+ JsString.ofZ (Workload.upcomingIssues member) +:+ JsString.LF
  +:+ "- Overdue Issues: " +:+ JsString.ofZ (Workload.overdueIssues member) +:+ JsString.LF
  +:+ "- Total Workload: " +:+ JsString.ofZ (Workload.totalWorkload member).

Definition teamStatusResult (workloadAnalysis : list Workload.Entry) : Dispatch.Result :=
  let statusReport :=
    join (JsString.LF +:+ JsString.LF) (List.map memberReport workloadAnalysis) in
  {| Dispatch.content :=
       [ Dispatch.TextBlock
           ("# Team Status Report" +:+ JsString.LF +:+ JsString.LF
            +:+ orText statusReport "No team members found with active work.");
         Dispatch.UIResource ("ui://team-status/" +:+ JsString.ofZ now)
                             (createTeamStatusUI workloadAnalysis) ];
     Dispatch.isError := false |}.

Definition teamStatusCase (args : option Args) (w : Fetch.World)
    : Outcome Dispatch.Result * Fetch.World :=
  match Fetch.getCalendarEvents parseDate Fetch.DEFAULT_ORG
          Fetch.DEFAULT_PROJECT_NUMBER None w with
  | (Returned events, w1) =>
      (Returned (teamStatusResult (Workload.analyzeTeamWorkload now events)), w1)
  | (Thrown m, w1) => (Thrown m, w1)
  end.

(** ** [analyze_workload] *)

Definition analysisLine (index : nat) (member : Workload.Entry) : string :=
  JsString.ofZ (Z.of_nat index + 1) +:+ ". **" +:+ Workload.login member +:+ "** - "
  +:+ WorkloadView.workloadLevel member
  +:+ " (" +:+ JsString.ofZ (Workload.totalWorkload member) +:+ " issues)" +:+ JsString.LF
  +:+ "   - Active: " +:+ JsString.ofZ (Workload.activeIssues member)
  +:+ ", Upcoming: " +:+ JsString.ofZ (Workload.upcomingIssues member)
  +:+ ", Overdue: " +:+ JsString.ofZ (Workload.overdueIssues member).

(** [array.map((member, index) => ...)] *)
Fixpoint mapIndexed {A B} (f : nat -> A -> B) (index : nat) (l : list A) : list B :=
  match l with
  | [] => []
  | x :: r => f index x :: mapIndexed f (S index) r
  end.

Definition analyzeWorkloadResult (workloadAnalysis : list Workload.Entry)
    : Dispatch.Result :=
  let analysisText := join JsString.LF (mapIndexed analysisLine 0 workloadAnalysis) in
  {| Dispatch.content :=
       [ Dispatch.TextBlock
           ("# Team Workload Analysis" +:+ JsString.LF +:+ JsString.LF
            +:+ orText analysisText "No team workload data available.");
         Dispatch.UIResource ("ui://workload-analysis/" +:+ JsString.ofZ now)
                             (createWorkloadAnalysisUI workloadAnalysis) ];
     Dispatch.isError := false |}.

Definition analyzeWorkloadCase (args : option Args) (w : Fetch.World)
    : Outcome Dispatch.Result * Fetch.World :=
  match Fetch.getCalendarEvents parseDate Fetch.DEFAULT_ORG
          Fetch.DEFAULT_PROJECT_NUMBER None w with
  | (Returned events, w1) =>
      (Returned (analyzeWorkloadResult (Workload.analyzeTeamWorkload now events)), w1)
  | (Thrown m, w1) => (Thrown m, w1)
  end.

(** ** [get_person_schedule] *)

(** The time values of a [Date] reach 8.64e15 ms on either side of the
    epoch. *)
Definition maxTime : Z := 8640000000000000.

(** [addDays(new Date(), days)].  date-fns returns the date itself when
    [days] is 0 and calls [setDate(getDate() + days)] otherwise.  Local
    time has a fixed offset from UTC, so the same local time [days] days
    later is that many times 86400000 ms later; [setDate] clips a time
    value outside the range of time values to NaN, which leaves an
    invalid date. *)
Definition horizon (days : Z) : JsDate.Date :=
  if days =? 0 then JsDate.Instant now
  else
    let t := now + days * JsDate.msPerDay in
    if Z.abs t <=? maxTime then JsDate.Instant t else JsDate.InvalidDate.

(** [events.filter(...).sort((a, b) => a.startDate - b.startDate)] *)
Definition personEvents (name : option string) (days : Z)
    (events : list CalendarEvent) : list CalendarEvent :=
  sortByStart
    (List.filter
       (fun event => assignedTo name event
                     && JsDate.le (startOf event) (horizon days))
       events).

Definition scheduleEntry (event : CalendarEvent) : Outcome string :=
  bind (formatMedium (startOf event)) (fun startStr =>
  bind (endText event) (fun endStr =>
  Returned ("**" +:+ ev_title event +:+ "** (" +:+ status event +:+ ")" +:+ JsString.LF
            +:+ "- Start: " +:+ startStr +:+ JsString.LF
            +:+ "- End: " +:+ endStr +:+ JsString.LF
            +:+ "- URL: " +:+ url event))).

Definition scheduleText (name : option string) (days : Z)
    (selected : list CalendarEvent) : Outcome string :=
  match selected with
  | [] =>
      Returned ("No upcoming work found for " +:+ printed name +:+ " in the next "
                +:+ numberToString days +:+ " days.")
  | _ :: _ =>
      bind (mapOutcome scheduleEntry selected)
           (fun entries => Returned (join (JsString.LF +:+ JsString.LF) entries))
  end.

Definition personScheduleResult (name : option string) (days : Z)
    (events : list CalendarEvent) : Outcome Dispatch.Result :=
  let selected := personEvents name days events in
  bind (scheduleText name days selected) (fun text =>
  Returned
    {| Dispatch.content :=
         [ Dispatch.TextBlock
             ("# Schedule for " +:+ printed name +:+ " (Next " +:+ numberToString days
              +:+ " days)" +:+ JsString.LF +:+ JsString.LF +:+ text);
           Dispatch.UIResource
             ("ui://person-schedule/" +:+ printed name +:+ "/" +:+ JsString.ofZ now)
             (createPersonScheduleUI selected name days) ];
       Dispatch.isError := false |}).

(** [const { login, days = 7 } = args] comes first: without an
    argument object it throws before anything is fetched. *)
Definition personScheduleCase (args : option Args) (w : Fetch.World)
    : Outcome Dispatch.Result * Fetch.World :=
  match args with
  | None => (Thrown (destructuringMessage "login"), w)
  | Some args =>
      let days := default 7 (days args) in
      match Fetch.getCalendarEvents parseDate Fetch.DEFAULT_ORG
              Fetch.DEFAULT_PROJECT_NUMBER None w with
      | (Returned events, w1) => (personScheduleResult (login args) days events, w1)
      | (Thrown m, w1) => (Thrown m, w1)
      end
  end.

(** ** [get_calendar_events] *)

(** [if (since) sinceDate = parseISO(since)]: the empty string is
    falsy. *)
Definition sinceDate (args : Args) : option JsDate.Date :=
  match since args with
  | Some s => if String.eqb s "" then None else Some (parseISO s)
  | None => None
  end.

(** [if (assignee) events = events.filter(...)] *)
Definition filterByAssignee (name : option string) (events : list CalendarEvent)
    : list CalendarEvent :=
  match name with
  | Some a =>
      if String.eqb a "" then events
      else List.filter (assignedTo (Some a)) events
  | None => events
  end.

Definition calendarEntry (event : CalendarEvent) : Outcome string :=
  bind (formatMedium (startOf event)) (fun startStr =>
  bind (endText event) (fun endStr =>
  let assigneeList :=
    orText (join ", " (List.map Assignee.login (ev_assignees event))) "Unassigned" in
  Returned ("**" +:+ ev_title event +:+ "** (" +:+ status event +:+ ")" +:+ JsString.LF
            +:+ "- Assignees: " +:+ assigneeList +:+ JsString.LF
            +:+ "- Start: " +:+ startStr +:+ JsString.LF
            +:+ "- End: " +:+ endStr +:+ JsString.LF
            +:+ "- URL: " +:+ url event))).

Definition noEventsResult : Dispatch.Result :=
  {| Dispatch.content :=
       [ Dispatch.TextBlock "No calendar events found matching the criteria.";
         Dispatch.UIResource ("ui://calendar-empty/" +:+ JsString.ofZ now)
                             (createCalendarUI []) ];
     Dispatch.isError := false |}.

Definition calendarEventsResult (events : list CalendarEvent)
    : Outcome Dispatch.Result :=
  match events with
  | [] => Returned noEventsResult
  | _ :: _ =>
      bind (mapOutcome calendarEntry events) (fun entries =>
      Returned
        {| Dispatch.content :=
             [ Dispatch.TextBlock
                 ("# Calendar Events (" +:+ JsString.ofZ (Z.of_nat (List.length events))
                  +:+ " found)" +:+ JsString.LF +:+ JsString.LF
                  +:+ join (JsString.LF +:+ JsString.LF) entries);
               Dispatch.UIResource ("ui://calendar/" +:+ JsString.ofZ now)
                                   (createCalendarUI events) ];
           Dispatch.isError := false |})
  end.

(** [const { org = DEFAULT_ORG, project = DEFAULT_PROJECT_NUMBER, since,
    assignee } = args] comes first: without an argument object it throws
    before anything is fetched. *)
Definition calendarEventsCase (args : option Args) (w : Fetch.World)
    : Outcome Dispatch.Result * Fetch.World :=
  match args with
  | None => (Thrown (destructuringMessage "org"), w)
  | Some args =>
      match Fetch.getCalendarEvents parseDate
              (default Fetch.DEFAULT_ORG (org args))
              (default Fetch.DEFAULT_PROJECT_NUMBER (project args))
              (sinceDate args) w with
      | (Returned events, w1) =>
          (calendarEventsResult (filterByAssignee (assignee args) events), w1)
      | (Thrown m, w1) => (Thrown m, w1)
      end
  end.

(** ** The handler with its five cases *)

Definition callTool (name : string) (args : option Args) (w : Fetch.World)
    : Dispatch.Result * Fetch.World :=
  Dispatch.callTool parseDate (option Args) createBestAssigneeUI
    teamStatusCase personScheduleCase analyzeWorkloadCase calendarEventsCase
    now name args w.

End WithEnvironment.
End Handlers.

(** ** Sample requests *)

Module HandlerSamples.

(** Views that print nothing. *)
Definition noTeamView (_ : list Workload.Entry) : string := "".
Definition noScheduleView (_ : list CalendarEvent) (_ : option string) (_ : Z) : string := "".
Definition noCalendarView (_ : list CalendarEvent) : string := "".

(** The message of V8 for a property read from [args]. *)
Definition v8Message (property : string) : string :=
  "Cannot destructure property '" +:+ property +:+ "' of 'args' as it is undefined.".

(** The handler at noon of 10 September 2025, in UTC. *)
Definition callTool
    : string -> option Handlers.Args -> Fetch.World -> Dispatch.Result * Fetch.World :=
  Handlers.callTool 0 JsDate.isoParse JsDate.isoParse noTeamView noTeamView
    Samples.noView noScheduleView noCalendarView v8Message JsString.ofZ Samples.noon10.

(** An issue whose body announces an end date that is still open. *)
Definition undatedIssue : Fetch.GqlIssue :=
  {| Fetch.g_id := "I_7";
     Fetch.g_number := 7;
     Fetch.g_title := "Plan the workshop";
     Fetch.g_body := Some "**End Date:** after the summit (TBD)";
     Fetch.g_state := "OPEN";
     Fetch.g_createdAt := "2025-08-15T12:00:00Z";
     Fetch.g_updatedAt := "2025-08-15T12:00:00Z";
     Fetch.g_closedAt := None;
     Fetch.g_url := "https://github.com/squareup/repo/issues/7";
     Fetch.g_author := None;
     Fetch.g_labels := Some [FetchLog.devrel];
     Fetch.g_assignees := Some [ {| Fetch.g_login := "alice"; Fetch.g_avatarUrl := "" |} ];
     Fetch.g_milestone := None |}.

(** One GraphQL page with a dated issue and the undated one. *)
Definition undatedWorld : Fetch.World :=
  {| Fetch.graphql :=
       [ Fetch.GqlPage
           [ FetchLog.gqlNode 1 "2025-08-15T12:00:00Z" [FetchLog.devrel];
             {| Fetch.g_node_id := "PVTI_7";
                Fetch.g_type := "ISSUE";
                Fetch.g_content := Some undatedIssue;
                Fetch.g_fieldValues := [] |} ]
           false None ];
     Fetch.search := [];
     Fetch.effects := [] |}.

Definition forAlice : Handlers.Args :=
  {| Handlers.login := Some "alice"; Handlers.days := None; Handlers.org := None;
     Handlers.project := None; Handlers.since := None; Handlers.assignee := None |}.

Definition sinceLastWeek : Handlers.Args :=
  {| Handlers.login := None; Handlers.days := None; Handlers.org := None;
     Handlers.project := None; Handlers.since := Some "last week";
     Handlers.assignee := None |}.

(** A number of days that leads past the last time value. *)
Definition forAliceForever : Handlers.Args :=
  {| Handlers.login := Some "alice"; Handlers.days := Some 100000000;
     Handlers.org := None; Handlers.project := None; Handlers.since := None;
     Handlers.assignee := None |}.

(** Events of alice and bob around 10 September 2025: one already
    closed, one that started in August, two that start on the same day
    and one that starts in three weeks. *)
Definition mixedEvents : list CalendarEvent :=
  [ Samples.event 21 "open" ["alice"] (Samples.sep 12) None;
    Samples.event 22 "closed" ["alice"; "bob"] (Samples.sep 2) (Some (Samples.sep 3));
    Samples.event 23 "open" ["bob"] (Samples.sep 11) None;
    Samples.event 24 "open" ["alice"] (Samples.sep 30) None;
    Samples.event 25 "open" ["alice"] (Samples.sep 12) (Some (Samples.sep 14));
    Samples.event 26 "open" ["alice"] (JsDate.isoParse "2025-08-20") None ].

End HandlerSamples.

(* ===================================================================== *)
(** * Facts about the basic functions *)
(* ===================================================================== *)

Example isoParse_2025_09_01 :
  JsDate.isoParse "2025-09-01" = JsDate.Instant 1756684800000.
Proof. reflexivity. Qed.

Example formatDayKey_utc :
  JsDate.formatDayKey 0 1756684800000 = "2025-09-01".
Proof. reflexivity. Qed.

Example startDateMatch_sample :
  BodyPattern.startDateMatch Samples.markedBody = Some "2025-09-01".
Proof. reflexivity. Qed.

Example startDateMatch_skips_empty_group :
  BodyPattern.startDateMatch "**Start Date:** () then (2025-09-02)" = Some "2025-09-02".
Proof. reflexivity. Qed.

Example startDateMatch_stays_on_line :
  BodyPattern.startDateMatch ("**Start Date:** soon" +:+ JsString.LF +:+ "(2025-09-02)") = None.
Proof. reflexivity. Qed.

(** A body without the marker text has no match. *)
Lemma matchMarker_absent marker s :
  JsString.includes s marker = false -> BodyPattern.matchMarker marker s = None.
Proof.
  induction s as [| c r IH]; intros H.
  - cbn in *. apply orb_false_iff in H as [H _]. now rewrite H.
  - cbn [JsString.includes] in H. apply orb_false_iff in H as [Hhere Hlater].
    cbn [BodyPattern.matchMarker]. rewrite Hhere. now apply IH.
Qed.

(* ===================================================================== *)
(** * Event extraction *)
(* ===================================================================== *)

Section ExtractorFacts.
Variable parseDate : string -> JsDate.Date.

Local Abbreviation scanField := (Extractor.scanField parseDate).
Local Abbreviation scanFields := (Extractor.scanFields parseDate).
Local Abbreviation transformItem := (Extractor.transformItem parseDate).

Lemma scanFields_app pre post :
  scanFields (pre ++ post)%list = fold_left scanField post (scanFields pre).
Proof. unfold Extractor.scanFields. apply fold_left_app. Qed.

Lemma scan_keeps_start post : forall s,
  Forall (fun x => Extractor.suppliesStart x = false) post ->
  Extractor.slot_start (fold_left scanField post s) = Extractor.slot_start s.
Proof.
  induction post as [| fv post IH]; intros s Hall; [reflexivity |].
  inversion Hall as [| ? ? Hfv Hpost]; subst. cbn [fold_left].
  rewrite IH by assumption. unfold Extractor.scanField.
  unfold Extractor.suppliesStart in Hfv. rewrite Hfv.
  destruct (Extractor.isEndField fv); [reflexivity |].
  destruct (Extractor.isStatusField fv); reflexivity.
Qed.

Lemma scan_keeps_end post : forall s,
  Forall (fun x => Extractor.suppliesEnd x = false) post ->
  Extractor.slot_end (fold_left scanField post s) = Extractor.slot_end s.
Proof.
  induction post as [| fv post IH]; intros s Hall; [reflexivity |].
  inversion Hall as [| ? ? Hfv Hpost]; subst. cbn [fold_left].
  rewrite IH by assumption. unfold Extractor.scanField.
  unfold Extractor.suppliesEnd in Hfv.
  destruct (Extractor.isStartField fv); [reflexivity |].
  cbn in Hfv. rewrite Hfv.
  destruct (Extractor.isStatusField fv); reflexivity.
Qed.

Lemma scan_sets_start s fv :
  Extractor.suppliesStart fv = true ->
  Extractor.slot_start (scanField s fv)
  = Some (parseDate (JsString.orEmpty (fv_date fv))).
Proof.
  unfold Extractor.suppliesStart, Extractor.scanField. now intros ->.
Qed.

Lemma scan_sets_end s fv :
  Extractor.suppliesEnd fv = true ->
  Extractor.slot_end (scanField s fv)
  = Some (parseDate (JsString.orEmpty (fv_date fv))).
Proof.
  unfold Extractor.suppliesEnd, Extractor.scanField. intros H.
  apply andb_true_iff in H as [Hs He]. apply negb_true_iff in Hs.
  now rewrite Hs, He.
Qed.

(** A slot filled by the scan is what the event carries. *)
Lemma start_from_scan item d :
  Extractor.slot_start (scanFields (fieldValues item)) = Some d ->
  startDate (transformItem item) = Some d.
Proof.
  intros H. cbn. unfold Extractor.bodyStart. rewrite H.
  now destruct (_ || _).
Qed.

Lemma end_from_scan item d :
  Extractor.slot_end (scanFields (fieldValues item)) = Some d ->
  endDate (transformItem item) = Some d.
Proof.
  intros H. cbn. unfold Extractor.bodyEnd. rewrite H.
  now destruct (_ || _).
Qed.

Lemma scan_no_start fields :
  Forall (fun x => Extractor.suppliesStart x = false) fields ->
  Extractor.slot_start (scanFields fields) = None.
Proof. intros H. unfold Extractor.scanFields. now rewrite scan_keeps_start. Qed.

Lemma scan_no_end fields :
  Forall (fun x => Extractor.suppliesEnd x = false) fields ->
  Extractor.slot_end (scanFields fields) = None.
Proof. intros H. unfold Extractor.scanFields. now rewrite scan_keeps_end. Qed.

(** C1 (as amended): the loop over the field values assigns on every
    match, so for each slot the last matching field value in iteration
    order supplies the date, whatever matched before it. *)
Theorem C1_last_matching_field_supplies_slot (item : ProjectItem)
    (pre post : list FieldValue) (fv : FieldValue) :
  fieldValues item = (pre ++ fv :: post)%list ->
  (Extractor.suppliesStart fv = true ->
   Forall (fun x => Extractor.suppliesStart x = false) post ->
   startDate (transformItem item) = Some (parseDate (JsString.orEmpty (fv_date fv))))
  /\
  (Extractor.suppliesEnd fv = true ->
   Forall (fun x => Extractor.suppliesEnd x = false) post ->
   endDate (transformItem item) = Some (parseDate (JsString.orEmpty (fv_date fv)))).
Proof.
  intros Hfields. split; intros Hfv Hpost.
  - apply start_from_scan. rewrite Hfields, scanFields_app. cbn [fold_left].
    rewrite scan_keeps_start by assumption. now apply scan_sets_start.
  - apply end_from_scan. rewrite Hfields, scanFields_app. cbn [fold_left].
    rewrite scan_keeps_end by assumption. now apply scan_sets_end.
Qed.

(** The start date of an extracted event is never [null]. *)
Lemma transformItem_has_start item :
  Extractor.isNull (startDate (transformItem item)) = false.
Proof.
  cbn. now destruct (Extractor.bodyStart parseDate (content item) _).
Qed.

(** The final filter keeps every event. *)
Lemma events_are_images items :
  Extractor.transformToCalendarEvents parseDate items = List.map transformItem items.
Proof.
  unfold Extractor.transformToCalendarEvents.
  induction items as [| item items IH]; [reflexivity |].
  cbn [List.map List.filter]. rewrite transformItem_has_start. cbn [negb].
  now rewrite IH.
Qed.

(** C10: the fallback to [created_at] always leaves a [Date] object in
    [startDate], so the final filter removes nothing: the events are the
    images of the items, one per item and in the same order. *)
Theorem C10_one_event_per_item (items : list ProjectItem) :
  Extractor.transformToCalendarEvents parseDate items = List.map transformItem items
  /\ List.length (Extractor.transformToCalendarEvents parseDate items) = List.length items.
Proof.
  pose proof (events_are_images items) as H.
  split; [exact H |]. rewrite H. apply List.length_map.
Qed.

(** C4: when no field value supplies a slot, the slot is read from the
    marker of the issue body; with the body of the scenario both dates
    come from the markers; and when neither a field value nor the body
    gives a start date, it is the creation date. *)
Theorem C4_body_markers_then_created_at (item : ProjectItem) :
  Forall (fun x => Extractor.suppliesStart x = false) (fieldValues item) ->
  (forall found,
     BodyPattern.startDateMatch (JsString.orEmpty (body (content item))) = Some found ->
     startDate (transformItem item) = Some (parseDate found))
  /\
  (forall found,
     Forall (fun x => Extractor.suppliesEnd x = false) (fieldValues item) ->
     BodyPattern.endDateMatch (JsString.orEmpty (body (content item))) = Some found ->
     endDate (transformItem item) = Some (parseDate found))
  /\
  (body (content item) = Some Samples.markedBody ->
   Forall (fun x => Extractor.suppliesEnd x = false) (fieldValues item) ->
   startDate (transformItem item) = Some (parseDate "2025-09-01")
   /\ endDate (transformItem item) = Some (parseDate "2025-09-10"))
  /\
  (BodyPattern.startDateMatch (JsString.orEmpty (body (content item))) = None ->
   startDate (transformItem item) = Some (parseDate (created_at (content item))))
  /\
  (JsString.includes (JsString.orEmpty (body (content item))) "**Start Date:**" = false ->
   startDate (transformItem item) = Some (parseDate (created_at (content item)))).
Proof.
  intros Hstart.
  pose proof (scan_no_start _ Hstart) as Hs.
  assert (Hfound : forall found,
    BodyPattern.startDateMatch (JsString.orEmpty (body (content item))) = Some found ->
    startDate (transformItem item) = Some (parseDate found)).
  { intros found Hm. cbn. unfold Extractor.bodyStart. rewrite Hs, Hm. reflexivity. }
  assert (Hfound_end : forall found,
    Forall (fun x => Extractor.suppliesEnd x = false) (fieldValues item) ->
    BodyPattern.endDateMatch (JsString.orEmpty (body (content item))) = Some found ->
    endDate (transformItem item) = Some (parseDate found)).
  { intros found Hend Hm. pose proof (scan_no_end _ Hend) as He.
    cbn. unfold Extractor.bodyEnd. rewrite Hs, He, Hm. reflexivity. }
  assert (Hnone :
    BodyPattern.startDateMatch (JsString.orEmpty (body (content item))) = None ->
    startDate (transformItem item) = Some (parseDate (created_at (content item)))).
  { intros Hm. cbn. unfold Extractor.bodyStart. rewrite Hs, Hm. reflexivity. }
  repeat split.
  - exact Hfound.
  - exact Hfound_end.
  - apply Hfound. rewrite H. reflexivity.
  - apply Hfound_end; [assumption |]. rewrite H. reflexivity.
  - exact Hnone.
  - intros Habsent. apply Hnone. now apply matchMarker_absent.
Qed.

End ExtractorFacts.

(** C1, as stated, fails: with two start fields the event carries the
    date of the second one, and likewise for two end fields. *)
Lemma C1_first_match_does_not_win :
  List.map Extractor.suppliesStart (fieldValues Samples.twoStartFields) = [true; true]
  /\ startDate (Extractor.transformItem JsDate.isoParse Samples.twoStartFields)
     = Some (JsDate.isoParse "2025-09-15")
  /\ startDate (Extractor.transformItem JsDate.isoParse Samples.twoStartFields)
     <> Some (JsDate.isoParse "2025-09-01")
  /\ List.map Extractor.suppliesEnd (fieldValues Samples.twoEndFields) = [true; true]
  /\ endDate (Extractor.transformItem JsDate.isoParse Samples.twoEndFields)
     = Some (JsDate.isoParse "2025-09-25")
  /\ endDate (Extractor.transformItem JsDate.isoParse Samples.twoEndFields)
     <> Some (JsDate.isoParse "2025-09-20").
Proof. vm_compute. repeat split; congruence. Qed.

Lemma C1_last_matching_field_witness :
  startDate (Extractor.transformItem JsDate.isoParse Samples.twoStartFields)
  = Some (JsDate.isoParse "2025-09-15")
  /\ endDate (Extractor.transformItem JsDate.isoParse Samples.twoEndFields)
     = Some (JsDate.isoParse "2025-09-25").
Proof.
  split.
  - refine (proj1 (C1_last_matching_field_supplies_slot JsDate.isoParse
             Samples.twoStartFields [Samples.dateField "Start Date" "2025-09-01"] []
             (Samples.dateField "Restart" "2025-09-15") _) _ _).
    + reflexivity.
    + reflexivity.
    + constructor.
  - refine (proj2 (C1_last_matching_field_supplies_slot JsDate.isoParse
             Samples.twoEndFields [Samples.dateField "End Date" "2025-09-20"] []
             (Samples.dateField "Due" "2025-09-25") _) _ _).
    + reflexivity.
    + reflexivity.
    + constructor.
Defined.

Lemma C4_body_markers_witness :
  startDate (Extractor.transformItem JsDate.isoParse Samples.markedItem)
  = Some (JsDate.Instant 1756684800000)
  /\ endDate (Extractor.transformItem JsDate.isoParse Samples.markedItem)
     = Some (JsDate.Instant 1757462400000)
  /\ startDate (Extractor.transformItem JsDate.isoParse Samples.bareItem)
     = Some (JsDate.Instant 1755259200000).
Proof.
  pose proof (C4_body_markers_then_created_at JsDate.isoParse Samples.markedItem
                ltac:(constructor)) as (_ & _ & Hscenario & _).
  pose proof (C4_body_markers_then_created_at JsDate.isoParse Samples.bareItem
                ltac:(constructor)) as (_ & _ & _ & Hbare & _).
  destruct (Hscenario eq_refl ltac:(constructor)) as [Hs He].
  split; [exact Hs | split; [exact He | exact (Hbare eq_refl)]].
Defined.

(* ===================================================================== *)
(** * Plain objects *)
(* ===================================================================== *)

Section ObjectFacts.
Context {V : Type}.
Implicit Types (o : JsObject.t V) (k : string) (v : V).

Lemma getOwn_addOwn_eq o k v :
  JsObject.getOwn k o = None -> JsObject.getOwn k (JsObject.addOwn k v o) = Some v.
Proof.
  unfold JsObject.addOwn. induction o as [| [k' v'] r IH]; cbn; intros H.
  - now rewrite String.eqb_refl.
  - destruct (String.eqb k k'); [discriminate | now apply IH].
Qed.

Lemma getOwn_addOwn_ne o k k' v :
  k <> k' -> JsObject.getOwn k (JsObject.addOwn k' v o) = JsObject.getOwn k o.
Proof.
  intros Hne. unfold JsObject.addOwn. induction o as [| [k'' v''] r IH]; cbn.
  - apply String.eqb_neq in Hne. now rewrite Hne.
  - now rewrite IH.
Qed.

Lemma getOwn_replaceOwn_eq o k v v0 :
  JsObject.getOwn k o = Some v0 -> JsObject.getOwn k (JsObject.replaceOwn k v o) = Some v.
Proof.
  induction o as [| [k' v'] r IH]; cbn; [discriminate |].
  destruct (String.eqb k k') eqn:E; cbn; rewrite E; [reflexivity | exact IH].
Qed.

Lemma getOwn_replaceOwn_ne o k k' v :
  k <> k' -> JsObject.getOwn k (JsObject.replaceOwn k' v o) = JsObject.getOwn k o.
Proof.
  intros Hne. induction o as [| [k'' v''] r IH]; cbn; [reflexivity |].
  destruct (String.eqb k' k'') eqn:E; cbn.
  - apply String.eqb_eq in E. subst k''. apply String.eqb_neq in Hne. now rewrite Hne.
  - now rewrite IH.
Qed.

Lemma keys_replaceOwn o k v :
  List.map fst (JsObject.replaceOwn k v o) = List.map fst o.
Proof.
  induction o as [| [k' v'] r IH]; cbn; [reflexivity |].
  destruct (String.eqb k k'); cbn; [reflexivity | now rewrite IH].
Qed.

Lemma keys_addOwn o k v :
  List.map fst (JsObject.addOwn k v o) = (List.map fst o ++ [k])%list.
Proof. unfold JsObject.addOwn. now rewrite List.map_app. Qed.

Lemma getOwn_None_keys o k :
  JsObject.getOwn k o = None <-> existsb (String.eqb k) (List.map fst o) = false.
Proof.
  induction o as [| [k' v'] r IH]; cbn; [tauto |].
  destruct (String.eqb k k'); cbn; [split; discriminate | exact IH].
Qed.

Lemma getOwn_In o k v : JsObject.getOwn k o = Some v -> In (k, v) o.
Proof.
  induction o as [| [k' v'] r IH]; cbn; [discriminate |].
  destruct (String.eqb k k') eqn:E.
  - intros [= ->]. apply String.eqb_eq in E. subst. now left.
  - intros H. right. now apply IH.
Qed.

End ObjectFacts.

Section ObjectOrder.
Context {V : Type}.
Implicit Types (o : JsObject.t V).

Lemma insertIndexed_perm n (v : V) l :
  Permutation (JsObject.insertIndexed n v l) ((n, v) :: l).
Proof.
  induction l as [| [m w] r IH]; cbn; [reflexivity |].
  destruct (n <? m); [reflexivity |].
  rewrite IH. apply perm_swap.
Qed.

Lemma values_perm o : Permutation (JsObject.values o) (List.map snd o).
Proof.
  unfold JsObject.values. induction o as [| [k v] r IH]; cbn; [reflexivity |].
  destruct (JsObject.arrayIndex k) as [n |]; cbn.
  - rewrite insertIndexed_perm. cbn. now apply perm_skip.
  - rewrite <- IH. symmetry. apply Permutation_middle.
Qed.


End ObjectOrder.



(* ===================================================================== *)
(** * Team workload *)
(* ===================================================================== *)

Lemma existsb_eqb_In (k : string) (l : list string) :
  existsb (String.eqb k) l = true <-> In k l.
Proof.
  rewrite existsb_exists. split.
  - intros (x & Hx & E). apply String.eqb_eq in E. now subst.
  - intros H. exists k. split; [assumption | apply String.eqb_refl].
Qed.

Lemma existsb_eqb_not_In (k : string) (l : list string) :
  existsb (String.eqb k) l = false <-> ~ In k l.
Proof.
  rewrite <- existsb_eqb_In. destruct (existsb _ l); split; congruence.
Qed.

Section WorkloadFacts.
Variable now : Z.

Local Abbreviation step :=
  (fun (tw : JsObject.t Workload.Entry) (v : CalendarEvent * Assignee.t) =>
     Workload.visitAssignee now (fst v) tw (snd v)).

(** The two nested loops are one loop over the visits. *)
Lemma fold_visits events : forall tw,
  fold_left (Workload.visitEvent now) events tw
  = fold_left step (Workload.visits events) tw.
Proof.
  induction events as [| ev r IH]; intros tw; [reflexivity |].
  cbn [fold_left]. rewrite IH. unfold Workload.visits. cbn [List.filter].
  unfold Workload.visitEvent, Workload.isOpen.
  destruct (String.eqb (status ev) "closed"); cbn [negb]; [reflexivity |].
  cbn [flat_map]. rewrite fold_left_app. f_equal.
  generalize tw. induction (ev_assignees ev) as [| a l IHl]; intros tw0; [reflexivity |].
  cbn [List.map fold_left fst snd]. apply IHl.
Qed.

Lemma collect_visits events :
  Workload.collect now events = fold_left step (Workload.visits events) [].
Proof. apply fold_visits. Qed.

(** The three ways a visit can go. *)
Lemma visit_cases ev tw a :
  (exists e, JsObject.getOwn (Assignee.login a) tw = Some e
     /\ Workload.visitAssignee now ev tw a
        = JsObject.replaceOwn (Assignee.login a) (Workload.count now ev e) tw)
  \/ (JsObject.getOwn (Assignee.login a) tw = None
      /\ JsObject.inherited (Assignee.login a) = true
      /\ Workload.visitAssignee now ev tw a = tw)
  \/ (JsObject.getOwn (Assignee.login a) tw = None
      /\ JsObject.inherited (Assignee.login a) = false
      /\ Workload.visitAssignee now ev tw a
         = JsObject.replaceOwn (Assignee.login a)
             (Workload.count now ev (Workload.newEntry a))
             (JsObject.addOwn (Assignee.login a) (Workload.newEntry a) tw)).
Proof.
  unfold Workload.visitAssignee.
  destruct (JsObject.getOwn (Assignee.login a) tw) as [e |] eqn:Hget.
  - left. exists e. rewrite Hget. now split.
  - destruct (JsObject.inherited (Assignee.login a)) eqn:Hinh.
    + right; left. rewrite Hget. now repeat split.
    + right; right. rewrite getOwn_addOwn_eq by assumption. now repeat split.
Qed.

Lemma fold_invariant (P : JsObject.t Workload.Entry -> Prop) vs : forall tw,
  P tw ->
  (forall tw v, P tw -> P (step tw v)) ->
  P (fold_left step vs tw).
Proof.
  induction vs as [| v r IH]; intros tw H0 Hstep; [exact H0 |].
  cbn [fold_left]. apply IH; [now apply Hstep | exact Hstep].
Qed.

(** ** Which logins own an entry, and in which order *)

Lemma keys_visit ev tw a :
  List.map fst (Workload.visitAssignee now ev tw a)
  = if existsb (String.eqb (Assignee.login a)) (List.map fst tw) then List.map fst tw
    else if JsObject.inherited (Assignee.login a) then List.map fst tw
    else (List.map fst tw ++ [Assignee.login a])%list.
Proof.
  destruct (visit_cases ev tw a) as [(e & Hget & ->) | [(Hget & Hinh & ->) | (Hget & Hinh & ->)]].
  - rewrite keys_replaceOwn.
    destruct (existsb _ _) eqn:E; [reflexivity |].
    apply getOwn_None_keys in E. congruence.
  - rewrite Hinh. now destruct (existsb _ _).
  - rewrite keys_replaceOwn, keys_addOwn, Hinh.
    apply getOwn_None_keys in Hget. now rewrite Hget.
Qed.

Lemma keys_fold vs : forall tw,
  List.map fst (fold_left step vs tw)
  = (List.map fst tw
     ++ Workload.firsts (List.map fst tw)
          (List.filter (fun l => negb (JsObject.inherited l))
             (List.map (fun v => Assignee.login (snd v)) vs)))%list.
Proof.
  induction vs as [| [ev a] r IH]; intros tw.
  - cbn. now rewrite List.app_nil_r.
  - cbn [fold_left List.map List.filter fst snd]. rewrite IH, keys_visit.
    destruct (JsObject.inherited (Assignee.login a)) eqn:Hinh; cbn [negb].
    + now destruct (existsb _ _).
    + cbn [Workload.firsts].
      destruct (existsb _ _); [reflexivity |].
      now rewrite <- List.app_assoc.
Qed.

Lemma keys_NoDup events : NoDup (List.map fst (Workload.collect now events)).
Proof.
  rewrite collect_visits. apply fold_invariant; [constructor |].
  intros tw [ev a] H. cbn [fst snd]. rewrite keys_visit.
  destruct (existsb _ _) eqn:E; [assumption |].
  destruct (JsObject.inherited _); [assumption |].
  apply existsb_eqb_not_In in E.
  apply NoDup_app. repeat split; [assumption | | ].
  - intros x Hx Hin. apply list_elem_of_In in Hx, Hin.
    destruct Hin as [Heq | []]. subst x. contradiction.
  - apply NoDup_singleton.
Qed.

(** ** Properties that every entry keeps *)

Lemma Forall_replaceOwn (P : string * Workload.Entry -> Prop) k e o :
  Forall P o -> P (k, e) -> Forall P (JsObject.replaceOwn k e o).
Proof.
  intros H Hk. induction H as [| [k' e'] r Hhd Hr IH]; cbn; [constructor |].
  destruct (String.eqb k k') eqn:E.
  - apply String.eqb_eq in E. subst. now constructor.
  - now constructor.
Qed.

Lemma entries_invariant (P : string * Workload.Entry -> Prop) events :
  (forall a, P (Assignee.login a, Workload.newEntry a)) ->
  (forall k ev e, P (k, e) -> P (k, Workload.count now ev e)) ->
  Forall P (Workload.collect now events).
Proof.
  intros Hnew Hcount. rewrite collect_visits.
  apply fold_invariant; [constructor |].
  intros tw [ev a] H. cbn [fst snd].
  destruct (visit_cases ev tw a) as [(e & Hget & ->) | [(Hget & Hinh & ->) | (Hget & Hinh & ->)]].
  - apply Forall_replaceOwn; [assumption |]. apply Hcount.
    apply getOwn_In in Hget. rewrite List.Forall_forall in H. now apply H.
  - assumption.
  - apply Forall_replaceOwn.
    + unfold JsObject.addOwn. apply Forall_app. split; [assumption |].
      constructor; [apply Hnew | constructor].
    + apply Hcount, Hnew.
Qed.

(** Every entry is stored under its own login. *)
Lemma entries_keyed events :
  Forall (fun kv => Workload.login (snd kv) = fst kv) (Workload.collect now events).
Proof. apply entries_invariant; intros; cbn; auto. Qed.

(** The two counters that are incremented together stay equal. *)
Lemma entries_balanced events :
  Forall (fun kv => Workload.totalWorkload (snd kv) = Workload.activeIssues (snd kv))
         (Workload.collect now events).
Proof.
  apply entries_invariant; intros; cbn in *; [reflexivity | lia].
Qed.

(** ** The counters of an entry *)

Lemma tally_visit (g : Workload.Entry -> Z) (p : CalendarEvent -> bool) :
  (forall a, g (Workload.newEntry a) = 0) ->
  (forall ev e, g (Workload.count now ev e) = g e + (if p ev then 1 else 0)) ->
  forall l ev tw a,
  JsObject.inherited l = false ->
  match JsObject.getOwn l (Workload.visitAssignee now ev tw a) with
  | Some e => g e | None => 0 end
  = match JsObject.getOwn l tw with Some e => g e | None => 0 end
    + (if String.eqb (Assignee.login a) l && p ev then 1 else 0).
Proof.
  intros Hnew Hcount l ev tw a Hl.
  destruct (String.eqb_spec (Assignee.login a) l) as [Heq | Hne]; cbn [andb].
  - subst l.
    destruct (visit_cases ev tw a)
      as [(e & Hget & ->) | [(Hget & Hinh & ->) | (Hget & Hinh & ->)]].
    + rewrite (getOwn_replaceOwn_eq _ _ _ _ Hget), Hget. apply Hcount.
    + congruence.
    + rewrite (getOwn_replaceOwn_eq _ _ _ _ (getOwn_addOwn_eq _ _ _ Hget)), Hget.
      rewrite Hcount, Hnew. reflexivity.
  - assert (Hne' : l <> Assignee.login a) by congruence.
    destruct (visit_cases ev tw a)
      as [(e & Hget & ->) | [(Hget & Hinh & ->) | (Hget & Hinh & ->)]].
    + rewrite getOwn_replaceOwn_ne by assumption. lia.
    + lia.
    + rewrite getOwn_replaceOwn_ne, getOwn_addOwn_ne by assumption. lia.
Qed.

Lemma tally_fold (g : Workload.Entry -> Z) (p : CalendarEvent -> bool) :
  (forall a, g (Workload.newEntry a) = 0) ->
  (forall ev e, g (Workload.count now ev e) = g e + (if p ev then 1 else 0)) ->
  forall l, JsObject.inherited l = false ->
  forall vs tw,
  match JsObject.getOwn l (fold_left step vs tw) with Some e => g e | None => 0 end
  = match JsObject.getOwn l tw with Some e => g e | None => 0 end
    + Z.of_nat (List.length
        (List.filter (fun v => String.eqb (Assignee.login (snd v)) l && p (fst v)) vs)).
Proof.
  intros Hnew Hcount l Hl vs.
  induction vs as [| [ev a] r IH]; intros tw; [cbn; lia |].
  cbn [fold_left List.filter fst snd]. rewrite IH.
  rewrite (tally_visit g p Hnew Hcount l ev tw a Hl).
  destruct (String.eqb (Assignee.login a) l && p ev); cbn [List.length]; lia.
Qed.

Lemma firsts_In x l : forall seen,
  In x (Workload.firsts seen l) <-> In x l /\ ~ In x seen.
Proof.
  induction l as [| y r IH]; intros seen; [cbn; tauto |].
  cbn [Workload.firsts]. destruct (existsb (String.eqb y) seen) eqn:E.
  - apply existsb_eqb_In in E. rewrite IH. cbn [In].
    split; [tauto |]. intros [[-> | H] Hn]; [contradiction | tauto].
  - apply existsb_eqb_not_In in E. cbn [In]. rewrite IH, in_app_iff. cbn [In].
    destruct (string_dec y x) as [-> | Hne]; tauto.
Qed.

(** A login owns an entry exactly when it is not an inherited name and
    some open event is assigned to it. *)
Lemma owns_entry_iff events l :
  JsObject.getOwn l (Workload.collect now events) <> None
  <-> JsObject.inherited l = false
      /\ exists v, In v (Workload.visits events) /\ Assignee.login (snd v) = l.
Proof.
  rewrite getOwn_None_keys, collect_visits, keys_fold. cbn [List.map app].
  rewrite not_false_iff_true, existsb_eqb_In, firsts_In, filter_In, in_map_iff.
  rewrite negb_true_iff. cbn [In]. split.
  - intros [[(v & Hv & Hin) Hinh] _]. split; [assumption |]. now exists v.
  - intros [Hinh (v & Hin & Hv)]. repeat split; [| assumption | tauto]. now exists v.
Qed.

(** The counters of the entry of a login that is not an inherited
    name: each counts visits. *)
Lemma entry_counts events l e :
  JsObject.inherited l = false ->
  JsObject.getOwn l (Workload.collect now events) = Some e ->
  Workload.login e = l
  /\ Workload.activeIssues e = Workload.countVisits (fun _ => true) l events
  /\ Workload.totalWorkload e = Workload.countVisits (fun _ => true) l events
  /\ Workload.upcomingIssues e = Workload.countVisits (Workload.isUpcoming now) l events
  /\ Workload.overdueIssues e = Workload.countVisits (Workload.isOverdue now) l events.
Proof.
  intros Hl Hget. split.
  { pose proof (entries_keyed events) as Hk. rewrite List.Forall_forall in Hk.
    exact (Hk _ (getOwn_In _ _ _ Hget)). }
  unfold Workload.countVisits.
  pose proof (fun g p Hn Hc => tally_fold g p Hn Hc l Hl (Workload.visits events) []) as T.
  rewrite <- collect_visits, Hget in T. cbn [JsObject.getOwn] in T.
  repeat split.
  - rewrite (T Workload.activeIssues (fun _ => true)); [lia | reflexivity | reflexivity].
  - rewrite (T Workload.totalWorkload (fun _ => true)); [lia | reflexivity | reflexivity].
  - rewrite (T Workload.upcomingIssues (Workload.isUpcoming now)); [lia | reflexivity |].
    intros ev e0. cbn. destruct (Workload.isUpcoming now ev); lia.
  - rewrite (T Workload.overdueIssues (Workload.isOverdue now)); [lia | reflexivity |].
    intros ev e0. cbn. destruct (Workload.isOverdue now ev); lia.
Qed.

(** Closed events are not visited. *)
Lemma closed_events_ignored events :
  Workload.collect now events = Workload.collect now (List.filter Workload.isOpen events).
Proof.
  rewrite !collect_visits. unfold Workload.visits. f_equal. f_equal.
  induction events as [| ev r IH]; [reflexivity |].
  cbn [List.filter]. destruct (Workload.isOpen ev) eqn:E; cbn [List.filter].
  - now rewrite E, <- IH.
  - exact IH.
Qed.

(** ** The sort *)

Lemma insertSorted_perm x l : Permutation (Workload.insertSorted x l) (x :: l).
Proof.
  induction l as [| y r IH]; cbn; [reflexivity |].
  destruct (_ <=? 0); [reflexivity |]. rewrite IH. apply perm_swap.
Qed.

Lemma sort_perm l : Permutation (Workload.sort l) l.
Proof.
  induction l as [| x r IH]; cbn; [reflexivity |].
  rewrite insertSorted_perm. now apply perm_skip.
Qed.

Lemma insertSorted_sorted x l :
  Sorted (fun a b => Workload.totalWorkload a <= Workload.totalWorkload b) l ->
  Sorted (fun a b => Workload.totalWorkload a <= Workload.totalWorkload b)
         (Workload.insertSorted x l).
Proof.
  induction 1 as [| y r Hr IH Hhd]; cbn.
  - repeat constructor.
  - unfold Workload.compareFn. destruct (Z.leb_spec (Workload.totalWorkload x - Workload.totalWorkload y) 0).
    + constructor; [now constructor |]. constructor. lia.
    + constructor; [exact IH |].
      destruct r as [| z r']; cbn.
      * constructor. lia.
      * unfold Workload.compareFn.
        destruct (Z.leb_spec (Workload.totalWorkload x - Workload.totalWorkload z) 0);
          constructor; [lia |]. now inversion Hhd.
Qed.

Lemma sort_sorted l :
  Sorted (fun a b => Workload.totalWorkload a <= Workload.totalWorkload b) (Workload.sort l).
Proof.
  induction l as [| x r IH]; cbn; [constructor | now apply insertSorted_sorted].
Qed.




End WorkloadFacts.

Section WorkloadClaims.
Variable now : Z.

Lemma In_getOwn {V} (o : JsObject.t V) k v :
  NoDup (List.map fst o) -> In (k, v) o -> JsObject.getOwn k o = Some v.
Proof.
  induction o as [| [k' v'] r IH]; cbn; intros Hnd Hin; [contradiction |].
  inversion Hnd as [| ? ? Hk' Hnd']; subst.
  destruct Hin as [[= -> ->] | Hin].
  - now rewrite String.eqb_refl.
  - destruct (String.eqb_spec k k') as [-> | _]; [| now apply IH].
    exfalso. apply Hk'. apply list_elem_of_In, in_map_iff. now exists (k', v).
Qed.

(** The ranking lists exactly the entries that [teamWorkload] owns. *)
Lemma ranking_entries events e :
  In e (Workload.analyzeTeamWorkload now events)
  <-> exists l, JsObject.getOwn l (Workload.collect now events) = Some e.
Proof.
  unfold Workload.analyzeTeamWorkload.
  assert (Hperm : Permutation (Workload.sort (JsObject.values (Workload.collect now events)))
                              (List.map snd (Workload.collect now events))).
  { rewrite sort_perm. apply values_perm. }
  split.
  - intros H. apply (Permutation_in _ Hperm) in H. apply in_map_iff in H as ([k e'] & <- & Hin).
    exists k. apply In_getOwn; [apply keys_NoDup | exact Hin].
  - intros (l & Hget). apply (Permutation_in _ (Permutation_sym Hperm)).
    apply in_map_iff. exists (l, e). split; [reflexivity | now apply getOwn_In].
Qed.

(** What the analysis reports for an entry: the counters count the
    visits of its login on open events. *)
Lemma ranking_counts events e :
  In e (Workload.analyzeTeamWorkload now events) ->
  Workload.activeIssues e = Workload.countVisits (fun _ => true) (Workload.login e) events
  /\ Workload.totalWorkload e = Workload.countVisits (fun _ => true) (Workload.login e) events
  /\ Workload.upcomingIssues e
     = Workload.countVisits (Workload.isUpcoming now) (Workload.login e) events
  /\ Workload.overdueIssues e
     = Workload.countVisits (Workload.isOverdue now) (Workload.login e) events.
Proof.
  intros H. apply ranking_entries in H as (l & Hget).
  assert (Hl : JsObject.inherited l = false).
  { apply (owns_entry_iff now events l). congruence. }
  destruct (entry_counts now events l e Hl Hget) as (<- & H1 & H2 & H3 & H4).
  now repeat split.
Qed.

(** An assignee of an open event has an entry in the ranking, unless
    the login is an inherited property name. *)
Lemma ranking_has_entry events ev a :
  In ev events -> Workload.isOpen ev = true -> In a (ev_assignees ev) ->
  JsObject.inherited (Assignee.login a) = false ->
  exists e, In e (Workload.analyzeTeamWorkload now events)
            /\ Workload.login e = Assignee.login a.
Proof.
  intros Hev Hopen Ha Hinh.
  destruct (JsObject.getOwn (Assignee.login a) (Workload.collect now events)) as [e |] eqn:Hget.
  - exists e. split; [apply ranking_entries; now exists (Assignee.login a) |].
    now destruct (entry_counts now events _ e Hinh Hget).
  - exfalso. revert Hget. apply owns_entry_iff. split; [assumption |].
    exists (ev, a). split; [| reflexivity].
    unfold Workload.visits. apply in_flat_map. exists ev. split.
    + apply filter_In. now split.
    + apply in_map_iff. now exists a.
Qed.

(** C8: in every entry of the ranking, [totalWorkload] equals
    [activeIssues]. *)
Theorem C8_total_workload_is_active_issues (events : list CalendarEvent) :
  Forall (fun e => Workload.totalWorkload e = Workload.activeIssues e)
         (Workload.analyzeTeamWorkload now events).
Proof.
  apply List.Forall_forall. intros e H.
  apply ranking_entries in H as (l & Hget).
  pose proof (entries_balanced now events) as Hb. rewrite List.Forall_forall in Hb.
  exact (Hb _ (getOwn_In _ _ _ Hget)).
Qed.



End WorkloadClaims.



(** The scenario of the workload counters: alice has three entries from
    open events, one of them upcoming, and a closed event that changes
    nothing. *)
Example workload_alice :
  Workload.analyzeTeamWorkload Samples.noon10 Samples.aliceEvents
  = [ {| Workload.login := "alice";
         Workload.avatar_url := "https://avatars.example/alice";
         Workload.activeIssues := 3; Workload.upcomingIssues := 1;
         Workload.overdueIssues := 0; Workload.totalWorkload := 3 |} ].
Proof. reflexivity. Qed.

(** C2 at a login that every object inherits: no entry of a ranking
    has such a login, so the open event assigned to the user
    [constructor] creates no entry and changes no counter.
    [teamWorkload["constructor"]] reads the inherited constructor, which
    is truthy, and the increments are applied to it. *)
Theorem C2_inherited_login_is_not_counted (now : Z) :
  (forall events e,
     In e (Workload.analyzeTeamWorkload now events) ->
     JsObject.inherited (Workload.login e) = false)
  /\ Workload.isOpen Samples.constructorEvent = true
  /\ List.map Assignee.login (ev_assignees Samples.constructorEvent) = ["constructor"]
  /\ JsObject.inherited "constructor" = true
  /\ Workload.collect now [Samples.constructorEvent] = []
  /\ Workload.analyzeTeamWorkload now [Samples.constructorEvent] = [].
Proof.
  split; [| repeat split].
  intros events e H. apply ranking_entries in H as (l & Hget).
  assert (Hl : JsObject.inherited l = false).
  { apply (owns_entry_iff now events l). congruence. }
  now destruct (entry_counts now events l e Hl Hget) as (-> & _).
Qed.

Lemma C2_inherited_login_witness :
  JsObject.inherited "alice" = false
  /\ Workload.analyzeTeamWorkload Samples.noon10 [Samples.constructorEvent] = [].
Proof.
  destruct (C2_inherited_login_is_not_counted Samples.noon10)
    as (Hentries & _ & _ & _ & _ & Hempty).
  split; [| exact Hempty].
  exact (Hentries Samples.aliceEvents
           {| Workload.login := "alice";
              Workload.avatar_url := "https://avatars.example/alice";
              Workload.activeIssues := 3; Workload.upcomingIssues := 1;
              Workload.overdueIssues := 0; Workload.totalWorkload := 3 |}
           (or_introl eq_refl)).
Defined.

(* ===================================================================== *)
(** * Calendar arithmetic *)
(* ===================================================================== *)

Lemma day_of_year_range doe :
  0 <= doe <= 146096 ->
  0 <= doe - (365 * ((doe - doe / 1460 + doe / 36524 - doe / 146096) / 365)
              + (doe - doe / 1460 + doe / 36524 - doe / 146096) / 365 / 4
              - (doe - doe / 1460 + doe / 36524 - doe / 146096) / 365 / 100) <= 365.
Proof. intros H. Z.to_euclidean_division_equations; lia. Qed.

(** The month of a day number is a month. *)
Lemma civil_month_range z :
  1 <= snd (fst (JsDate.civilFromDays z)) <= 12.
Proof.
  unfold JsDate.civilFromDays. cbv zeta. cbn [fst snd].
  set (zz := z + 719468).
  set (doe := zz - zz / 146097 * 146097).
  assert (Hdoe : 0 <= doe <= 146096).
  { unfold doe. pose proof (Z.mod_pos_bound zz 146097 ltac:(lia)) as H.
    rewrite Z.mod_eq in H by lia. lia. }
  clearbody doe.
  pose proof (day_of_year_range doe Hdoe) as Hdoy.
  set (doy := doe - _) in *. clearbody doy.
  destruct (Z.ltb_spec ((5 * doy + 2) / 153) 10);
    Z.to_euclidean_division_equations; lia.
Qed.

Ltac eval_month_tests :=
  repeat match goal with
  | |- context [?a <=? ?b] =>
      let v := eval vm_compute in (a <=? b) in change (a <=? b) with v
  | |- context [?a =? ?b] =>
      let v := eval vm_compute in (a =? b) in change (a =? b) with v
  | |- context [?a mod 12] =>
      let v := eval vm_compute in (a mod 12) in change (a mod 12) with v
  end; cbv iota zeta.

(** The first day of the next month is after the first day of a month. *)
Lemma next_month_later y m :
  1 <= m <= 12 ->
  JsDate.daysFromCivil y m 1 <
  (if m =? 12 then JsDate.daysFromCivil (y + 1) 1 1 else JsDate.daysFromCivil y (m + 1) 1).
Proof.
  intros Hm.
  assert (Hcases : m = 1 \/ m = 2 \/ m = 3 \/ m = 4 \/ m = 5 \/ m = 6 \/ m = 7 \/
                   m = 8 \/ m = 9 \/ m = 10 \/ m = 11 \/ m = 12) by lia.
  unfold JsDate.daysFromCivil.
  repeat (destruct Hcases as [-> | Hcases]); [ .. | subst m ];
    eval_month_tests; Z.to_euclidean_division_equations; lia.
Qed.

Section LocalTimeFacts.
Variable tz : Z.

Lemma localDay_bounds t d :
  JsDate.localDay tz t = d
  <-> d * JsDate.msPerDay <= t + tz < (d + 1) * JsDate.msPerDay.
Proof.
  unfold JsDate.localDay, JsDate.msPerDay. split.
  - intros <-. Z.to_euclidean_division_equations; lia.
  - intros H. Z.to_euclidean_division_equations; lia.
Qed.

Lemma localDay_localMidnight d : JsDate.localDay tz (JsDate.localMidnight tz d) = d.
Proof.
  apply localDay_bounds. unfold JsDate.localMidnight, JsDate.msPerDay. lia.
Qed.

Lemma localDay_mono a b : a <= b -> JsDate.localDay tz a <= JsDate.localDay tz b.
Proof.
  intros H. unfold JsDate.localDay, JsDate.msPerDay.
  apply Z.div_le_mono; lia.
Qed.

(** The month of [t] begins before it ends. *)
Lemma month_bounds t : JsDate.startOfMonth tz t < JsDate.endOfMonth tz t.
Proof.
  unfold JsDate.startOfMonth, JsDate.endOfMonth. cbv zeta.
  pose proof (civil_month_range (JsDate.localDay tz t)) as Hm.
  pose proof (next_month_later (JsDate.getFullYear tz t) (JsDate.getMonth1 tz t) Hm) as Hlt.
  fold (JsDate.getMonth1 tz t) in Hm.
  destruct (JsDate.getMonth1 tz t =? 12);
    unfold JsDate.localMidnight, JsDate.msPerDay; lia.
Qed.

Lemma In_dayRange d first last :
  In d (Grid.dayRange first last) <-> first <= d <= last.
Proof.
  unfold Grid.dayRange. rewrite in_map_iff. split.
  - intros (k & <- & Hk). apply in_seq in Hk. lia.
  - intros H. exists (Z.to_nat (d - first)). split; [lia |]. apply in_seq. lia.
Qed.

(** The days that the loop of [eachDayOfInterval] pushes. *)
Lemma daysUpTo_range a b :
  a <= b ->
  JsDate.daysUpTo tz a b
  = List.map (JsDate.localMidnight tz)
      (Grid.dayRange (JsDate.localDay tz a) (JsDate.localDay tz b)).
Proof.
  intros Hab. unfold JsDate.daysUpTo, Grid.dayRange, JsDate.startOfDay. cbv zeta.
  rewrite List.map_map.
  assert (Hrounds :
    (b - JsDate.localMidnight tz (JsDate.localDay tz a)) / JsDate.msPerDay + 1
    = JsDate.localDay tz b - JsDate.localDay tz a + 1).
  { unfold JsDate.localMidnight, JsDate.localDay, JsDate.msPerDay.
    Z.to_euclidean_division_equations; lia. }
  rewrite Hrounds. apply List.map_ext. intros k.
  unfold JsDate.localMidnight. lia.
Qed.

Lemma eachDayOfInterval_forward a b :
  a <= b ->
  JsDate.eachDayOfInterval tz a b
  = List.map (JsDate.localMidnight tz)
      (Grid.dayRange (JsDate.localDay tz a) (JsDate.localDay tz b)).
Proof.
  intros Hab. unfold JsDate.eachDayOfInterval.
  destruct (Z.ltb_spec b a); [lia | now apply daysUpTo_range].
Qed.

End LocalTimeFacts.

(* ===================================================================== *)
(** * Calendar grid *)
(* ===================================================================== *)

Section GridFacts.
Variable tz : Z.

Lemma keyOfDay_zone d : Grid.keyOfDay tz d = Grid.keyOfDay 0 d.
Proof.
  unfold Grid.keyOfDay, JsDate.formatDayKey. now rewrite !localDay_localMidnight.
Qed.

Lemma formatDayKey_on_day t d :
  JsDate.localDay tz t = d -> JsDate.formatDayKey tz t = Grid.keyOfDay 0 d.
Proof.
  intros H. unfold Grid.keyOfDay, JsDate.formatDayKey.
  now rewrite localDay_localMidnight, H.
Qed.

Lemma clipStart_max s monthStart :
  Grid.clipStart (JsDate.Instant s) monthStart = Z.max s monthStart.
Proof.
  unfold Grid.clipStart, JsDate.gt, JsDate.lt.
  destruct (Z.ltb_spec monthStart s); lia.
Qed.

Lemma clipEnd_min e monthEnd :
  Grid.clipEnd (JsDate.Instant e) monthEnd = Z.min e monthEnd.
Proof.
  unfold Grid.clipEnd, JsDate.lt. destruct (Z.ltb_spec e monthEnd); lia.
Qed.

(** The dates of a multi-day event that ends after it starts. *)
Lemma multiDayDates_forward cur s e :
  s < e ->
  Grid.multiDayDates tz cur (JsDate.Instant s) (JsDate.Instant e)
  = if (s <=? JsDate.endOfMonth tz cur) && (JsDate.startOfMonth tz cur <=? e)
    then List.map (JsDate.localMidnight tz)
           (Grid.dayRange
              (JsDate.localDay tz (Z.max s (JsDate.startOfMonth tz cur)))
              (JsDate.localDay tz (Z.min e (JsDate.endOfMonth tz cur))))
    else [].
Proof.
  intros Hse. unfold Grid.multiDayDates, Grid.reachesMonth. cbv zeta.
  rewrite clipStart_max, clipEnd_min.
  pose proof (month_bounds tz cur) as Hm.
  destruct (Z.leb_spec s (JsDate.endOfMonth tz cur)) as [H1 | H1];
    destruct (Z.leb_spec (JsDate.startOfMonth tz cur) e) as [H2 | H2]; cbn [andb].
  - destruct (Z.leb_spec (Z.max s (JsDate.startOfMonth tz cur)) (JsDate.endOfMonth tz cur));
      [| lia].
    destruct (Z.leb_spec (JsDate.startOfMonth tz cur) (Z.min e (JsDate.endOfMonth tz cur)));
      [| lia].
    cbn [andb]. apply eachDayOfInterval_forward. lia.
  - destruct (Z.leb_spec (JsDate.startOfMonth tz cur) (Z.min e (JsDate.endOfMonth tz cur)));
      [lia |]. now rewrite andb_false_r.
  - destruct (Z.leb_spec (Z.max s (JsDate.startOfMonth tz cur)) (JsDate.endOfMonth tz cur));
      [lia | reflexivity].
  - destruct (Z.leb_spec (Z.max s (JsDate.startOfMonth tz cur)) (JsDate.endOfMonth tz cur));
      [lia | reflexivity].
Qed.

Lemma dayKeys_multi cur ev s e :
  startDate ev = Some (JsDate.Instant s) ->
  endDate ev = Some (JsDate.Instant e) ->
  s <> e ->
  Grid.dayKeys tz cur ev
  = Some (List.map (JsDate.formatDayKey tz)
            (Grid.multiDayDates tz cur (JsDate.Instant s) (JsDate.Instant e))).
Proof.
  intros Hs He Hne. unfold Grid.dayKeys, Grid.eventDates, Grid.datesOf.
  rewrite Hs, He. cbn [JsDate.timeDiffers option_map].
  destruct (Z.eqb_spec s e); [contradiction | reflexivity].
Qed.

Lemma september_2025 cur :
  JsDate.getFullYear tz cur = 2025 -> JsDate.getMonth1 tz cur = 9 ->
  JsDate.startOfMonth tz cur = JsDate.localMidnight tz 20332
  /\ JsDate.endOfMonth tz cur = JsDate.localMidnight tz 20361 + (JsDate.msPerDay - 1).
Proof.
  intros Hy Hm. unfold JsDate.startOfMonth, JsDate.endOfMonth. cbv zeta.
  rewrite Hy, Hm. split; reflexivity.
Qed.

(** ** The map from day keys to events *)

Lemma dayEvents_push ev (m : gmap string (list CalendarEvent)) date k :
  Grid.dayEvents (Grid.pushUnder tz ev m date) k
  = if decide (JsDate.formatDayKey tz date = k)
    then (Grid.dayEvents m k ++ [ev])%list
    else Grid.dayEvents m k.
Proof.
  unfold Grid.dayEvents, Grid.pushUnder. cbv zeta. rewrite lookup_insert.
  destruct (decide (JsDate.formatDayKey tz date = k)) as [<- | Hne]; reflexivity.
Qed.

Lemma dayEvents_pushes ev dates : forall (m : gmap string (list CalendarEvent)) x k,
  In x (Grid.dayEvents (fold_left (Grid.pushUnder tz ev) dates m) k)
  <-> In x (Grid.dayEvents m k)
      \/ (x = ev /\ In k (List.map (JsDate.formatDayKey tz) dates)).
Proof.
  induction dates as [| d r IH]; intros m x k.
  - cbn. tauto.
  - cbn [fold_left List.map In]. rewrite IH, dayEvents_push.
    destruct (decide (JsDate.formatDayKey tz d = k)) as [E | Hne].
    + rewrite in_app_iff. cbn [In]. intuition (subst; auto).
    + tauto.
Qed.

(** An event is stored under a day key exactly when the key is one of
    its day keys. *)
Lemma groupFrom_In cur events : forall (m m' : gmap string (list CalendarEvent)) x k,
  Grid.groupFrom tz cur events m = Some m' ->
  In x (Grid.dayEvents m' k)
  <-> In x (Grid.dayEvents m k)
      \/ (In x events /\ exists keys, Grid.dayKeys tz cur x = Some keys /\ In k keys).
Proof.
  induction events as [| ev r IH]; intros m m' x k H.
  - cbn in H. injection H as <-. cbn. tauto.
  - cbn [Grid.groupFrom] in H.
    destruct (Grid.eventDates tz cur ev) as [dates |] eqn:Hd; [| discriminate].
    rewrite (IH _ _ x k H), dayEvents_pushes. cbn [In]. split.
    + intros [[Hm | [-> Hk]] | [Hin Hkeys]]; [tauto | | tauto].
      right. split; [now left |]. exists (List.map (JsDate.formatDayKey tz) dates).
      unfold Grid.dayKeys. rewrite Hd. now split.
    + intros [Hm | [[<- | Hin] (keys & Hkeys & Hk)]]; [tauto | | right; eauto].
      left. right. split; [reflexivity |].
      unfold Grid.dayKeys in Hkeys. rewrite Hd in Hkeys. cbn in Hkeys.
      injection Hkeys as <-. exact Hk.
Qed.

Lemma eventsByDate_In cur events (m : gmap string (list CalendarEvent)) x k :
  Grid.eventsByDate tz cur events = Some m ->
  In x (Grid.dayEvents m k)
  <-> In x events /\ exists keys, Grid.dayKeys tz cur x = Some keys /\ In k keys.
Proof.
  intros H. rewrite (groupFrom_In cur events ∅ m x k H).
  unfold Grid.dayEvents at 1. rewrite lookup_empty. cbn. tauto.
Qed.

(** The grouping is defined on events that have a start date. *)
Lemma groupFrom_defined cur events : forall m : gmap string (list CalendarEvent),
  Forall (fun ev => Extractor.isNull (startDate ev) = false) events ->
  exists m', Grid.groupFrom tz cur events m = Some m'.
Proof.
  induction events as [| ev r IH]; intros m Hall; [now exists m |].
  inversion Hall as [| ? ? Hev Hr]; subst. cbn [Grid.groupFrom].
  unfold Grid.eventDates. destruct (startDate ev); [| discriminate]. now apply IH.
Qed.

(** In particular it is defined on the events that the extractor
    returns. *)
Lemma eventsByDate_of_extracted parseDate cur items :
  exists m,
    Grid.eventsByDate tz cur (Extractor.transformToCalendarEvents parseDate items) = Some m.
Proof.
  apply groupFrom_defined.
  rewrite (events_are_images parseDate items).
  apply List.Forall_forall. intros ev Hin. apply in_map_iff in Hin as (item & <- & _).
  apply transformItem_has_start.
Qed.

(** A day key is not the name of an inherited property. *)
Lemma includes_hyphen a b : JsString.includes (a +:+ "-" +:+ b) "-" = true.
Proof.
  induction a as [| c r IH].
  - destruct b; reflexivity.
  - change (String c r +:+ "-" +:+ b) with (String c (r +:+ "-" +:+ b)).
    cbn [JsString.includes]. rewrite IH. apply orb_true_r.
Qed.

Lemma dayKey_not_inherited t : JsObject.inherited (JsDate.formatDayKey tz t) = false.
Proof.
  destruct (JsObject.inherited (JsDate.formatDayKey tz t)) eqn:E; [| reflexivity].
  exfalso.
  assert (Hhyphen : JsString.includes (JsDate.formatDayKey tz t) "-" = true).
  { unfold JsDate.formatDayKey. destruct (JsDate.civilFromDays _) as [[y m] d].
    apply includes_hyphen. }
  unfold JsObject.inherited in E. apply existsb_exists in E as (k & Hk & Heq).
  apply String.eqb_eq in Heq. rewrite Heq in Hhyphen.
  cbn in Hk.
  repeat (destruct Hk as [<- | Hk]; [discriminate Hhyphen |]). contradiction.
Qed.

End GridFacts.

Section GridClaims.
Variable tz : Z.

Lemma multiDayKeys_spec cur s e :
  s < e ->
  List.map (JsDate.formatDayKey tz)
    (Grid.multiDayDates tz cur (JsDate.Instant s) (JsDate.Instant e))
  = Grid.specMultiDayKeys tz cur s e.
Proof.
  intros Hse. rewrite multiDayDates_forward by assumption.
  unfold Grid.specMultiDayKeys. cbv zeta.
  pose proof (month_bounds tz cur) as Hm.
  destruct (Z.leb_spec s (JsDate.endOfMonth tz cur)) as [H1 | H1];
    destruct (Z.leb_spec (JsDate.startOfMonth tz cur) e) as [H2 | H2]; cbn [andb];
    destruct (Z.leb_spec (Z.max s (JsDate.startOfMonth tz cur))
                         (Z.min e (JsDate.endOfMonth tz cur))) as [H3 | H3];
    try lia; try reflexivity.
  now rewrite List.map_map.
Qed.

(** C6 (as amended): an event whose end date is later than its start
    date is stored under the day key of every local day from the day of
    the later of its start and the month's start to the day of the
    earlier of its end and the month's end, and under no key when it
    does not overlap the month; the event from 2025-08-30 to 2025-09-05
    is stored in September 2025 under 2025-09-01 to 2025-09-05 only. *)
Theorem C6_later_end_date_clipped_to_month (cur : Z) (ev : CalendarEvent) (s e : Z) :
  startDate ev = Some (JsDate.Instant s) ->
  endDate ev = Some (JsDate.Instant e) ->
  s < e ->
  Grid.dayKeys tz cur ev = Some (Grid.specMultiDayKeys tz cur s e)
  /\ (e < JsDate.startOfMonth tz cur \/ JsDate.endOfMonth tz cur < s ->
      Grid.dayKeys tz cur ev = Some [])
  /\ (s <= JsDate.endOfMonth tz cur -> JsDate.startOfMonth tz cur <= e ->
      Grid.dayKeys tz cur ev
      = Some (List.map (Grid.keyOfDay tz)
                (Grid.dayRange
                   (JsDate.localDay tz (Z.max s (JsDate.startOfMonth tz cur)))
                   (JsDate.localDay tz (Z.min e (JsDate.endOfMonth tz cur))))))
  /\ (forall events,
        In ev events ->
        Forall (fun x => Extractor.isNull (startDate x) = false) events ->
        exists m : gmap string (list CalendarEvent),
          Grid.eventsByDate tz cur events = Some m
          /\ forall k, In ev (Grid.dayEvents m k)
                       <-> In k (Grid.specMultiDayKeys tz cur s e))
  /\ (JsDate.localDay tz s = JsDate.daysFromCivil 2025 8 30 ->
      JsDate.localDay tz e = JsDate.daysFromCivil 2025 9 5 ->
      JsDate.getFullYear tz cur = 2025 -> JsDate.getMonth1 tz cur = 9 ->
      Grid.dayKeys tz cur ev
      = Some ["2025-09-01"; "2025-09-02"; "2025-09-03"; "2025-09-04"; "2025-09-05"]).
Proof.
  intros Hs He Hse.
  assert (Hkeys : Grid.dayKeys tz cur ev = Some (Grid.specMultiDayKeys tz cur s e)).
  { rewrite (dayKeys_multi tz cur ev s e Hs He) by lia. now rewrite multiDayKeys_spec. }
  pose proof (month_bounds tz cur) as Hm.
  assert (Hoverlap : s <= JsDate.endOfMonth tz cur -> JsDate.startOfMonth tz cur <= e ->
    Grid.specMultiDayKeys tz cur s e
    = List.map (Grid.keyOfDay tz)
        (Grid.dayRange (JsDate.localDay tz (Z.max s (JsDate.startOfMonth tz cur)))
                       (JsDate.localDay tz (Z.min e (JsDate.endOfMonth tz cur))))).
  { intros H1 H2. unfold Grid.specMultiDayKeys. cbv zeta.
    destruct (Z.leb_spec (Z.max s (JsDate.startOfMonth tz cur))
                         (Z.min e (JsDate.endOfMonth tz cur))); [reflexivity | lia]. }
  split; [exact Hkeys |]. split; [| split; [| split]].
  - intros Hout. rewrite Hkeys. f_equal. unfold Grid.specMultiDayKeys. cbv zeta.
    destruct (Z.leb_spec (Z.max s (JsDate.startOfMonth tz cur))
                         (Z.min e (JsDate.endOfMonth tz cur))); [lia | reflexivity].
  - intros H1 H2. rewrite Hkeys. f_equal. now apply Hoverlap.
  - intros events Hin Hall.
    destruct (groupFrom_defined tz cur events ∅ Hall) as (m & Hgroup).
    exists m. split; [exact Hgroup |]. intros k.
    rewrite (eventsByDate_In tz cur events m ev k Hgroup), Hkeys. split.
    + intros (_ & keys & [= <-] & Hk). exact Hk.
    + intros Hk. split; [assumption |]. eauto.
  - intros Hds Hde Hy Hmo. rewrite Hkeys. f_equal.
    destruct (september_2025 tz cur Hy Hmo) as [Hms Hme].
    apply localDay_bounds in Hds, Hde.
    change (JsDate.daysFromCivil 2025 8 30) with 20330 in Hds.
    change (JsDate.daysFromCivil 2025 9 5) with 20336 in Hde.
    unfold JsDate.msPerDay in Hds, Hde.
    assert (Hmax : Z.max s (JsDate.startOfMonth tz cur) = JsDate.localMidnight tz 20332).
    { rewrite Hms. unfold JsDate.localMidnight, JsDate.msPerDay. lia. }
    assert (Hmin : Z.min e (JsDate.endOfMonth tz cur) = e).
    { rewrite Hme. unfold JsDate.localMidnight, JsDate.msPerDay. lia. }
    rewrite Hoverlap.
    + rewrite Hmax, Hmin, localDay_localMidnight.
      assert (Hday : JsDate.localDay tz e = 20336).
      { apply localDay_bounds. unfold JsDate.msPerDay. lia. }
      rewrite Hday. change (Grid.dayRange 20332 20336)
        with [20332; 20333; 20334; 20335; 20336].
      cbn [List.map].
      rewrite (keyOfDay_zone tz 20332), (keyOfDay_zone tz 20333), (keyOfDay_zone tz 20334),
        (keyOfDay_zone tz 20335), (keyOfDay_zone tz 20336).
      reflexivity.
    + rewrite Hme. unfold JsDate.localMidnight, JsDate.msPerDay. lia.
    + rewrite Hms. unfold JsDate.localMidnight, JsDate.msPerDay. lia.
Qed.

(** C7: an event without an end date, or whose end date is the same
    instant as its start date, is stored under the day key of its start
    date and under no other key, and only when the start date is in the
    month shown; an event on 2025-09-15 is stored under the key
    2025-09-15 alone. *)
Theorem C7_single_day_event_under_its_start_day (cur : Z) (ev : CalendarEvent)
    (start : JsDate.Date) :
  startDate ev = Some start ->
  (endDate ev = None
   \/ exists e, endDate ev = Some e /\ JsDate.timeDiffers start e = false) ->
  Grid.dayKeys tz cur ev
  = Some (match start with
          | JsDate.Instant s =>
              if JsDate.isSameMonth tz start (JsDate.Instant cur)
              then [JsDate.formatDayKey tz s] else []
          | JsDate.InvalidDate => []
          end)
  /\ (forall s,
        start = JsDate.Instant s ->
        JsDate.localDay tz s = JsDate.daysFromCivil 2025 9 15 ->
        JsDate.getFullYear tz cur = 2025 -> JsDate.getMonth1 tz cur = 9 ->
        Grid.dayKeys tz cur ev = Some ["2025-09-15"]
        /\ forall events,
             In ev events ->
             Forall (fun x => Extractor.isNull (startDate x) = false) events ->
             exists m : gmap string (list CalendarEvent),
               Grid.eventsByDate tz cur events = Some m
               /\ forall k, In ev (Grid.dayEvents m k) <-> k = "2025-09-15").
Proof.
  intros Hs Hend.
  assert (Hkeys : Grid.dayKeys tz cur ev
    = Some (match start with
            | JsDate.Instant s =>
                if JsDate.isSameMonth tz start (JsDate.Instant cur)
                then [JsDate.formatDayKey tz s] else []
            | JsDate.InvalidDate => []
            end)).
  { unfold Grid.dayKeys, Grid.eventDates, Grid.datesOf. rewrite Hs.
    destruct Hend as [-> | (e & -> & Hsame)]; [| rewrite Hsame];
      cbn [option_map]; unfold Grid.singleDayDates;
      destruct start as [s |]; [| reflexivity | | reflexivity];
      destruct (JsDate.isSameMonth tz _ _); reflexivity. }
  split; [exact Hkeys |].
  intros s -> Hday Hy Hmo.
  assert (Hone : Grid.dayKeys tz cur ev = Some ["2025-09-15"]).
  { rewrite Hkeys. unfold JsDate.isSameMonth, JsDate.getFullYear, JsDate.getMonth1 in *.
    rewrite Hday, Hy, Hmo. cbn [andb].
    change (fst (fst (JsDate.civilFromDays (JsDate.daysFromCivil 2025 9 15)))) with 2025.
    change (snd (fst (JsDate.civilFromDays (JsDate.daysFromCivil 2025 9 15)))) with 9.
    cbn [Z.eqb Pos.eqb andb]. rewrite (formatDayKey_on_day tz s _ Hday). reflexivity. }
  split; [exact Hone |].
  intros events Hin Hall.
  destruct (groupFrom_defined tz cur events ∅ Hall) as (m & Hgroup).
  exists m. split; [exact Hgroup |]. intros k.
  rewrite (eventsByDate_In tz cur events m ev k Hgroup), Hone. split.
  - intros (_ & keys & [= <-] & [<- | []]). reflexivity.
  - intros ->. split; [assumption |]. exists ["2025-09-15"]. split; [reflexivity | now left].
Qed.

End GridClaims.

(** C6, as stated, fails on an event whose end date is before its start
    date: the clipped range from 2025-09-10 to 2025-09-05 is empty, yet
    the test of the overlap passes and the event is stored under six
    days. *)
Lemma C6_backwards_event_is_not_skipped :
  startDate Samples.backwards = Some (JsDate.Instant 1757462400000)
  /\ endDate Samples.backwards = Some (JsDate.Instant 1757030400000)
  /\ Grid.specMultiDayKeys 0 Samples.midSeptember 1757462400000 1757030400000 = []
  /\ Grid.reachesMonth 0 Samples.midSeptember (JsDate.Instant 1757462400000)
       (JsDate.Instant 1757030400000) = true
  /\ Grid.dayKeys 0 Samples.midSeptember Samples.backwards
     = Some ["2025-09-10"; "2025-09-09"; "2025-09-08"; "2025-09-07"; "2025-09-06";
             "2025-09-05"].
Proof. vm_compute. repeat split. Qed.

Lemma C6_clipped_witness :
  Grid.dayKeys 0 Samples.midSeptember Samples.augustToSeptember
  = Some ["2025-09-01"; "2025-09-02"; "2025-09-03"; "2025-09-04"; "2025-09-05"].
Proof.
  refine (proj2 (proj2 (proj2 (proj2
    (C6_later_end_date_clipped_to_month 0 Samples.midSeptember Samples.augustToSeptember
       1756512000000 1757030400000 _ _ _)))) _ _ _ _).
  - reflexivity.
  - reflexivity.
  - lia.
  - reflexivity.
  - reflexivity.
  - reflexivity.
  - reflexivity.
Defined.

Lemma C7_single_day_witness :
  Grid.dayKeys 0 Samples.midSeptember Samples.oneDay = Some ["2025-09-15"]
  /\ Grid.dayKeys 0 Samples.midSeptember Samples.openEnded = Some ["2025-09-15"].
Proof.
  split.
  - refine (proj1 (proj2
      (C7_single_day_event_under_its_start_day 0 Samples.midSeptember Samples.oneDay
         (JsDate.Instant 1757894400000) _ _) 1757894400000 _ _ _ _)).
    + reflexivity.
    + right. exists (JsDate.Instant 1757894400000). split; reflexivity.
    + reflexivity.
    + reflexivity.
    + reflexivity.
    + reflexivity.
  - refine (proj1 (proj2
      (C7_single_day_event_under_its_start_day 0 Samples.midSeptember Samples.openEnded
         (JsDate.Instant 1757894400000) _ _) 1757894400000 _ _ _ _)).
    + reflexivity.
    + left. reflexivity.
    + reflexivity.
    + reflexivity.
    + reflexivity.
    + reflexivity.
Defined.

(** The identifiers of the events drawn in three day cells. *)
Example grid_sample :
  option_map (fun m => (List.map id (Grid.dayEvents m "2025-09-05"),
                        List.map id (Grid.dayEvents m "2025-09-15"),
                        List.map id (Grid.dayEvents m "2025-09-06")))
    (Grid.eventsByDate 0 Samples.midSeptember
       [Samples.augustToSeptember; Samples.oneDay; Samples.openEnded])
  = Some (["10"], ["12"; "13"], []).
Proof. vm_compute. reflexivity. Qed.

(* ===================================================================== *)
(** * Fetching *)
(* ===================================================================== *)

Section FetchFacts.
Variable parseDate : string -> JsDate.Date.

Lemma fallbacks_snoc log e :
  Fetch.fallbacks (log ++ [e])%list
  = (Fetch.fallbacks log
     + match e with
       | Fetch.Console l => if String.eqb l Fetch.fallbackLine then 1 else 0
       | _ => 0
       end)%nat.
Proof.
  unfold Fetch.fallbacks. rewrite List.filter_app, List.length_app. cbn.
  destruct e as [l | |]; cbn; [| reflexivity | reflexivity].
  destruct (String.eqb l Fetch.fallbackLine); reflexivity.
Qed.

Lemma searchRequests_snoc log e :
  Fetch.searchRequests (log ++ [e])%list
  = (Fetch.searchRequests log
     + match e with Fetch.SearchRequest _ _ => 1 | _ => 0 end)%nat.
Proof.
  unfold Fetch.searchRequests. rewrite List.filter_app, List.length_app. cbn.
  destruct e; reflexivity.
Qed.

(** The GraphQL loop takes no fallback and sends no search request. *)
Lemma graphqlLoop_effects org projectNumber since script :
  forall cursor allItems log r script' log',
  Fetch.graphqlLoop parseDate org projectNumber since script cursor allItems log
  = (r, script', log') ->
  Fetch.fallbacks log' = Fetch.fallbacks log
  /\ Fetch.searchRequests log' = Fetch.searchRequests log.
Proof.
  induction script as [| resp rest IH]; intros cursor allItems log r script' log' H.
  - cbn in H. injection H as <- <- <-.
    rewrite fallbacks_snoc, searchRequests_snoc. lia.
  - cbn [Fetch.graphqlLoop] in H. destruct resp as [m | | nodes hasNext endCursor].
    + injection H as <- <- <-. rewrite fallbacks_snoc, searchRequests_snoc. lia.
    + injection H as <- <- <-. rewrite fallbacks_snoc, searchRequests_snoc. lia.
    + destruct hasNext.
      * apply IH in H. rewrite fallbacks_snoc, searchRequests_snoc in H. lia.
      * injection H as <- <- <-.
        rewrite !fallbacks_snoc, !searchRequests_snoc.
        change (String.eqb _ Fetch.fallbackLine) with false. cbv iota. lia.
Qed.

(** The search loop takes no fallback. *)
Lemma searchLoop_effects org script :
  forall page allItems log items script' log',
  Fetch.searchLoop org script page allItems log = (items, script', log') ->
  Fetch.fallbacks log' = Fetch.fallbacks log.
Proof.
  induction script as [| resp rest IH]; intros page allItems log items script' log' H.
  - cbn in H. injection H as <- <- <-. rewrite !fallbacks_snoc. cbn. lia.
  - cbn [Fetch.searchLoop] in H. destruct resp as [m | found].
    + injection H as <- <- <-. rewrite !fallbacks_snoc. cbn. lia.
    + destruct (Z.of_nat (List.length found) =? 0).
      * injection H as <- <- <-. rewrite fallbacks_snoc. lia.
      * destruct (Z.of_nat (List.length found) =? Fetch.perPage).
        -- apply IH in H. rewrite fallbacks_snoc in H. lia.
        -- injection H as <- <- <-. rewrite fallbacks_snoc. lia.
Qed.

(** The label search always returns: a failed request ends it with the
    items gathered so far. *)
Lemma fetchIssuesByLabel_returns org since w :
  exists items w',
    Fetch.fetchIssuesByLabel org since w = (Returned items, w')
    /\ Fetch.fallbacks (Fetch.effects w') = Fetch.fallbacks (Fetch.effects w).
Proof.
  unfold Fetch.fetchIssuesByLabel. destruct since as [t |].
  - destruct (Fetch.searchLoop org (Fetch.search w) 1 [] (Fetch.effects w))
      as [[items script] log] eqn:E.
    eexists _, _. split; [reflexivity |]. cbn [Fetch.effects].
    exact (searchLoop_effects _ _ _ _ _ _ _ _ E).
  - eexists _, _. split; [reflexivity |]. unfold Fetch.emit. cbn [Fetch.effects].
    rewrite fallbacks_snoc. change (String.eqb _ Fetch.fallbackLine) with false.
    cbv iota. lia.
Qed.

Lemma fetchIssuesByLabel_first_request_fails org t w m rest :
  Fetch.search w = Fetch.SearchFailure m :: rest ->
  exists w',
    Fetch.fetchIssuesByLabel org (JsDate.Instant t) w = (Returned [], w')
    /\ Fetch.searchRequests (Fetch.effects w') = S (Fetch.searchRequests (Fetch.effects w)).
Proof.
  intros Hs. unfold Fetch.fetchIssuesByLabel. rewrite Hs. cbn [Fetch.searchLoop].
  eexists. split; [reflexivity |]. cbn [Fetch.effects].
  rewrite !searchRequests_snoc. lia.
Qed.

(** The requests for the pages [page], [page + 1], ... *)
Lemma requests_from org page n :
  (Fetch.SearchRequest org page
   :: List.map (fun k => Fetch.SearchRequest org (page + 1 + Z.of_nat k)) (seq 0 n))
  = List.map (fun k => Fetch.SearchRequest org (page + Z.of_nat k)) (seq 0 (S n)).
Proof.
  cbn [seq List.map]. rewrite Z.add_0_r. f_equal.
  rewrite <- seq_shift, List.map_map. apply List.map_ext. intros k.
  f_equal. lia.
Qed.

(** A search that fails after some full pages, by a failed request or
    because no response is left: every full page is requested once and
    gathered, the failed request is reported on the console and ends the
    loop, and the responses behind it are not asked for. *)
Lemma searchLoop_fails_after_pages org tail pages :
  forall page allItems log,
  Forall (fun found => Z.of_nat (List.length found) = Fetch.perPage) pages ->
  tail = [] \/ (exists failure rest, tail = Fetch.SearchFailure failure :: rest) ->
  Fetch.searchLoop org (List.map Fetch.SearchPage pages ++ tail)%list page allItems log
  = ((allItems ++ List.map Fetch.convertRest (List.concat pages))%list,
     List.tl tail,
     (log
      ++ List.map (fun k => Fetch.SearchRequest org (page + Z.of_nat k))
           (seq 0 (S (List.length pages)))
      ++ [Fetch.Console "Error searching issues:"])%list).
Proof.
  induction pages as [| found r IH]; intros page allItems log Hfull Htail.
  - destruct Htail as [-> | (failure & rest & ->)];
      cbn [List.map app Fetch.searchLoop List.concat List.length seq List.tl];
      rewrite List.app_nil_r, Z.add_0_r, <- List.app_assoc; reflexivity.
  - apply List.Forall_cons_iff in Hfull as [Hfound Hr].
    cbn [List.map app Fetch.searchLoop List.concat List.length].
    rewrite Hfound. change (Fetch.perPage =? 0) with false.
    rewrite Z.eqb_refl. cbv iota zeta.
    rewrite (IH (page + 1) _ _ Hr Htail).
    rewrite <- (requests_from org page (S (List.length r))).
    rewrite List.map_app, <- !List.app_assoc. reflexivity.
Qed.

(** C5 (as amended): when the GraphQL path throws, the label search is
    run once, and the fetch returns what the search returns.  The
    search does not throw: a failed search request is reported on the
    console and ends the paging, and the items gathered so far, possibly
    none, are returned as a result.  No request is sent again: when the
    search fails after [n] full pages, by a failed request or because no
    response is left, the items of these pages are returned in order,
    the log holds the fallback line, one request for each of the pages 1
    to [n + 1] and then the error line, and the responses behind the
    failure are not asked for. *)
Theorem C5_fallback_once_then_gathered_items (org : string) (projectNumber : Z)
    (sinceDate : option JsDate.Date) (w w1 : Fetch.World) (m : string) :
  Fetch.fetchProjectItemsGraphQL parseDate org projectNumber
    (Fetch.sinceOrDefault parseDate sinceDate)
    (Fetch.emit (Fetch.Console "Attempting to use GraphQL API for Projects v2...") w)
  = (Thrown m, w1) ->
  Fetch.fetchProjectItems parseDate org projectNumber sinceDate w
  = Fetch.fetchIssuesByLabel org (Fetch.sinceOrDefault parseDate sinceDate)
      (Fetch.emit (Fetch.Console Fetch.fallbackLine) w1)
  /\ (exists items w2,
        Fetch.fetchProjectItems parseDate org projectNumber sinceDate w = (Returned items, w2)
        /\ Fetch.fallbacks (Fetch.effects w2) = S (Fetch.fallbacks (Fetch.effects w)))
  /\ (forall t failure rest,
        Fetch.sinceOrDefault parseDate sinceDate = JsDate.Instant t ->
        Fetch.search w1 = Fetch.SearchFailure failure :: rest ->
        exists w2,
          Fetch.fetchProjectItems parseDate org projectNumber sinceDate w = (Returned [], w2)
          /\ Fetch.searchRequests (Fetch.effects w2) = S (Fetch.searchRequests (Fetch.effects w)))
  /\ (forall t pages tail,
        Fetch.sinceOrDefault parseDate sinceDate = JsDate.Instant t ->
        Forall (fun found => Z.of_nat (List.length found) = Fetch.perPage) pages ->
        tail = [] \/ (exists failure rest, tail = Fetch.SearchFailure failure :: rest) ->
        Fetch.search w1 = (List.map Fetch.SearchPage pages ++ tail)%list ->
        Fetch.fetchProjectItems parseDate org projectNumber sinceDate w
        = (Returned (List.map Fetch.convertRest (List.concat pages)),
           {| Fetch.graphql := Fetch.graphql w1;
              Fetch.search := List.tl tail;
              Fetch.effects :=
                (Fetch.effects w1
                 ++ Fetch.Console Fetch.fallbackLine
                    :: List.map (fun k => Fetch.SearchRequest org (1 + Z.of_nat k))
                         (seq 0 (S (List.length pages)))
                 ++ [Fetch.Console "Error searching issues:"])%list |})).
Proof.
  intros Hgql.
  assert (Hfetch : Fetch.fetchProjectItems parseDate org projectNumber sinceDate w
    = Fetch.fetchIssuesByLabel org (Fetch.sinceOrDefault parseDate sinceDate)
        (Fetch.emit (Fetch.Console Fetch.fallbackLine) w1)).
  { unfold Fetch.fetchProjectItems. cbv zeta. now rewrite Hgql. }
  assert (Hlog : Fetch.fallbacks (Fetch.effects w1) = Fetch.fallbacks (Fetch.effects w)
                 /\ Fetch.searchRequests (Fetch.effects w1) = Fetch.searchRequests (Fetch.effects w)).
  { unfold Fetch.fetchProjectItemsGraphQL in Hgql.
    destruct (Fetch.graphqlLoop _ _ _ _ _ _ _ _) as [[r script] log] eqn:E in Hgql.
    injection Hgql as -> <-. apply graphqlLoop_effects in E.
    unfold Fetch.emit in E. cbn [Fetch.effects] in E |- *.
    rewrite fallbacks_snoc, searchRequests_snoc in E.
    change (String.eqb _ Fetch.fallbackLine) with false in E. cbv iota in E. lia. }
  split; [exact Hfetch |]. split; [| split].
  - destruct (fetchIssuesByLabel_returns org (Fetch.sinceOrDefault parseDate sinceDate)
                (Fetch.emit (Fetch.Console Fetch.fallbackLine) w1)) as (items & w2 & Hr & Hf).
    exists items, w2. rewrite Hfetch. split; [exact Hr |].
    rewrite Hf. unfold Fetch.emit. cbn [Fetch.effects]. rewrite fallbacks_snoc.
    rewrite String.eqb_refl. lia.
  - intros t failure rest Hsince Hsearch. rewrite Hfetch, Hsince.
    destruct (fetchIssuesByLabel_first_request_fails org t
                (Fetch.emit (Fetch.Console Fetch.fallbackLine) w1) failure rest Hsearch)
      as (w2 & Hr & Hn).
    exists w2. split; [exact Hr |]. rewrite Hn. unfold Fetch.emit. cbn [Fetch.effects].
    rewrite searchRequests_snoc. lia.
  - intros t pages tail Hsince Hfull Htail Hsearch. rewrite Hfetch, Hsince.
    unfold Fetch.fetchIssuesByLabel, Fetch.emit. cbn [Fetch.search Fetch.effects Fetch.graphql].
    rewrite Hsearch, (searchLoop_fails_after_pages org tail pages 1 [] _ Hfull Htail).
    cbn [app]. rewrite <- List.app_assoc. reflexivity.
Qed.

End FetchFacts.

(** C5, as stated, fails: when both paths fail the caller gets an empty
    list of items, not an error; and when the search fails after a full
    page the caller gets that page. *)
Lemma C5_failed_search_returns_gathered_items :
  fst (Fetch.fetchProjectItems JsDate.isoParse Fetch.DEFAULT_ORG
         Fetch.DEFAULT_PROJECT_NUMBER None Samples.bothDown) = Returned []
  /\ (match fst (Fetch.fetchProjectItems JsDate.isoParse Fetch.DEFAULT_ORG
                   Fetch.DEFAULT_PROJECT_NUMBER None Samples.searchBreaks) with
      | Returned items => List.length items
      | Thrown _ => O
      end = 100%nat).
Proof. vm_compute. split; reflexivity. Qed.

Lemma C5_fallback_witness :
  Fetch.fetchProjectItems JsDate.isoParse Fetch.DEFAULT_ORG
    Fetch.DEFAULT_PROJECT_NUMBER None Samples.searchBreaks
  = (Returned (List.map Fetch.convertRest (List.map Samples.restIssue (seq 1 100))),
     {| Fetch.graphql := [];
        Fetch.search := [];
        Fetch.effects :=
          [ Fetch.Console "Attempting to use GraphQL API for Projects v2...";
            Fetch.GraphqlRequest Fetch.DEFAULT_ORG Fetch.DEFAULT_PROJECT_NUMBER None;
            Fetch.Console Fetch.fallbackLine;
            Fetch.SearchRequest Fetch.DEFAULT_ORG 1;
            Fetch.SearchRequest Fetch.DEFAULT_ORG 2;
            Fetch.Console "Error searching issues:" ] |}).
Proof.
  refine (proj2 (proj2 (proj2
    (C5_fallback_once_then_gathered_items JsDate.isoParse Fetch.DEFAULT_ORG
       Fetch.DEFAULT_PROJECT_NUMBER None Samples.searchBreaks
       {| Fetch.graphql := [];
          Fetch.search := Fetch.search Samples.searchBreaks;
          Fetch.effects :=
            [ Fetch.Console "Attempting to use GraphQL API for Projects v2...";
              Fetch.GraphqlRequest Fetch.DEFAULT_ORG Fetch.DEFAULT_PROJECT_NUMBER None ] |}
       (Fetch.notFoundMessage Fetch.DEFAULT_ORG Fetch.DEFAULT_PROJECT_NUMBER) _)))
    1754006400000 [List.map Samples.restIssue (seq 1 100)]
    [Fetch.SearchFailure "API rate limit exceeded"] _ _ _ _).
  - reflexivity.
  - reflexivity.
  - constructor; [reflexivity | constructor].
  - right. exists "API rate limit exceeded", []. reflexivity.
  - reflexivity.
Defined.

(* ===================================================================== *)
(** * Tool dispatch *)
(* ===================================================================== *)

Lemma startsWith_refl s : JsString.startsWith s s = true.
Proof.
  induction s as [| c r IH]; [reflexivity |].
  cbn. now rewrite Ascii.eqb_refl.
Qed.

(** A text that ends with [s] includes [s]. *)
Lemma includes_suffix p s : JsString.includes (p +:+ s) s = true.
Proof.
  induction p as [| c r IH].
  - change ("" +:+ s) with s. destruct s; cbn [JsString.includes];
      rewrite startsWith_refl; reflexivity.
  - change (String c r +:+ s) with (String c (r +:+ s)).
    cbn [JsString.includes]. rewrite IH. apply orb_true_r.
Qed.

Section DispatchFacts.
Variable parseDate : string -> JsDate.Date.
Variable Args : Type.
Variable createBestAssigneeUI : Workload.Entry -> list Workload.Entry -> string.
Variable teamStatusCase personScheduleCase analyzeWorkloadCase calendarEventsCase :
  Args -> Fetch.World -> Outcome Dispatch.Result * Fetch.World.
Variable now : Z.

Local Abbreviation runTool :=
  (Dispatch.runTool parseDate Args createBestAssigneeUI teamStatusCase
     personScheduleCase analyzeWorkloadCase calendarEventsCase now).
Local Abbreviation callTool :=
  (Dispatch.callTool parseDate Args createBestAssigneeUI teamStatusCase
     personScheduleCase analyzeWorkloadCase calendarEventsCase now).

Lemma runTool_unknown name args w :
  ~ In name Dispatch.toolNames ->
  runTool name args w = (Thrown ("Unknown tool: " +:+ name), w).
Proof.
  intros Hnot. unfold Dispatch.runTool.
  repeat match goal with
  | |- context [String.eqb name ?t] =>
      destruct (String.eqb_spec name t) as [-> | _];
        [exfalso; apply Hnot; cbn; tauto |]
  end.
  reflexivity.
Qed.

(** C9: a request for a tool that is not one of the five is answered
    with a single text block that names the tool and with the error
    flag set; whatever is thrown while a tool runs is answered in the
    same way with its message; the handler itself always returns a
    result. *)
Theorem C9_unknown_tool_and_failures_are_error_results (name : string) (args : Args)
    (w : Fetch.World) :
  (~ In name Dispatch.toolNames ->
   fst (callTool name args w)
   = {| Dispatch.content := [Dispatch.TextBlock ("Error: Unknown tool: " +:+ name)];
        Dispatch.isError := true |}
   /\ JsString.includes ("Error: Unknown tool: " +:+ name) name = true)
  /\ (forall m w1,
        runTool name args w = (Thrown m, w1) ->
        fst (callTool name args w)
        = {| Dispatch.content := [Dispatch.TextBlock ("Error: " +:+ m)];
             Dispatch.isError := true |})
  /\ (forall r w1,
        runTool name args w = (Returned r, w1) -> fst (callTool name args w) = r)
  /\ (exists r w1, callTool name args w = (r, w1)).
Proof.
  repeat split.
  - unfold Dispatch.callTool. rewrite (runTool_unknown name args w H). reflexivity.
  - apply includes_suffix.
  - intros m w1 Hrun. unfold Dispatch.callTool. rewrite Hrun. reflexivity.
  - intros r w1 Hrun. unfold Dispatch.callTool. rewrite Hrun. reflexivity.
  - destruct (callTool name args w) as [r w1]. now exists r, w1.
Qed.

End DispatchFacts.

Lemma C9_error_result_witness :
  fst (Dispatch.callTool JsDate.isoParse unit Samples.noView Samples.failingCase
         Samples.failingCase Samples.failingCase Samples.failingCase Samples.noon10
         "delete_repository" tt Samples.bothDown)
  = {| Dispatch.content := [Dispatch.TextBlock "Error: Unknown tool: delete_repository"];
       Dispatch.isError := true |}
  /\ fst (Dispatch.callTool JsDate.isoParse unit Samples.noView Samples.failingCase
            Samples.failingCase Samples.failingCase Samples.failingCase Samples.noon10
            "get_calendar_events" tt Samples.bothDown)
     = {| Dispatch.content := [Dispatch.TextBlock "Error: Invalid time value"];
          Dispatch.isError := true |}.
Proof.
  split.
  - refine (proj1 (proj1
      (C9_unknown_tool_and_failures_are_error_results JsDate.isoParse unit Samples.noView
         Samples.failingCase Samples.failingCase Samples.failingCase Samples.failingCase
         Samples.noon10 "delete_repository" tt Samples.bothDown) _)).
    cbn. intros H. repeat destruct H as [H | H]; try discriminate H. exact H.
  - refine (proj1 (proj2
      (C9_unknown_tool_and_failures_are_error_results JsDate.isoParse unit Samples.noView
         Samples.failingCase Samples.failingCase Samples.failingCase Samples.failingCase
         Samples.noon10 "get_calendar_events" tt Samples.bothDown))
      "Invalid time value" Samples.bothDown _).
    reflexivity.
Defined.

(** With both APIs failing, [find_best_assignee] finds no team member:
    the failed fetch reaches the tool as an empty list of events. *)
Example find_best_assignee_upstream_down :
  fst (Dispatch.callTool JsDate.isoParse unit Samples.noView Samples.failingCase
         Samples.failingCase Samples.failingCase Samples.failingCase Samples.noon10
         "find_best_assignee" tt Samples.bothDown)
  = {| Dispatch.content :=
         [Dispatch.TextBlock "No team members found in the current project."];
       Dispatch.isError := false |}.
Proof. vm_compute. reflexivity. Qed.

(* ===================================================================== *)
(** * More about event extraction *)
(* ===================================================================== *)

(** A list either has no element that satisfies [p], or it has a last
    one. *)
Lemma last_match {A} (p : A -> bool) (l : list A) :
  Forall (fun x => p x = false) l
  \/ exists pre x post,
       l = (pre ++ x :: post)%list /\ p x = true /\ Forall (fun y => p y = false) post.
Proof.
  induction l as [| a r IH]; [left; constructor |].
  destruct IH as [Hnone | (pre & x & post & -> & Hx & Hpost)].
  - destruct (p a) eqn:Ha.
    + right. exists [], a, r. now repeat split.
    + left. now constructor.
  - right. exists (a :: pre), x, post. now repeat split.
Qed.

Section ExtractorMore.
Variable parseDate : string -> JsDate.Date.

Local Abbreviation scanField := (Extractor.scanField parseDate).
Local Abbreviation scanFields := (Extractor.scanFields parseDate).
Local Abbreviation transformItem := (Extractor.transformItem parseDate).

Lemma scan_keeps_status post : forall s,
  Forall (fun x => Fields.suppliesStatus x = false) post ->
  Extractor.slot_status (fold_left scanField post s) = Extractor.slot_status s.
Proof.
  induction post as [| fv post IH]; intros s Hall; [reflexivity |].
  inversion Hall as [| ? ? Hfv Hpost]; subst. cbn [fold_left].
  rewrite IH by assumption. unfold Extractor.scanField.
  unfold Fields.suppliesStatus in Hfv.
  destruct (Extractor.isStartField fv); [reflexivity |].
  destruct (Extractor.isEndField fv); [reflexivity |].
  cbn in Hfv. now rewrite Hfv.
Qed.

Lemma scan_sets_status s fv :
  Fields.suppliesStatus fv = true ->
  Extractor.slot_status (scanField s fv) = fv_name fv.
Proof.
  unfold Fields.suppliesStatus, Extractor.scanField. intros H.
  apply andb_true_iff in H as [H Hst]. apply andb_true_iff in H as [Hs He].
  apply negb_true_iff in Hs, He. now rewrite Hs, He, Hst.
Qed.

Lemma slot_end_cases fields :
  (Forall (fun x => Extractor.suppliesEnd x = false) fields
   /\ Extractor.slot_end (scanFields fields) = None)
  \/ exists d, Extractor.slot_end (scanFields fields) = Some d.
Proof.
  destruct (last_match Extractor.suppliesEnd fields)
    as [Hnone | (pre & fv & post & -> & Hfv & Hpost)].
  - left. split; [assumption | now apply scan_no_end].
  - right. eexists. rewrite scanFields_app. cbn [fold_left].
    rewrite scan_keeps_end by assumption. now apply scan_sets_end.
Qed.

Lemma slot_start_cases fields :
  (Forall (fun x => Extractor.suppliesStart x = false) fields
   /\ Extractor.slot_start (scanFields fields) = None)
  \/ exists d, Extractor.slot_start (scanFields fields) = Some d.
Proof.
  destruct (last_match Extractor.suppliesStart fields)
    as [Hnone | (pre & fv & post & -> & Hfv & Hpost)].
  - left. split; [assumption | now apply scan_no_start].
  - right. eexists. rewrite scanFields_app. cbn [fold_left].
    rewrite scan_keeps_start by assumption. now apply scan_sets_start.
Qed.

(** X1: the end date of an event.  When no field value supplies it and
    the body has no end marker, it is the due date of the milestone, and
    [null] without one; and it is [null] in no other case: an event has
    no end date exactly when no field value, no body marker and no
    milestone gives one. *)
Theorem end_date_is_null_only_without_any_source (item : ProjectItem) :
  (Forall (fun x => Extractor.suppliesEnd x = false) (fieldValues item) ->
   BodyPattern.endDateMatch (JsString.orEmpty (body (content item))) = None ->
   endDate (transformItem item)
   = option_map parseDate (Extractor.milestoneDue (content item)))
  /\ (endDate (transformItem item) = None
      <-> Forall (fun x => Extractor.suppliesEnd x = false) (fieldValues item)
          /\ BodyPattern.endDateMatch (JsString.orEmpty (body (content item))) = None
          /\ Extractor.milestoneDue (content item) = None).
Proof.
  assert (Hchain :
    Forall (fun x => Extractor.suppliesEnd x = false) (fieldValues item) ->
    endDate (transformItem item)
    = Extractor.orElse
        (option_map parseDate
           (BodyPattern.endDateMatch (JsString.orEmpty (body (content item)))))
        (option_map parseDate (Extractor.milestoneDue (content item)))).
  { intros Hend. pose proof (scan_no_end parseDate _ Hend) as He.
    cbn. unfold Extractor.bodyEnd. rewrite He. cbn [Extractor.isNull].
    rewrite orb_true_r. reflexivity. }
  split.
  - intros Hend Hm. rewrite (Hchain Hend), Hm. reflexivity.
  - split.
    + intros Hnull.
      destruct (slot_end_cases (fieldValues item)) as [[Hend _] | (d & Hd)].
      * rewrite (Hchain Hend) in Hnull.
        destruct (BodyPattern.endDateMatch _); [discriminate |].
        destruct (Extractor.milestoneDue _); [discriminate |]. now repeat split.
      * rewrite (end_from_scan parseDate item d Hd) in Hnull. discriminate.
    + intros (Hend & Hm & Hdue). rewrite (Hchain Hend), Hm, Hdue. reflexivity.
Qed.

(** X2: the project status of an event is the select name of the last
    field value that reaches the status branch, and is undefined when
    none does.  A field value that carries a date under a name with
    "start", "end" or "due" never sets it, whatever else its name
    contains; the body, the creation date and the milestone play no
    part. *)
Theorem project_status_is_last_status_field (item : ProjectItem) :
  (Forall (fun x => Fields.suppliesStatus x = false) (fieldValues item) ->
   projectStatus (transformItem item) = None)
  /\ (forall pre fv post,
        fieldValues item = (pre ++ fv :: post)%list ->
        Fields.suppliesStatus fv = true ->
        Forall (fun x => Fields.suppliesStatus x = false) post ->
        projectStatus (transformItem item) = fv_name fv
        /\ JsString.truthy (fv_name fv) = true)
  /\ (forall fv,
        Extractor.isStartField fv = true \/ Extractor.isEndField fv = true ->
        Fields.suppliesStatus fv = false).
Proof.
  repeat split.
  - intros Hnone. cbn. unfold Extractor.scanFields. now rewrite scan_keeps_status.
  - cbn. rewrite H, scanFields_app. cbn [fold_left].
    rewrite scan_keeps_status by assumption. now apply scan_sets_status.
  - unfold Fields.suppliesStatus, Extractor.isStatusField in H0.
    apply andb_true_iff in H0 as [_ H0]. now apply andb_true_iff in H0 as [_ H0].
  - intros fv [H | H]; unfold Fields.suppliesStatus; rewrite H; cbn;
      [reflexivity | now rewrite andb_false_r].
Qed.

(** X3: when the field values supply both dates, the body of the issue
    is not consulted: the same item with any other body gives the same
    event. *)
Theorem body_ignored_when_fields_give_both_dates (item : ProjectItem)
    (text : option string) :
  Exists (fun x => Extractor.suppliesStart x = true) (fieldValues item) ->
  Exists (fun x => Extractor.suppliesEnd x = true) (fieldValues item) ->
  transformItem (Fields.itemWithBody text item) = transformItem item.
Proof.
  intros Hs He.
  assert (Hstart : exists d, Extractor.slot_start (scanFields (fieldValues item)) = Some d).
  { destruct (slot_start_cases (fieldValues item)) as [[Hnone _] | H]; [| exact H].
    exfalso. apply List.Exists_exists in Hs as (x & Hin & Hx).
    rewrite List.Forall_forall in Hnone. rewrite (Hnone x Hin) in Hx. discriminate. }
  assert (Hend : exists d, Extractor.slot_end (scanFields (fieldValues item)) = Some d).
  { destruct (slot_end_cases (fieldValues item)) as [[Hnone _] | H]; [| exact H].
    exfalso. apply List.Exists_exists in He as (x & Hin & Hx).
    rewrite List.Forall_forall in Hnone. rewrite (Hnone x Hin) in Hx. discriminate. }
  destruct Hstart as (ds & Hds). destruct Hend as (de & Hde).
  unfold Extractor.transformItem. cbn [Fields.itemWithBody content fieldValues].
  unfold Extractor.bodyStart, Extractor.bodyEnd, Extractor.milestoneDue.
  rewrite Hds, Hde. reflexivity.
Qed.

End ExtractorMore.

Lemma end_date_witness :
  endDate (Extractor.transformItem JsDate.isoParse Fields.milestoneItem)
  = Some (JsDate.Instant 1759190400000)
  /\ endDate (Extractor.transformItem JsDate.isoParse Samples.bareItem) = None.
Proof.
  split.
  - refine (proj1 (end_date_is_null_only_without_any_source JsDate.isoParse
                     Fields.milestoneItem) _ _).
    + constructor.
    + reflexivity.
  - refine (proj2 (proj2 (end_date_is_null_only_without_any_source JsDate.isoParse
                            Samples.bareItem)) _).
    repeat split. constructor.
Defined.

Lemma project_status_witness :
  projectStatus (Extractor.transformItem JsDate.isoParse Fields.statusItem)
  = Some "In review"
  /\ Fields.suppliesStatus Fields.startStatus = false.
Proof.
  pose proof (project_status_is_last_status_field JsDate.isoParse Fields.statusItem)
    as (_ & Hlast & Hdates).
  split.
  - refine (proj1 (Hlast [Fields.statusField "Status" "Todo"; Fields.startStatus]
                     (Fields.statusField "Progress" "In review")
                     [Samples.dateField "Due" "2025-09-30"] _ _ _)).
    + reflexivity.
    + reflexivity.
    + repeat constructor.
  - apply Hdates. left. reflexivity.
Defined.

Lemma body_ignored_witness :
  Extractor.transformItem JsDate.isoParse
    (Fields.itemWithBody (Some "**Start Date:** x (2031-01-01)")
       (Samples.item 22 "" [ Samples.dateField "Start" "2025-09-01";
                             Samples.dateField "End" "2025-09-02" ]))
  = Extractor.transformItem JsDate.isoParse
      (Samples.item 22 "" [ Samples.dateField "Start" "2025-09-01";
                            Samples.dateField "End" "2025-09-02" ]).
Proof.
  apply body_ignored_when_fields_give_both_dates.
  - apply List.Exists_cons_hd. reflexivity.
  - apply List.Exists_cons_tl, List.Exists_cons_hd. reflexivity.
Defined.

(* ===================================================================== *)
(** * More about the body markers *)
(* ===================================================================== *)

Lemma upToParen_shape s : forall g,
  BodyPattern.upToParen s = Some g ->
  (exists post, s = g +:+ String ")" post) /\ JsString.includes g ")" = false.
Proof.
  induction s as [| c r IH]; intros g H; [discriminate |].
  cbn [BodyPattern.upToParen] in H. destruct (Ascii.eqb_spec c ")") as [-> | Hc].
  - injection H as <-. split; [now exists r | reflexivity].
  - destruct (BodyPattern.upToParen r) as [g' |]; [| discriminate].
    injection H as <-. destruct (IH g' eq_refl) as [(post & ->) Hno]. split.
    + now exists post.
    + cbn [JsString.includes JsString.startsWith]. rewrite Hno.
      destruct (Ascii.eqb_spec ")" c) as [<- | _]; [contradiction | reflexivity].
Qed.

Lemma lazyGroup_shape s : forall g,
  BodyPattern.lazyGroup s = Some g ->
  exists mid post,
    s = mid +:+ String "(" (g +:+ String ")" post)
    /\ Text.oneLine mid = true /\ g <> "" /\ JsString.includes g ")" = false.
Proof.
  induction s as [| c r IH]; intros g H; [discriminate |].
  cbn [BodyPattern.lazyGroup] in H. cbv zeta in H.
  assert (Hfurther :
    (if BodyPattern.isLineTerminator c then None else BodyPattern.lazyGroup r) = Some g ->
    exists mid post,
      String c r = mid +:+ String "(" (g +:+ String ")" post)
      /\ Text.oneLine mid = true /\ g <> "" /\ JsString.includes g ")" = false).
  { intros Hf. destruct (BodyPattern.isLineTerminator c) eqn:Hlt; [discriminate |].
    destruct (IH g Hf) as (mid & post & -> & Hmid & Hg & Hno).
    exists (String c mid), post.
    split; [reflexivity |]. split; [| now split].
    unfold Text.oneLine in *. cbn [Text.all]. now rewrite Hlt, Hmid. }
  destruct (Ascii.eqb_spec c "(") as [-> | Hc]; [| now apply Hfurther].
  destruct (BodyPattern.group r) as [g' |] eqn:Hgroup; [| now apply Hfurther].
  injection H as <-. unfold BodyPattern.group in Hgroup.
  destruct (BodyPattern.upToParen r) as [u |] eqn:Hu; [| discriminate].
  destruct (upToParen_shape r u Hu) as [(post & ->) Hno].
  exists "", post. destruct u as [| a u']; cbn in Hgroup; [discriminate Hgroup |].
  injection Hgroup as <-.
  split; [reflexivity |]. split; [reflexivity |]. split; [discriminate | exact Hno].
Qed.

Lemma startsWith_split s : forall p,
  JsString.startsWith s p = true -> s = p +:+ JsString.drop (String.length p) s.
Proof.
  induction s as [| c r IH]; intros [| a p] H; try reflexivity; try discriminate.
  cbn [JsString.startsWith] in H. apply andb_true_iff in H as [Hc Hr].
  apply Ascii.eqb_eq in Hc. subst a.
  cbn [String.length JsString.drop]. change (String c p +:+ ?x) with (String c (p +:+ x)).
  f_equal. now apply IH.
Qed.

(** X4: what the body pattern captures.  The captured text is not
    empty, contains no closing parenthesis, and stands in the body
    between a pair of parentheses that follows the marker on the same
    line. *)
Theorem captured_date_text_is_parenthesised_after_marker (marker s g : string) :
  BodyPattern.matchMarker marker s = Some g ->
  exists pre mid post,
    s = pre +:+ marker +:+ mid +:+ String "(" (g +:+ String ")" post)
    /\ Text.oneLine mid = true
    /\ g <> ""
    /\ JsString.includes g ")" = false.
Proof.
  revert g. induction s as [| c r IH]; intros g H.
  - cbn [BodyPattern.matchMarker] in H. cbv zeta in H.
    destruct (JsString.startsWith "" marker) eqn:Hsw.
    + destruct (BodyPattern.lazyGroup _) eqn:Hl in H; [| discriminate].
      injection H as ->. apply lazyGroup_shape in Hl as (mid & post & Heq & Hrest).
      exists "", mid, post. split; [| exact Hrest].
      rewrite <- Heq. now apply startsWith_split.
    + discriminate.
  - cbn [BodyPattern.matchMarker] in H. cbv zeta in H.
    assert (Hlater : BodyPattern.matchMarker marker r = Some g ->
      exists pre mid post,
        String c r = pre +:+ marker +:+ mid +:+ String "(" (g +:+ String ")" post)
        /\ Text.oneLine mid = true /\ g <> "" /\ JsString.includes g ")" = false).
    { intros Hr. destruct (IH g Hr) as (pre & mid & post & -> & Hrest).
      exists (String c pre), mid, post. split; [reflexivity | exact Hrest]. }
    destruct (JsString.startsWith (String c r) marker) eqn:Hsw; [| now apply Hlater].
    destruct (BodyPattern.lazyGroup _) as [g' |] eqn:Hl in H; [| now apply Hlater].
    injection H as ->. apply lazyGroup_shape in Hl as (mid & post & Heq & Hrest).
    exists "", mid, post. split; [| exact Hrest].
    rewrite <- Heq. now apply startsWith_split.
Qed.

Lemma captured_date_text_witness :
  exists pre mid post,
    Samples.markedBody
    = pre +:+ "**End Date:**" +:+ mid +:+ String "(" ("2025-09-10" +:+ String ")" post)
    /\ Text.oneLine mid = true.
Proof.
  destruct (captured_date_text_is_parenthesised_after_marker "**End Date:**"
              Samples.markedBody "2025-09-10" eq_refl)
    as (pre & mid & post & Heq & Hline & _).
  now exists pre, mid, post.
Defined.

(* ===================================================================== *)
(** * More about fetching *)
(* ===================================================================== *)

Section FetchMore.
Variable parseDate : string -> JsDate.Date.

Lemma convertNode_kept since node :
  Fetch.keepNode parseDate since node = true ->
  Forall (fun it => FetchLog.hasRequiredLabel (content it) = true
                    /\ JsDate.ge (parseDate (created_at (content it))) since = true)
         (Fetch.convertNode node).
Proof.
  unfold Fetch.keepNode, Fetch.convertNode. intros H.
  destruct (Fetch.g_content node) as [c |]; [| discriminate].
  destruct (negb (String.eqb (Fetch.g_type node) "ISSUE")); [discriminate |].
  constructor; [| constructor]. unfold FetchLog.hasRequiredLabel. cbn.
  destruct (Fetch.g_labels c) as [nodes |]; [| discriminate].
  destruct (existsb _ nodes); [| discriminate]. now split.
Qed.

Lemma graphqlLoop_filter (P : ProjectItem -> Prop) org projectNumber since :
  (forall node, Fetch.keepNode parseDate since node = true ->
                Forall P (Fetch.convertNode node)) ->
  forall script cursor allItems log items script' log',
  Forall P allItems ->
  Fetch.graphqlLoop parseDate org projectNumber since script cursor allItems log
  = (Returned items, script', log') ->
  Forall P items.
Proof.
  intros Hkeep. induction script as [| resp rest IH];
    intros cursor allItems log items script' log' Hall H.
  - discriminate.
  - cbn [Fetch.graphqlLoop] in H. destruct resp as [m | | nodes hasNext endCursor];
      [discriminate | discriminate |].
    assert (Hall1 : Forall P
      (allItems ++ List.concat
         (List.map Fetch.convertNode (List.filter (Fetch.keepNode parseDate since) nodes)))%list).
    { apply Forall_app. split; [assumption |].
      apply List.Forall_concat, List.Forall_map, List.Forall_forall.
      intros node Hin. apply filter_In in Hin as [_ Hk]. now apply Hkeep. }
    destruct hasNext.
    + exact (IH _ _ _ _ _ _ Hall1 H).
    + injection H as <- <- <-. exact Hall1.
Qed.

Lemma graphql_returned_items org projectNumber since w w' items :
  Fetch.fetchProjectItemsGraphQL parseDate org projectNumber since w = (Returned items, w') ->
  Forall (fun it => FetchLog.hasRequiredLabel (content it) = true
                    /\ JsDate.ge (parseDate (created_at (content it))) since = true) items
  /\ Fetch.searchRequests (Fetch.effects w') = Fetch.searchRequests (Fetch.effects w).
Proof.
  intros H. unfold Fetch.fetchProjectItemsGraphQL in H.
  destruct (Fetch.graphqlLoop _ _ _ _ _ _ _ _) as [[r script] log] eqn:E in H.
  injection H as -> <-. split.
  - exact (graphqlLoop_filter _ org projectNumber since (convertNode_kept since)
             _ _ _ _ _ _ _ (List.Forall_nil _) E).
  - cbn [Fetch.effects]. now apply graphqlLoop_effects in E.
Qed.

Lemma nothing_is_after_an_invalid_date (P : ProjectItem -> JsDate.Date) items :
  Forall (fun it => FetchLog.hasRequiredLabel (content it) = true
                    /\ JsDate.ge (P it) JsDate.InvalidDate = true) items ->
  items = [].
Proof.
  intros Hall. destruct items as [| it rest]; [reflexivity |].
  inversion Hall as [| ? ? [_ Hge] _]; subst.
  unfold JsDate.ge, JsDate.le in Hge. discriminate.
Qed.

(** X5: every item that the GraphQL path returns is an issue that
    carries the required label and was created at or after the cutoff.
    The comparison with an invalid cutoff is false, so with an invalid
    cutoff the path returns no item at all. *)
Theorem graphql_items_have_label_and_are_recent (org : string) (projectNumber : Z)
    (since : JsDate.Date) (w w' : Fetch.World) (items : list ProjectItem) :
  Fetch.fetchProjectItemsGraphQL parseDate org projectNumber since w = (Returned items, w') ->
  Forall (fun it => FetchLog.hasRequiredLabel (content it) = true
                    /\ JsDate.ge (parseDate (created_at (content it))) since = true) items
  /\ (since = JsDate.InvalidDate -> items = []).
Proof.
  intros H. destruct (graphql_returned_items _ _ _ _ _ _ H) as [Hall _].
  split; [exact Hall |]. intros ->.
  exact (nothing_is_after_an_invalid_date _ items Hall).
Qed.

(** ** The search items carry no field values *)

Lemma searchLoop_invariant (P : ProjectItem -> Prop) org :
  (forall issue, P (Fetch.convertRest issue)) ->
  forall script page allItems log items script' log',
  Forall P allItems ->
  Fetch.searchLoop org script page allItems log = (items, script', log') ->
  Forall P items.
Proof.
  intros Hconv. induction script as [| resp rest IH];
    intros page allItems log items script' log' Hall H.
  - cbn in H. now injection H as <- <- <-.
  - cbn [Fetch.searchLoop] in H. destruct resp as [m | found].
    + now injection H as <- <- <-.
    + destruct (Z.of_nat (List.length found) =? 0); [now injection H as <- <- <- |].
      assert (Hall1 : Forall P (allItems ++ List.map Fetch.convertRest found)%list).
      { apply Forall_app. split; [assumption |]. apply List.Forall_map, List.Forall_forall.
        intros issue _. apply Hconv. }
      destruct (Z.of_nat (List.length found) =? Fetch.perPage).
      * exact (IH _ _ _ _ _ _ Hall1 H).
      * now injection H as <- <- <-.
Qed.

Lemma fetchIssuesByLabel_items (P : ProjectItem -> Prop) org since w :
  (forall issue, P (Fetch.convertRest issue)) ->
  exists items w',
    Fetch.fetchIssuesByLabel org since w = (Returned items, w') /\ Forall P items.
Proof.
  intros Hconv. unfold Fetch.fetchIssuesByLabel. destruct since as [t |].
  - destruct (Fetch.searchLoop org (Fetch.search w) 1 [] (Fetch.effects w))
      as [[items script] log] eqn:E.
    eexists _, _. split; [reflexivity |].
    exact (searchLoop_invariant P org Hconv _ _ _ _ _ _ _ (List.Forall_nil _) E).
  - eexists _, _. split; [reflexivity | constructor].
Qed.

(** The fetch always returns. *)
Lemma fetchProjectItems_returns org projectNumber sinceDate w :
  exists items w',
    Fetch.fetchProjectItems parseDate org projectNumber sinceDate w = (Returned items, w').
Proof.
  unfold Fetch.fetchProjectItems. cbv zeta.
  destruct (Fetch.fetchProjectItemsGraphQL _ _ _ _ _) as [[items | m] w2].
  - now exists items, w2.
  - destruct (fetchIssuesByLabel_items (fun _ => True) org
                (Fetch.sinceOrDefault parseDate sinceDate)
                (Fetch.emit (Fetch.Console Fetch.fallbackLine) w2) (fun _ => I))
      as (items & w3 & -> & _).
    now exists items, w3.
Qed.

Lemma getCalendarEvents_returns org projectNumber sinceDate w :
  exists items w',
    Fetch.fetchProjectItems parseDate org projectNumber sinceDate w = (Returned items, w')
    /\ Fetch.getCalendarEvents parseDate org projectNumber sinceDate w
       = (Returned (List.map (Extractor.transformItem parseDate) items), w').
Proof.
  destruct (fetchProjectItems_returns org projectNumber sinceDate w) as (items & w' & H).
  exists items, w'. split; [exact H |].
  unfold Fetch.getCalendarEvents. rewrite H. now rewrite events_are_images.
Qed.

(** X6: what a fallback costs.  When the GraphQL path throws, every
    item comes from the search and has no field values, so no event has
    a project status, and the start date of every event is read from the
    body marker or, without one, is the creation date. *)
Theorem fallback_events_have_no_project_fields (org : string) (projectNumber : Z)
    (sinceDate : option JsDate.Date) (w w1 : Fetch.World) (m : string) :
  Fetch.fetchProjectItemsGraphQL parseDate org projectNumber
    (Fetch.sinceOrDefault parseDate sinceDate)
    (Fetch.emit (Fetch.Console "Attempting to use GraphQL API for Projects v2...") w)
  = (Thrown m, w1) ->
  exists items w2,
    Fetch.getCalendarEvents parseDate org projectNumber sinceDate w
    = (Returned (List.map (Extractor.transformItem parseDate) items), w2)
    /\ Forall (fun it => fieldValues it = []) items
    /\ Forall (fun it =>
         projectStatus (Extractor.transformItem parseDate it) = None
         /\ startDate (Extractor.transformItem parseDate it)
            = Some (parseDate
                (match BodyPattern.startDateMatch (JsString.orEmpty (body (content it))) with
                 | Some found => found
                 | None => created_at (content it)
                 end))) items.
Proof.
  intros Hgql.
  destruct (fetchIssuesByLabel_items (fun it => fieldValues it = []) org
              (Fetch.sinceOrDefault parseDate sinceDate)
              (Fetch.emit (Fetch.Console Fetch.fallbackLine) w1) (fun _ => eq_refl))
    as (items & w2 & Hsearch & Hnone).
  assert (Hfetch : Fetch.fetchProjectItems parseDate org projectNumber sinceDate w
                   = (Returned items, w2)).
  { unfold Fetch.fetchProjectItems. cbv zeta. now rewrite Hgql. }
  exists items, w2. split; [| split; [exact Hnone |]].
  - unfold Fetch.getCalendarEvents. rewrite Hfetch. now rewrite events_are_images.
  - apply List.Forall_forall. intros it Hin.
    rewrite List.Forall_forall in Hnone. specialize (Hnone it Hin).
    unfold Extractor.transformItem. rewrite Hnone. cbn.
    destruct (BodyPattern.startDateMatch _); now split.
Qed.

Lemma invalid_cutoff_fetch (org : string) (projectNumber : Z) (w : Fetch.World) :
  exists w',
    Fetch.fetchProjectItems parseDate org projectNumber (Some JsDate.InvalidDate) w
    = (Returned [], w')
    /\ Fetch.searchRequests (Fetch.effects w') = Fetch.searchRequests (Fetch.effects w).
Proof.
  unfold Fetch.fetchProjectItems. cbv zeta. cbn [Fetch.sinceOrDefault].
  destruct (Fetch.fetchProjectItemsGraphQL _ _ _ _ _) as [[items | m] w2] eqn:E.
  - destruct (graphql_returned_items _ _ _ _ _ _ E) as [Hall Hlog].
    apply nothing_is_after_an_invalid_date in Hall. subst items.
    exists w2. split; [reflexivity |]. rewrite Hlog.
    unfold Fetch.emit. cbn [Fetch.effects]. rewrite searchRequests_snoc. lia.
  - eexists. split; [reflexivity |].
    unfold Fetch.fetchProjectItemsGraphQL in E.
    destruct (Fetch.graphqlLoop _ _ _ _ _ _ _ _) as [[r script] log] eqn:E2 in E.
    injection E as -> <-. apply graphqlLoop_effects in E2 as [_ E2].
    unfold Fetch.emit in *. cbn [Fetch.effects] in *.
    rewrite !searchRequests_snoc in *. lia.
Qed.

(** X7: an invalid cutoff date gives no items, silently: the GraphQL
    path filters every issue out, and the search path fails before it
    sends a request.  The fetch returns the empty list either way. *)
Theorem invalid_cutoff_gives_no_items (org : string) (projectNumber : Z) (w : Fetch.World) :
  exists w',
    Fetch.fetchProjectItems parseDate org projectNumber (Some JsDate.InvalidDate) w
    = (Returned [], w')
    /\ Fetch.searchRequests (Fetch.effects w') = Fetch.searchRequests (Fetch.effects w).
Proof. apply invalid_cutoff_fetch. Qed.

(** ** Paging *)

Lemma searchPages_snoc log e :
  FetchLog.searchPages (log ++ [e])%list
  = (FetchLog.searchPages log
     ++ match e with Fetch.SearchRequest _ page => [page] | _ => [] end)%list.
Proof.
  unfold FetchLog.searchPages. rewrite List.flat_map_app. cbn.
  now rewrite List.app_nil_r.
Qed.

Lemma graphqlCursors_snoc log e :
  FetchLog.graphqlCursors (log ++ [e])%list
  = (FetchLog.graphqlCursors log
     ++ match e with Fetch.GraphqlRequest _ _ cursor => [cursor] | _ => [] end)%list.
Proof.
  unfold FetchLog.graphqlCursors. rewrite List.flat_map_app. cbn.
  now rewrite List.app_nil_r.
Qed.

Lemma searchLoop_pages org script :
  forall page allItems log items script' log',
  Fetch.searchLoop org script page allItems log = (items, script', log') ->
  exists n,
    (1 <= n)%nat
    /\ FetchLog.searchPages log'
       = (FetchLog.searchPages log
          ++ List.map (fun k => page + Z.of_nat k) (seq 0 n))%list
    /\ Fetch.searchRequests log' = (Fetch.searchRequests log + n)%nat
    /\ (List.length allItems + 100 * (n - 1) <= List.length items)%nat.
Proof.
  induction script as [| resp rest IH]; intros page allItems log items script' log' H.
  - cbn in H. injection H as <- <- <-. exists 1%nat.
    rewrite !searchPages_snoc, !searchRequests_snoc. cbn.
    rewrite List.app_nil_r, Z.add_0_r. repeat split; lia.
  - cbn [Fetch.searchLoop] in H. destruct resp as [m | found].
    + injection H as <- <- <-. exists 1%nat.
      rewrite !searchPages_snoc, !searchRequests_snoc. cbn.
      rewrite List.app_nil_r, Z.add_0_r. repeat split; lia.
    + destruct (Z.eqb_spec (Z.of_nat (List.length found)) 0) as [Hzero | Hsome].
      * injection H as <- <- <-. exists 1%nat.
        rewrite searchPages_snoc, searchRequests_snoc. cbn. rewrite Z.add_0_r.
        repeat split; lia.
      * destruct (Z.eqb_spec (Z.of_nat (List.length found)) Fetch.perPage) as [Hfull | Hshort].
        -- apply IH in H as (n & Hn & Hpages & Hreq & Hlow).
           unfold Fetch.perPage in Hfull.
           rewrite List.length_app, List.length_map in Hlow.
           exists (S n). rewrite Hpages, Hreq, searchPages_snoc, searchRequests_snoc.
           cbn [seq List.map].
           rewrite <- List.app_assoc. cbn [app]. rewrite Z.add_0_r.
           rewrite <- List.seq_shift, List.map_map.
           repeat split; try lia.
           do 2 f_equal. apply List.map_ext. intros k. lia.
        -- injection H as <- <- <-. exists 1%nat.
           rewrite searchPages_snoc, searchRequests_snoc. cbn. rewrite Z.add_0_r.
           rewrite List.length_app, List.length_map. repeat split; lia.
Qed.

(** X8: the paging of the label search.  With a valid cutoff the search
    sends at least one request; the requests ask for the pages 1, 2, 3,
    ... in this order, each once; and every page before the last one
    requested held 100 issues, so [n] requests return at least
    [100 * (n - 1)] items. *)
Theorem search_requests_pages_in_order (org : string) (t : Z) (w : Fetch.World) :
  exists n items w',
    Fetch.fetchIssuesByLabel org (JsDate.Instant t) w = (Returned items, w')
    /\ (1 <= n)%nat
    /\ FetchLog.searchPages (Fetch.effects w')
       = (FetchLog.searchPages (Fetch.effects w) ++ List.map Z.of_nat (seq 1 n))%list
    /\ Fetch.searchRequests (Fetch.effects w')
       = (Fetch.searchRequests (Fetch.effects w) + n)%nat
    /\ (100 * (n - 1) <= List.length items)%nat.
Proof.
  unfold Fetch.fetchIssuesByLabel.
  destruct (Fetch.searchLoop org (Fetch.search w) 1 [] (Fetch.effects w))
    as [[items script] log] eqn:E.
  apply searchLoop_pages in E as (n & Hn & Hpages & Hreq & Hlow).
  eexists n, items, _. split; [reflexivity |]. cbn [Fetch.effects List.length] in *.
  repeat split; try assumption; try lia.
  rewrite Hpages. f_equal. rewrite <- List.seq_shift, List.map_map.
  apply List.map_ext. intros k. lia.
Qed.

Lemma graphqlLoop_cursors org projectNumber since script :
  forall cursor allItems log r script' log',
  Fetch.graphqlLoop parseDate org projectNumber since script cursor allItems log
  = (r, script', log') ->
  exists consumed,
    script = (consumed ++ script')%list
    /\ FetchLog.graphqlCursors log'
       = (FetchLog.graphqlCursors log ++ cursor :: FetchLog.nextCursors consumed)%list
    /\ (forall pre resp post,
          consumed = (pre ++ resp :: post)%list -> post <> [] ->
          exists nodes endCursor, resp = Fetch.GqlPage nodes true endCursor).
Proof.
  induction script as [| resp rest IH]; intros cursor allItems log r script' log' H.
  - cbn in H. injection H as <- <- <-. exists []. rewrite graphqlCursors_snoc.
    repeat split. intros [| ? ?] ? ? Hc; discriminate Hc.
  - assert (Hone : forall pre x post, [resp] = (pre ++ x :: post)%list -> post <> [] -> False).
    { intros [| a [| b pre]] x post Hc Hp; cbn in Hc; try discriminate Hc.
      injection Hc as _ <-. now apply Hp. }
    cbn [Fetch.graphqlLoop] in H. destruct resp as [m | | nodes hasNext endCursor].
    + injection H as <- <- <-. exists [Fetch.GqlFailure m]. rewrite graphqlCursors_snoc.
      repeat split. intros pre x post Hc Hp. destruct (Hone pre x post Hc Hp).
    + injection H as <- <- <-. exists [Fetch.GqlNoProject]. rewrite graphqlCursors_snoc.
      repeat split. intros pre x post Hc Hp. destruct (Hone pre x post Hc Hp).
    + destruct hasNext.
      * apply IH in H as (consumed & -> & Hcur & Hfull).
        exists (Fetch.GqlPage nodes true endCursor :: consumed).
        rewrite Hcur, graphqlCursors_snoc, <- List.app_assoc. repeat split.
        intros [| a pre] x post Hc Hp; cbn in Hc; injection Hc as <- Hc.
        -- now exists nodes, endCursor.
        -- exact (Hfull pre x post Hc Hp).
      * injection H as <- <- <-. exists [Fetch.GqlPage nodes false endCursor].
        rewrite !graphqlCursors_snoc. cbn. rewrite List.app_nil_r.
        repeat split. intros pre x post Hc Hp. destruct (Hone pre x post Hc Hp).
Qed.

(** X9: the paging of the GraphQL path.  The first request carries no
    cursor and every later request carries the end cursor of the page
    before it; the path stops at the first response that is a failure or
    a page without a next page, so every response but the last one used
    is a page that announces a next page. *)
Theorem graphql_requests_follow_the_cursors (org : string) (projectNumber : Z)
    (since : JsDate.Date) (w : Fetch.World) :
  exists consumed,
    Fetch.graphql w
    = (consumed
       ++ Fetch.graphql (snd (Fetch.fetchProjectItemsGraphQL parseDate org projectNumber
                                since w)))%list
    /\ FetchLog.graphqlCursors
         (Fetch.effects (snd (Fetch.fetchProjectItemsGraphQL parseDate org projectNumber
                                since w)))
       = (FetchLog.graphqlCursors (Fetch.effects w)
          ++ None :: FetchLog.nextCursors consumed)%list
    /\ (forall pre resp post,
          consumed = (pre ++ resp :: post)%list -> post <> [] ->
          exists nodes endCursor, resp = Fetch.GqlPage nodes true endCursor).
Proof.
  unfold Fetch.fetchProjectItemsGraphQL.
  destruct (Fetch.graphqlLoop _ _ _ _ _ _ _ _) as [[r script] log] eqn:E.
  apply graphqlLoop_cursors in E as (consumed & Hs & Hc & Hfull).
  exists consumed. cbn [snd Fetch.graphql Fetch.effects]. now repeat split.
Qed.

End FetchMore.

Lemma graphql_items_witness :
  exists items w',
    Fetch.fetchProjectItemsGraphQL JsDate.isoParse Fetch.DEFAULT_ORG
      Fetch.DEFAULT_PROJECT_NUMBER (JsDate.isoParse "2025-08-01") FetchLog.twoPages
    = (Returned items, w')
    /\ List.map (fun it => number (content it)) items = [1; 4]
    /\ Forall (fun it => FetchLog.hasRequiredLabel (content it) = true
                         /\ JsDate.ge (JsDate.isoParse (created_at (content it)))
                              (JsDate.isoParse "2025-08-01") = true) items.
Proof.
  eexists _, _. split; [vm_compute; reflexivity |]. split; [reflexivity |].
  refine (proj1 (graphql_items_have_label_and_are_recent JsDate.isoParse Fetch.DEFAULT_ORG
            Fetch.DEFAULT_PROJECT_NUMBER (JsDate.isoParse "2025-08-01") FetchLog.twoPages
            _ _ _)).
  vm_compute. reflexivity.
Defined.

Lemma fallback_events_witness :
  exists items w2,
    Fetch.getCalendarEvents JsDate.isoParse Fetch.DEFAULT_ORG Fetch.DEFAULT_PROJECT_NUMBER
      None Samples.searchBreaks
    = (Returned (List.map (Extractor.transformItem JsDate.isoParse) items), w2)
    /\ Forall (fun it => fieldValues it = []) items.
Proof.
  destruct (fallback_events_have_no_project_fields JsDate.isoParse Fetch.DEFAULT_ORG
              Fetch.DEFAULT_PROJECT_NUMBER None Samples.searchBreaks _
              (Fetch.notFoundMessage Fetch.DEFAULT_ORG Fetch.DEFAULT_PROJECT_NUMBER)
              eq_refl)
    as (items & w2 & Hev & Hnone & _).
  exists items, w2. split; [exact Hev | exact Hnone].
Defined.

Example graphql_cursors_sample :
  FetchLog.graphqlCursors
    (Fetch.effects (snd (Fetch.fetchProjectItemsGraphQL JsDate.isoParse Fetch.DEFAULT_ORG
                           Fetch.DEFAULT_PROJECT_NUMBER (JsDate.isoParse "2025-08-01")
                           FetchLog.twoPages)))
  = [None; Some "cursor-1"].
Proof. vm_compute. reflexivity. Qed.

(* ===================================================================== *)
(** * More about the team workload *)
(* ===================================================================== *)

Section WorkloadMore.
Variable now : Z.

Lemma countVisits_bounds p l events :
  0 <= Workload.countVisits p l events <= Workload.countVisits (fun _ => true) l events.
Proof.
  unfold Workload.countVisits. split; [lia |]. apply inj_le.
  induction (Workload.visits events) as [| v r IH]; [cbn; lia |].
  cbn [List.filter]. destruct (String.eqb _ l); cbn [andb]; [| exact IH].
  destruct (p (fst v)); cbn [List.length]; lia.
Qed.

Lemma countVisits_positive l events :
  (exists v, In v (Workload.visits events) /\ Assignee.login (snd v) = l) ->
  1 <= Workload.countVisits (fun _ => true) l events.
Proof.
  intros (v & Hin & Hl). unfold Workload.countVisits.
  assert (Hf : In v (List.filter
    (fun v => String.eqb (Assignee.login (snd v)) l && true) (Workload.visits events))).
  { apply filter_In. split; [assumption |]. rewrite Hl, String.eqb_refl. reflexivity. }
  destruct (List.filter _ _); [contradiction | cbn [List.length]; lia].
Qed.

Lemma In_visits events ev a :
  In (ev, a) (Workload.visits events)
  <-> In ev events /\ Workload.isOpen ev = true /\ In a (ev_assignees ev).
Proof.
  unfold Workload.visits. rewrite in_flat_map. split.
  - intros (ev' & Hev & Hin). apply filter_In in Hev as [Hev Hopen].
    apply in_map_iff in Hin as (a' & [= <- <-] & Ha). now repeat split.
  - intros (Hev & Hopen & Ha). exists ev. split; [now apply filter_In |].
    apply in_map_iff. now exists a.
Qed.

(** X10: what the counters of an entry count.  For every entry of the
    ranking, [activeIssues] and [totalWorkload] are the number of
    assignments of its login on events that are not closed,
    [upcomingIssues] the number of those whose start date is after now,
    and [overdueIssues] the number of those whose end date is before
    now. *)
Theorem ranking_counters_count_open_assignments (events : list CalendarEvent)
    (e : Workload.Entry) :
  In e (Workload.analyzeTeamWorkload now events) ->
  Workload.activeIssues e = Workload.countVisits (fun _ => true) (Workload.login e) events
  /\ Workload.totalWorkload e = Workload.countVisits (fun _ => true) (Workload.login e) events
  /\ Workload.upcomingIssues e
     = Workload.countVisits (Workload.isUpcoming now) (Workload.login e) events
  /\ Workload.overdueIssues e
     = Workload.countVisits (Workload.isOverdue now) (Workload.login e) events.
Proof. apply ranking_counts. Qed.

Lemma ranking_logins_perm events :
  Permutation (List.map Workload.login (Workload.analyzeTeamWorkload now events))
              (List.map fst (Workload.collect now events)).
Proof.
  unfold Workload.analyzeTeamWorkload.
  rewrite (Permutation_map Workload.login (sort_perm _)).
  rewrite (Permutation_map Workload.login (values_perm _)).
  rewrite List.map_map.
  pose proof (entries_keyed now events) as Hk.
  induction Hk as [| [k e] r Hke Hr IH]; [reflexivity |].
  cbn [List.map fst snd] in *. rewrite Hke. now apply perm_skip.
Qed.

(** X11: who is in the ranking.  No login has two entries; and a login
    has an entry exactly when it is assigned to some event that is not
    closed and is not the name of an inherited property.  So an assignee
    who only appears on closed events has no entry. *)
Theorem ranking_has_one_entry_per_open_assignee (events : list CalendarEvent) :
  List.NoDup (List.map Workload.login (Workload.analyzeTeamWorkload now events))
  /\ (forall l,
        In l (List.map Workload.login (Workload.analyzeTeamWorkload now events))
        <-> JsObject.inherited l = false
            /\ exists ev a, In ev events /\ Workload.isOpen ev = true
                            /\ In a (ev_assignees ev) /\ Assignee.login a = l)
  /\ (forall l,
        (forall ev a, In ev events -> In a (ev_assignees ev) -> Assignee.login a = l ->
                      status ev = "closed") ->
        ~ In l (List.map Workload.login (Workload.analyzeTeamWorkload now events))).
Proof.
  assert (Hiff : forall l,
    In l (List.map Workload.login (Workload.analyzeTeamWorkload now events))
    <-> JsObject.inherited l = false
        /\ exists ev a, In ev events /\ Workload.isOpen ev = true
                        /\ In a (ev_assignees ev) /\ Assignee.login a = l).
  { intros l.
    assert (Hkeys : In l (List.map Workload.login (Workload.analyzeTeamWorkload now events))
                    <-> In l (List.map fst (Workload.collect now events))).
    { split; apply Permutation_in;
        [apply ranking_logins_perm | symmetry; apply ranking_logins_perm]. }
    rewrite Hkeys, <- existsb_eqb_In.
    assert (Hown : existsb (String.eqb l) (List.map fst (Workload.collect now events)) = true
                   <-> JsObject.getOwn l (Workload.collect now events) <> None).
    { rewrite getOwn_None_keys. now destruct (existsb _ _). }
    rewrite Hown, owns_entry_iff. split.
    - intros [Hinh ([ev a] & Hin & Hl)]. split; [assumption |].
      apply In_visits in Hin. exists ev, a. tauto.
    - intros [Hinh (ev & a & Hev & Hopen & Ha & Hl)]. split; [assumption |].
      exists (ev, a). split; [now apply In_visits | exact Hl]. }
  split; [| split; [exact Hiff |]].
  - apply NoDup_ListNoDup. rewrite ranking_logins_perm. apply keys_NoDup.
  - intros l Hclosed Hin. apply Hiff in Hin as [_ (ev & a & Hev & Hopen & Ha & Hl)].
    unfold Workload.isOpen in Hopen. rewrite (Hclosed ev a Hev Ha Hl) in Hopen.
    discriminate.
Qed.

(** X12: the bounds of the counters.  Every entry of the ranking has at
    least one active issue, and its upcoming and its overdue issues are
    each between zero and its active issues: the ranking has no entry
    with an empty workload. *)
Theorem ranking_counters_are_bounded (events : list CalendarEvent) (e : Workload.Entry) :
  In e (Workload.analyzeTeamWorkload now events) ->
  1 <= Workload.activeIssues e
  /\ 0 <= Workload.upcomingIssues e <= Workload.activeIssues e
  /\ 0 <= Workload.overdueIssues e <= Workload.activeIssues e.
Proof.
  intros Hin.
  destruct (ranking_counts now events e Hin) as (Ha & _ & Hu & Ho).
  apply ranking_entries in Hin as (l & Hget).
  assert (Hown : JsObject.getOwn l (Workload.collect now events) <> None) by congruence.
  apply owns_entry_iff in Hown as [Hinh Hvisit].
  destruct (entry_counts now events l e Hinh Hget) as (Hl & _).
  rewrite <- Hl in Hvisit. apply countVisits_positive in Hvisit.
  pose proof (countVisits_bounds (Workload.isUpcoming now) (Workload.login e) events).
  pose proof (countVisits_bounds (Workload.isOverdue now) (Workload.login e) events).
  lia.
Qed.

(** X13: closed events change nothing.  The ranking of a list of events
    is the ranking of its events that are not closed, entry for entry
    and in the same order. *)
Theorem ranking_ignores_closed_events (events : list CalendarEvent) :
  Workload.analyzeTeamWorkload now events
  = Workload.analyzeTeamWorkload now (List.filter Workload.isOpen events).
Proof.
  unfold Workload.analyzeTeamWorkload. now rewrite closed_events_ignored.
Qed.

(** ** The figures of the views *)

Lemma totalIssues_sum l :
  WorkloadView.totalIssues l = fold_right Z.add 0 (List.map Workload.totalWorkload l).
Proof.
  unfold WorkloadView.totalIssues.
  assert (H : forall a, fold_left (fun sum m => sum + Workload.totalWorkload m) l a
                        = a + fold_right Z.add 0 (List.map Workload.totalWorkload l)).
  { induction l as [| m r IH]; intros a; cbn [fold_left fold_right List.map]; [lia |].
    rewrite IH. lia. }
  rewrite H. lia.
Qed.

Lemma sum_perm (l l' : list Z) :
  Permutation l l' -> fold_right Z.add 0 l = fold_right Z.add 0 l'.
Proof. induction 1; cbn [fold_right]; lia. Qed.

Lemma sum_replaceOwn k e e0 (o : JsObject.t Workload.Entry) :
  JsObject.getOwn k o = Some e0 ->
  fold_right Z.add 0 (List.map (fun kv => Workload.totalWorkload (snd kv))
                               (JsObject.replaceOwn k e o))
  = fold_right Z.add 0 (List.map (fun kv => Workload.totalWorkload (snd kv)) o)
    - Workload.totalWorkload e0 + Workload.totalWorkload e.
Proof.
  induction o as [| [k' v] r IH]; [discriminate |].
  cbn [JsObject.getOwn JsObject.replaceOwn]. destruct (String.eqb k k').
  - intros [= ->]. cbn [List.map fold_right snd]. lia.
  - intros H. cbn [List.map fold_right snd]. rewrite (IH H). lia.
Qed.

Lemma sum_addOwn k e (o : JsObject.t Workload.Entry) :
  fold_right Z.add 0 (List.map (fun kv => Workload.totalWorkload (snd kv))
                               (JsObject.addOwn k e o))
  = fold_right Z.add 0 (List.map (fun kv => Workload.totalWorkload (snd kv)) o)
    + Workload.totalWorkload e.
Proof.
  unfold JsObject.addOwn. induction o as [| kv r IH]; cbn [app List.map fold_right snd];
    [lia | rewrite IH; lia].
Qed.

Lemma sum_fold vs : forall tw,
  List.Forall (fun k => JsObject.inherited k = false) (List.map fst tw) ->
  fold_right Z.add 0
    (List.map (fun kv => Workload.totalWorkload (snd kv))
       (fold_left (fun tw v => Workload.visitAssignee now (fst v) tw (snd v)) vs tw))
  = fold_right Z.add 0 (List.map (fun kv => Workload.totalWorkload (snd kv)) tw)
    + Z.of_nat (List.length
        (List.filter (fun v => negb (JsObject.inherited (Assignee.login (snd v)))) vs)).
Proof.
  induction vs as [| v r IH]; intros tw Hkeys; [cbn; lia |].
  cbn [fold_left List.filter].
  assert (Hkeys' : List.Forall (fun k => JsObject.inherited k = false)
                     (List.map fst (Workload.visitAssignee now (fst v) tw (snd v)))).
  { rewrite keys_visit. destruct (existsb _ _); [exact Hkeys |].
    destruct (JsObject.inherited (Assignee.login (snd v))) eqn:Hinh; [exact Hkeys |].
    apply List.Forall_app. split; [exact Hkeys |]. constructor; [exact Hinh | constructor]. }
  rewrite (IH _ Hkeys').
  destruct (visit_cases now (fst v) tw (snd v))
    as [(e & Hget & ->) | [(Hget & Hinh & ->) | (Hget & Hinh & ->)]].
  - rewrite (sum_replaceOwn _ _ e) by assumption.
    assert (Hown : JsObject.inherited (Assignee.login (snd v)) = false).
    { apply getOwn_In in Hget. apply (in_map fst) in Hget.
      exact (proj1 (List.Forall_forall _ _) Hkeys _ Hget). }
    rewrite Hown. cbn [negb List.length Workload.count Workload.totalWorkload]. lia.
  - rewrite Hinh. cbn [negb]. lia.
  - rewrite (sum_replaceOwn _ _ (Workload.newEntry (snd v)))
      by (now apply getOwn_addOwn_eq).
    rewrite sum_addOwn, Hinh. cbn [negb List.length Workload.count Workload.totalWorkload
                                   Workload.newEntry]. lia.
Qed.

(** X14: the total of the workload view.  The sum of [totalWorkload]
    over the ranking, which the view shows as its number of issues, is
    the number of assignments on events that are not closed whose login
    is not the name of an inherited property: an issue with two
    assignees is counted twice, an issue without assignee not at all. *)
Theorem total_issues_counts_open_assignments (events : list CalendarEvent) :
  WorkloadView.totalIssues (Workload.analyzeTeamWorkload now events)
  = Z.of_nat (List.length
      (List.filter (fun v => negb (JsObject.inherited (Assignee.login (snd v))))
                   (Workload.visits events))).
Proof.
  rewrite totalIssues_sum. unfold Workload.analyzeTeamWorkload.
  rewrite (sum_perm _ _ (Permutation_map Workload.totalWorkload (sort_perm _))).
  rewrite (sum_perm _ _ (Permutation_map Workload.totalWorkload (values_perm _))).
  rewrite List.map_map, collect_visits.
  rewrite sum_fold by constructor. cbn [List.map fold_right]. lia.
Qed.

Lemma ranking_ascending events : forall i j a b,
  (i <= j)%nat ->
  nth_error (Workload.analyzeTeamWorkload now events) i = Some a ->
  nth_error (Workload.analyzeTeamWorkload now events) j = Some b ->
  Workload.totalWorkload a <= Workload.totalWorkload b.
Proof.
  assert (Hs : StronglySorted (fun a b => Workload.totalWorkload a <= Workload.totalWorkload b)
                 (Workload.analyzeTeamWorkload now events)).
  { apply Sorted_StronglySorted; [| apply sort_sorted]. intros x y z. lia. }
  induction Hs as [| x l Hl IH Hx]; intros i j a b Hij Ha Hb.
  - destruct i; discriminate.
  - destruct i as [| i], j as [| j]; cbn [nth_error] in Ha, Hb.
    + injection Ha as <-. injection Hb as <-. lia.
    + injection Ha as <-. apply nth_error_In in Hb.
      exact (proj1 (List.Forall_forall _ _) Hx _ Hb).
    + lia.
    + apply (IH i j); [lia | assumption | assumption].
Qed.

(** X15: the levels follow the ranking.  Of two entries of the ranking,
    the earlier one has the lower or the same workload; so when the later
    one is shown as Light the earlier one is Light too, and when the
    earlier one is Heavy the later one is Heavy too: the Light members
    come first, then the Moderate ones, then the Heavy ones. *)
Theorem workload_levels_follow_the_ranking (events : list CalendarEvent)
    (i j : nat) (a b : Workload.Entry) :
  (i <= j)%nat ->
  nth_error (Workload.analyzeTeamWorkload now events) i = Some a ->
  nth_error (Workload.analyzeTeamWorkload now events) j = Some b ->
  (WorkloadView.workloadLevel b = "Light" -> WorkloadView.workloadLevel a = "Light")
  /\ (WorkloadView.workloadLevel b = "Moderate" ->
      WorkloadView.workloadLevel a = "Light" \/ WorkloadView.workloadLevel a = "Moderate")
  /\ (WorkloadView.workloadLevel a = "Heavy" -> WorkloadView.workloadLevel b = "Heavy").
Proof.
  intros Hij Ha Hb. pose proof (ranking_ascending events i j a b Hij Ha Hb) as Hle.
  unfold WorkloadView.workloadLevel.
  destruct (Z.leb_spec (Workload.totalWorkload a) 2), (Z.leb_spec (Workload.totalWorkload b) 2),
           (Z.leb_spec (Workload.totalWorkload a) 4), (Z.leb_spec (Workload.totalWorkload b) 4);
    try lia; repeat split; intros; try discriminate; auto.
Qed.

(** X16: the recommended card.  When the ranking is not empty,
    [find_best_assignee] recommends its first entry, no entry has a lower
    workload than that one, and of the cards compared, which are the
    first five of the ranking, the first one and no other is drawn as the
    recommended one. *)
Theorem recommended_card_is_the_first_only (events : list CalendarEvent)
    (best : Workload.Entry) (rest : list Workload.Entry) :
  Workload.analyzeTeamWorkload now events = best :: rest ->
  Dispatch.bestAssignee (Workload.analyzeTeamWorkload now events) = Some best
  /\ (forall e, In e (Workload.analyzeTeamWorkload now events) ->
                Workload.totalWorkload best <= Workload.totalWorkload e)
  /\ WorkloadView.recommendedMarks best (Workload.analyzeTeamWorkload now events)
     = true :: List.repeat false (Nat.min 4 (List.length rest)).
Proof.
  intros E. split; [rewrite E; reflexivity |]. split.
  - intros e He. apply In_nth_error in He as [j Hj].
    apply (ranking_ascending events 0 j best e); [lia | rewrite E; reflexivity | exact Hj].
  - assert (Hnd : List.NoDup (List.map Workload.login (Workload.analyzeTeamWorkload now events))).
    { apply NoDup_ListNoDup. rewrite ranking_logins_perm. apply keys_NoDup. }
    rewrite E in Hnd |- *. cbn [List.map] in Hnd. apply List.NoDup_cons_iff in Hnd as [Hnot _].
    unfold WorkloadView.recommendedMarks. cbn [firstn List.map].
    rewrite String.eqb_refl. f_equal.
    assert (Hfalse : forall n l,
      (forall e, In e l -> Workload.login e <> Workload.login best) ->
      List.map (fun member => String.eqb (Workload.login member) (Workload.login best))
               (firstn n l)
      = List.repeat false (Nat.min n (List.length l))).
    { induction n as [| n IHn]; intros [| e l] Hl; try reflexivity.
      cbn [firstn List.map List.length Nat.min List.repeat]. f_equal.
      - apply String.eqb_neq, Hl. now left.
      - apply IHn. intros e' He'. apply Hl. now right. }
    apply Hfalse. intros e He Heq. apply Hnot. rewrite <- Heq. now apply in_map.
Qed.

End WorkloadMore.

Example workload_pair :
  Workload.analyzeTeamWorkload Samples.noon10 WorkloadView.pairEvents
  = [WorkloadView.aliceEntry; WorkloadView.bobEntry].
Proof. reflexivity. Qed.

Lemma ranking_counters_witness :
  Workload.upcomingIssues WorkloadView.bobEntry
  = Workload.countVisits (Workload.isUpcoming Samples.noon10) "bob" WorkloadView.pairEvents.
Proof.
  refine (proj1 (proj2 (proj2
    (ranking_counters_count_open_assignments Samples.noon10 WorkloadView.pairEvents
       WorkloadView.bobEntry _)))).
  right; left; reflexivity.
Defined.

Lemma ranking_bounds_witness :
  1 <= Workload.activeIssues WorkloadView.bobEntry
  /\ 0 <= Workload.upcomingIssues WorkloadView.bobEntry <= Workload.activeIssues WorkloadView.bobEntry
  /\ 0 <= Workload.overdueIssues WorkloadView.bobEntry <= Workload.activeIssues WorkloadView.bobEntry.
Proof.
  apply (ranking_counters_are_bounded Samples.noon10 WorkloadView.pairEvents).
  right; left; reflexivity.
Defined.

Lemma workload_levels_witness :
  WorkloadView.workloadLevel WorkloadView.aliceEntry = "Light"
  \/ WorkloadView.workloadLevel WorkloadView.aliceEntry = "Moderate".
Proof.
  refine (proj1 (proj2
    (workload_levels_follow_the_ranking Samples.noon10 WorkloadView.pairEvents 0 1
       WorkloadView.aliceEntry WorkloadView.bobEntry _ _ _)) _).
  - lia.
  - reflexivity.
  - reflexivity.
  - reflexivity.
Defined.

Lemma recommended_card_witness :
  WorkloadView.recommendedMarks WorkloadView.aliceEntry
    (Workload.analyzeTeamWorkload Samples.noon10 WorkloadView.pairEvents)
  = [true; false].
Proof.
  refine (proj2 (proj2
    (recommended_card_is_the_first_only Samples.noon10 WorkloadView.pairEvents
       WorkloadView.aliceEntry [WorkloadView.bobEntry] _))).
  reflexivity.
Defined.

(* ===================================================================== *)
(** * More about the calendar grid *)
(* ===================================================================== *)

Lemma year_of_era_range doe :
  0 <= doe <= 146096 ->
  0 <= (doe - doe / 1460 + doe / 36524 - doe / 146096) / 365 <= 399.
Proof. intros H. Z.to_euclidean_division_equations; lia. Qed.

(** A day of the era is before the first day of the next year. *)
Lemma day_of_year_sharp doe :
  0 <= doe <= 146096 ->
  let yoe := (doe - doe / 1460 + doe / 36524 - doe / 146096) / 365 in
  doe < 365 * (yoe + 1) + (yoe + 1) / 4 - (yoe + 1) / 100 + (yoe + 1) / 400.
Proof. intros H yoe. subst yoe. Z.to_euclidean_division_equations; lia. Qed.

(** A day lies between the first day of its month and the first day of
    the next month. *)
Lemma day_in_its_month z :
  JsDate.daysFromCivil (fst (fst (JsDate.civilFromDays z)))
                       (snd (fst (JsDate.civilFromDays z))) 1
  <= z
  < (if snd (fst (JsDate.civilFromDays z)) =? 12
     then JsDate.daysFromCivil (fst (fst (JsDate.civilFromDays z)) + 1) 1 1
     else JsDate.daysFromCivil (fst (fst (JsDate.civilFromDays z)))
            (snd (fst (JsDate.civilFromDays z)) + 1) 1).
Proof.
  unfold JsDate.civilFromDays. cbv zeta. cbn [fst snd].
  set (zz := z + 719468).
  assert (Hz : z = zz - 719468) by (unfold zz; lia).
  set (era := zz / 146097).
  set (doe := zz - era * 146097).
  assert (Hdoe : 0 <= doe <= 146096).
  { unfold doe, era. pose proof (Z.mod_pos_bound zz 146097 ltac:(lia)) as H.
    rewrite Z.mod_eq in H by lia. lia. }
  assert (Hzz : zz = era * 146097 + doe) by (unfold doe; lia).
  clearbody doe. clearbody era. rewrite Hz, Hzz. clear Hz Hzz zz z.
  pose proof (day_of_year_range doe Hdoe) as Hdoy.
  pose proof (year_of_era_range doe Hdoe) as Hyoe.
  pose proof (day_of_year_sharp doe Hdoe) as Hsharp. cbv zeta in Hsharp.
  set (yoe := (doe - doe / 1460 + doe / 36524 - doe / 146096) / 365) in *.
  clearbody yoe.
  set (doy := doe - (365 * yoe + yoe / 4 - yoe / 100)) in *.
  assert (Hd : doe = doy + (365 * yoe + yoe / 4 - yoe / 100)) by (unfold doy; lia).
  clearbody doy. subst doe.
  set (mp := (5 * doy + 2) / 153).
  assert (Hmp : 0 <= mp <= 11) by (unfold mp; Z.to_euclidean_division_equations; lia).
  assert (Hmp' : 153 * mp <= 5 * doy + 2 < 153 * (mp + 1))
    by (unfold mp; Z.to_euclidean_division_equations; lia).
  clearbody mp.
  assert (Hcases : mp = 0 \/ mp = 1 \/ mp = 2 \/ mp = 3 \/ mp = 4 \/ mp = 5 \/ mp = 6 \/
                   mp = 7 \/ mp = 8 \/ mp = 9 \/ mp = 10 \/ mp = 11) by lia.
  unfold JsDate.daysFromCivil.
  repeat (destruct Hcases as [-> | Hcases]); [ .. | subst mp ];
    eval_month_tests.
  all: Z.to_euclidean_division_equations; lia.
Qed.

Section GridMore.
Variable tz : Z.

Lemma startOfMonth_is_midnight cur :
  JsDate.localMidnight tz (JsDate.localDay tz (JsDate.startOfMonth tz cur))
  = JsDate.startOfMonth tz cur.
Proof. unfold JsDate.startOfMonth. now rewrite localDay_localMidnight. Qed.

Lemma localMidnight_before t : JsDate.localMidnight tz (JsDate.localDay tz t) <= t.
Proof.
  pose proof (proj1 (localDay_bounds tz t _) eq_refl) as H.
  unfold JsDate.localMidnight. lia.
Qed.

Lemma localMidnight_mono a b :
  a <= b -> JsDate.localMidnight tz a <= JsDate.localMidnight tz b.
Proof. unfold JsDate.localMidnight, JsDate.msPerDay. lia. Qed.

(** An instant of the month of [cur] lies within the bounds of that
    month. *)
Lemma same_month_bounds s cur :
  JsDate.isSameMonth tz (JsDate.Instant s) (JsDate.Instant cur) = true ->
  JsDate.startOfMonth tz cur <= s <= JsDate.endOfMonth tz cur.
Proof.
  unfold JsDate.isSameMonth. intros H. apply andb_true_iff in H as [Hy Hm].
  apply Z.eqb_eq in Hy, Hm.
  unfold JsDate.startOfMonth, JsDate.endOfMonth. cbv zeta. rewrite <- Hy, <- Hm.
  pose proof (day_in_its_month (JsDate.localDay tz s)) as Hin.
  fold (JsDate.getFullYear tz s) in Hin. fold (JsDate.getMonth1 tz s) in Hin.
  pose proof (proj1 (localDay_bounds tz s _) eq_refl) as Hs.
  destruct (JsDate.getMonth1 tz s =? 12);
    unfold JsDate.localMidnight, JsDate.msPerDay in *; lia.
Qed.

(** The days of an interval inside [lo, hi], where [lo] is a local
    midnight, are local midnights inside [lo, hi]. *)
Lemma eachDayOfInterval_within lo hi a b d :
  JsDate.localMidnight tz (JsDate.localDay tz lo) = lo ->
  lo <= a <= hi -> lo <= b <= hi ->
  In d (JsDate.eachDayOfInterval tz a b) ->
  lo <= d <= hi /\ JsDate.localMidnight tz (JsDate.localDay tz d) = d.
Proof.
  intros Hlo Ha Hb Hin.
  assert (Hrange : exists k,
    d = JsDate.localMidnight tz k
    /\ JsDate.localDay tz lo <= k <= JsDate.localDay tz hi).
  { unfold JsDate.eachDayOfInterval in Hin. destruct (Z.ltb_spec b a) as [Hba | Hab].
    - apply in_rev in Hin. rewrite daysUpTo_range in Hin by lia.
      apply in_map_iff in Hin as (k & <- & Hk). apply In_dayRange in Hk.
      exists k. split; [reflexivity |].
      pose proof (localDay_mono tz lo b ltac:(lia)).
      pose proof (localDay_mono tz a hi ltac:(lia)). lia.
    - rewrite daysUpTo_range in Hin by lia.
      apply in_map_iff in Hin as (k & <- & Hk). apply In_dayRange in Hk.
      exists k. split; [reflexivity |].
      pose proof (localDay_mono tz lo a ltac:(lia)).
      pose proof (localDay_mono tz b hi ltac:(lia)). lia. }
  destruct Hrange as (k & -> & Hk). rewrite localDay_localMidnight. split; [| reflexivity].
  pose proof (localMidnight_mono _ _ (proj1 Hk)) as H1.
  pose proof (localMidnight_mono _ _ (proj2 Hk)) as H2.
  pose proof (localMidnight_before hi). lia.
Qed.

Lemma clip_within cur start end_ :
  Grid.reachesMonth tz cur start end_ = true ->
  JsDate.startOfMonth tz cur <= Grid.clipStart start (JsDate.startOfMonth tz cur)
    <= JsDate.endOfMonth tz cur
  /\ JsDate.startOfMonth tz cur <= Grid.clipEnd end_ (JsDate.endOfMonth tz cur)
    <= JsDate.endOfMonth tz cur.
Proof.
  unfold Grid.reachesMonth. cbv zeta. intros H. apply andb_true_iff in H as [H1 H2].
  apply Z.leb_le in H1, H2. pose proof (month_bounds tz cur) as Hb.
  split; split; try assumption.
  - destruct start as [s |]; [rewrite clipStart_max; lia | cbn; lia].
  - destruct end_ as [e |]; [rewrite clipEnd_min; lia | cbn; lia].
Qed.

Lemma datesOf_within cur start end_ d :
  In d (Grid.datesOf tz cur start end_) ->
  JsDate.startOfMonth tz cur <= d <= JsDate.endOfMonth tz cur.
Proof.
  assert (Hsingle : In d (Grid.singleDayDates tz cur start) ->
                    JsDate.startOfMonth tz cur <= d <= JsDate.endOfMonth tz cur).
  { unfold Grid.singleDayDates. destruct start as [s |]; [| contradiction].
    destruct (JsDate.isSameMonth tz _ _) eqn:Hsame; [| contradiction].
    intros [<- | []]. now apply same_month_bounds. }
  unfold Grid.datesOf. destruct end_ as [e |]; [| exact Hsingle].
  destruct (JsDate.timeDiffers start e); [| exact Hsingle].
  unfold Grid.multiDayDates. cbv zeta.
  destruct (Grid.reachesMonth tz cur start e) eqn:Hreach; [| contradiction].
  destruct (clip_within cur start e Hreach) as [Ha Hb]. intros Hin.
  exact (proj1 (eachDayOfInterval_within _ _ _ _ d
                  (startOfMonth_is_midnight cur) Ha Hb Hin)).
Qed.

(** The key of an instant within the month is the key of a cell. *)
Lemma month_key_is_cell_key cur d :
  JsDate.startOfMonth tz cur <= d <= JsDate.endOfMonth tz cur ->
  In (JsDate.formatDayKey tz d)
     (List.map (JsDate.formatDayKey tz) (CalendarView.calendarDays tz cur)).
Proof.
  intros Hd. unfold CalendarView.calendarDays.
  rewrite eachDayOfInterval_forward by (pose proof (month_bounds tz cur); lia).
  rewrite (formatDayKey_on_day tz d _ eq_refl).
  apply in_map_iff. exists (JsDate.localMidnight tz (JsDate.localDay tz d)). split.
  - apply formatDayKey_on_day, localDay_localMidnight.
  - apply in_map, In_dayRange. split; apply localDay_mono; lia.
Qed.

Lemma stored_dates_within cur ev dates d :
  Grid.eventDates tz cur ev = Some dates ->
  In d dates ->
  JsDate.startOfMonth tz cur <= d <= JsDate.endOfMonth tz cur
  /\ In (JsDate.formatDayKey tz d)
        (List.map (JsDate.formatDayKey tz) (CalendarView.calendarDays tz cur)).
Proof.
  unfold Grid.eventDates. destruct (startDate ev) as [start |]; [| discriminate].
  intros [= <-] Hin. apply datesOf_within in Hin.
  split; [exact Hin | now apply month_key_is_cell_key].
Qed.

(** X17: nothing is stored outside the month.  Every date under which
    [createCalendarUI] stores an event, whether the event has one day or
    several and whether its dates are valid or not, lies between the
    start and the end of the month shown, and its day key is the key of
    one of the day cells. *)
Theorem stored_dates_are_days_of_the_month (cur : Z) (ev : CalendarEvent)
    (dates : list Z) (d : Z) :
  Grid.eventDates tz cur ev = Some dates ->
  In d dates ->
  JsDate.startOfMonth tz cur <= d <= JsDate.endOfMonth tz cur
  /\ In (JsDate.formatDayKey tz d)
        (List.map (JsDate.formatDayKey tz) (CalendarView.calendarDays tz cur)).
Proof. apply stored_dates_within. Qed.

Lemma dayEvents_pushes_eq ev dates : forall (m : gmap string (list CalendarEvent)) k,
  Grid.dayEvents (fold_left (Grid.pushUnder tz ev) dates m) k
  = (Grid.dayEvents m k
     ++ List.map (fun _ => ev)
          (List.filter (String.eqb k) (List.map (JsDate.formatDayKey tz) dates)))%list.
Proof.
  induction dates as [| d r IH]; intros m k; cbn [fold_left List.map List.filter].
  - now rewrite app_nil_r.
  - rewrite IH, dayEvents_push.
    destruct (decide (JsDate.formatDayKey tz d = k)) as [<- | Hne].
    + rewrite String.eqb_refl. cbn [List.map]. now rewrite <- app_assoc.
    + destruct (String.eqb_spec k (JsDate.formatDayKey tz d)); [congruence | reflexivity].
Qed.

Lemma groupFrom_cells cur events : forall (m m' : gmap string (list CalendarEvent)) k,
  Grid.groupFrom tz cur events m = Some m' ->
  Grid.dayEvents m' k
  = (Grid.dayEvents m k
     ++ flat_map (fun ev =>
          match Grid.dayKeys tz cur ev with
          | Some keys => List.map (fun _ => ev) (List.filter (String.eqb k) keys)
          | None => []
          end) events)%list.
Proof.
  induction events as [| ev r IH]; intros m m' k; cbn [Grid.groupFrom flat_map].
  - intros [= <-]. now rewrite app_nil_r.
  - unfold Grid.dayKeys. destruct (Grid.eventDates tz cur ev) as [dates |]; [| discriminate].
    intros H. rewrite (IH _ _ k H), dayEvents_pushes_eq. cbn [option_map].
    now rewrite <- app_assoc.
Qed.

(** X18: what a day cell holds.  The list of a day key holds, for each
    event in the order of the input, one copy for each of its dates that
    has that key; a key whose list is not empty is the key of a day cell
    of the month; and of the events of a cell the first three are drawn
    and the others are counted by [moreCount]. *)
Theorem day_cell_lists_events_in_input_order (cur : Z) (events : list CalendarEvent)
    (m : gmap string (list CalendarEvent)) :
  Grid.eventsByDate tz cur events = Some m ->
  (forall k,
     Grid.dayEvents m k
     = flat_map (fun ev =>
         match Grid.dayKeys tz cur ev with
         | Some keys => List.map (fun _ => ev) (List.filter (String.eqb k) keys)
         | None => []
         end) events)
  /\ (forall k ev, In ev (Grid.dayEvents m k) ->
        In ev events
        /\ In k (List.map (JsDate.formatDayKey tz) (CalendarView.calendarDays tz cur)))
  /\ (forall day,
        CalendarView.cellEvents tz m day
        = (CalendarView.shownEvents tz m day
           ++ skipn 3 (CalendarView.cellEvents tz m day))%list
        /\ CalendarView.moreCount tz m day
           = Z.of_nat (List.length (skipn 3 (CalendarView.cellEvents tz m day)))).
Proof.
  intros Hm. split; [| split].
  - intros k. rewrite (groupFrom_cells cur events ∅ m k Hm).
    unfold Grid.dayEvents at 1. now rewrite lookup_empty.
  - intros k ev Hin.
    apply (eventsByDate_In tz cur events m ev k Hm) in Hin as (Hev & keys & Hkeys & Hk).
    split; [exact Hev |].
    unfold Grid.dayKeys in Hkeys.
    destruct (Grid.eventDates tz cur ev) as [dates |] eqn:Hdates; [| discriminate].
    injection Hkeys as <-. apply in_map_iff in Hk as (d & <- & Hd).
    exact (proj2 (stored_dates_within cur ev dates d Hdates Hd)).
  - intros day. unfold CalendarView.shownEvents, CalendarView.moreCount. cbv zeta.
    split; [symmetry; apply firstn_skipn |].
    rewrite List.length_skipn.
    destruct (Z.ltb_spec 3 (Z.of_nat (List.length (CalendarView.cellEvents tz m day)))); lia.
Qed.


Lemma map_localMidnight_keys days :
  List.map (JsDate.formatDayKey tz) (List.map (JsDate.localMidnight tz) days)
  = List.map (Grid.keyOfDay tz) days.
Proof. now rewrite List.map_map. Qed.

(** X19: an event with an invalid date is not dropped.  An invalid date
    differs from every date, so the event is treated as a multi-day event
    and the invalid bound is replaced by the bound of the month: when
    both dates are invalid the event is stored under every day of the
    month; when only the start date is invalid, under the days from the
    first of the month to the end date; when only the end date is
    invalid, under the days from the start date to the last of the
    month. *)
Theorem event_with_invalid_date_fills_the_month (cur : Z) (ev : CalendarEvent)
    (start end_ : JsDate.Date) :
  startDate ev = Some start ->
  endDate ev = Some end_ ->
  (start = JsDate.InvalidDate -> end_ = JsDate.InvalidDate ->
   Grid.dayKeys tz cur ev
   = Some (List.map (JsDate.formatDayKey tz) (CalendarView.calendarDays tz cur)))
  /\ (forall e,
        start = JsDate.InvalidDate -> end_ = JsDate.Instant e ->
        Grid.dayKeys tz cur ev
        = Some (if JsDate.startOfMonth tz cur <=? e
                then List.map (Grid.keyOfDay tz)
                       (Grid.dayRange
                          (JsDate.localDay tz (JsDate.startOfMonth tz cur))
                          (JsDate.localDay tz (Z.min e (JsDate.endOfMonth tz cur))))
                else []))
  /\ (forall s,
        start = JsDate.Instant s -> end_ = JsDate.InvalidDate ->
        Grid.dayKeys tz cur ev
        = Some (if s <=? JsDate.endOfMonth tz cur
                then List.map (Grid.keyOfDay tz)
                       (Grid.dayRange
                          (JsDate.localDay tz (Z.max s (JsDate.startOfMonth tz cur)))
                          (JsDate.localDay tz (JsDate.endOfMonth tz cur)))
                else [])).
Proof.
  intros Hs He. pose proof (month_bounds tz cur) as Hb.
  unfold Grid.dayKeys, Grid.eventDates. rewrite Hs, He. cbn [option_map].
  split; [| split].
  - intros -> ->. cbn [Grid.datesOf JsDate.timeDiffers].
    unfold Grid.multiDayDates, Grid.reachesMonth. cbv zeta. cbn [Grid.clipStart Grid.clipEnd].
    destruct (Z.leb_spec (JsDate.startOfMonth tz cur) (JsDate.endOfMonth tz cur)); [| lia].
    reflexivity.
  - intros e -> ->. cbn [Grid.datesOf JsDate.timeDiffers].
    unfold Grid.multiDayDates, Grid.reachesMonth. cbv zeta. rewrite clipEnd_min.
    cbn [Grid.clipStart].
    destruct (Z.leb_spec (JsDate.startOfMonth tz cur) (JsDate.endOfMonth tz cur)); [| lia].
    cbn [andb].
    destruct (Z.leb_spec (JsDate.startOfMonth tz cur) e),
             (Z.leb_spec (JsDate.startOfMonth tz cur) (Z.min e (JsDate.endOfMonth tz cur)));
      try lia; [| reflexivity].
    rewrite eachDayOfInterval_forward by lia. now rewrite map_localMidnight_keys.
  - intros s -> ->. cbn [Grid.datesOf JsDate.timeDiffers].
    unfold Grid.multiDayDates, Grid.reachesMonth. cbv zeta. rewrite clipStart_max.
    cbn [Grid.clipEnd].
    destruct (Z.leb_spec (JsDate.startOfMonth tz cur) (JsDate.endOfMonth tz cur)); [| lia].
    rewrite andb_true_r.
    destruct (Z.leb_spec s (JsDate.endOfMonth tz cur)),
             (Z.leb_spec (Z.max s (JsDate.startOfMonth tz cur)) (JsDate.endOfMonth tz cur));
      try lia; [| reflexivity].
    rewrite eachDayOfInterval_forward by lia. now rewrite map_localMidnight_keys.
Qed.

End GridMore.

Lemma stored_dates_witness :
  JsDate.startOfMonth 0 Samples.midSeptember <= 1756684800000
    <= JsDate.endOfMonth 0 Samples.midSeptember
  /\ In (JsDate.formatDayKey 0 1756684800000)
        (List.map (JsDate.formatDayKey 0) (CalendarView.calendarDays 0 Samples.midSeptember)).
Proof.
  eapply (stored_dates_are_days_of_the_month 0 Samples.midSeptember
            Samples.augustToSeptember).
  - reflexivity.
  - vm_compute. left. reflexivity.
Defined.

Lemma day_cell_witness :
  option_map (fun m => Grid.dayEvents m "2025-09-15")
    (Grid.eventsByDate 0 Samples.midSeptember CalendarView.busyDay)
  = Some (flat_map (fun ev =>
            match Grid.dayKeys 0 Samples.midSeptember ev with
            | Some keys => List.map (fun _ => ev) (List.filter (String.eqb "2025-09-15") keys)
            | None => []
            end) CalendarView.busyDay).
Proof.
  destruct (Grid.eventsByDate 0 Samples.midSeptember CalendarView.busyDay) as [m |] eqn:E.
  - cbn [option_map]. f_equal.
    exact (proj1 (day_cell_lists_events_in_input_order 0 Samples.midSeptember
                    CalendarView.busyDay m E) "2025-09-15").
  - vm_compute in E. discriminate E.
Defined.

(** The cell of 15 September for [busyDay]: three events drawn, two
    more counted. *)
Example busy_day_cell :
  option_map (fun m =>
      (List.map id (CalendarView.shownEvents 0 m (JsDate.localMidnight 0 20346)),
       CalendarView.moreCount 0 m (JsDate.localMidnight 0 20346)))
    (Grid.eventsByDate 0 Samples.midSeptember CalendarView.busyDay)
  = Some (["12"; "13"; "14"], 2).
Proof. vm_compute. reflexivity. Qed.

Lemma invalid_dates_witness :
  Grid.dayKeys 0 Samples.midSeptember
    (Extractor.transformItem JsDate.isoParse CalendarView.undatedItem)
  = Some (List.map (JsDate.formatDayKey 0)
            (CalendarView.calendarDays 0 Samples.midSeptember)).
Proof.
  refine (proj1 (event_with_invalid_date_fills_the_month 0 Samples.midSeptember
                   (Extractor.transformItem JsDate.isoParse CalendarView.undatedItem)
                   JsDate.InvalidDate JsDate.InvalidDate _ _) _ _).
  - vm_compute. reflexivity.
  - vm_compute. reflexivity.
  - reflexivity.
  - reflexivity.
Defined.

(** The undated issue is drawn on each of the thirty days of
    September 2025. *)
Example undated_issue_on_every_day :
  option_map (@List.length string)
    (Grid.dayKeys 0 Samples.midSeptember
       (Extractor.transformItem JsDate.isoParse CalendarView.undatedItem))
  = Some 30%nat.
Proof. vm_compute. reflexivity. Qed.

(* ===================================================================== *)
(** * The tools *)
(* ===================================================================== *)

(** ** The sort of [get_person_schedule] *)

Lemma insertByStart_perm x l : Permutation (Handlers.insertByStart x l) (x :: l).
Proof.
  induction l as [| y r IH]; [reflexivity |]. cbn [Handlers.insertByStart].
  destruct (match Handlers.compareStart x y with Some c => c <=? 0 | None => true end);
    [reflexivity |].
  rewrite IH. apply perm_swap.
Qed.

Lemma sortByStart_perm l : Permutation (Handlers.sortByStart l) l.
Proof.
  induction l as [| x r IH]; [reflexivity |]. cbn [Handlers.sortByStart fold_right].
  fold (Handlers.sortByStart r). rewrite insertByStart_perm. now apply perm_skip.
Qed.

Lemma le_startOf a b :
  JsDate.le (Handlers.startOf a) (Handlers.startOf b) = true
  <-> exists x y, Handlers.startTime a = Some x /\ Handlers.startTime b = Some y /\ x <= y.
Proof.
  unfold Handlers.startTime, JsDate.le.
  destruct (Handlers.startOf a) as [x |], (Handlers.startOf b) as [y |]; split;
    try discriminate; try (intros (? & ? & ? & ? & _); discriminate).
  - intros H. apply Z.leb_le in H. now exists x, y.
  - intros (x' & y' & [= <-] & [= <-] & H). now apply Z.leb_le.
Qed.

Lemma insertByStart_sorted x l :
  (exists t, Handlers.startTime x = Some t) ->
  Forall (fun ev => exists t, Handlers.startTime ev = Some t) l ->
  Sorted (fun a b => JsDate.le (Handlers.startOf a) (Handlers.startOf b) = true) l ->
  Sorted (fun a b => JsDate.le (Handlers.startOf a) (Handlers.startOf b) = true)
         (Handlers.insertByStart x l).
Proof.
  intros [tx Hx] Hvalid Hsorted. induction Hsorted as [| y r Hr IH Hy].
  - repeat constructor.
  - cbn [Handlers.insertByStart].
    apply List.Forall_cons_iff in Hvalid as [[ty Hy'] Hvalid].
    assert (Hcmp : Handlers.compareStart x y = Some (tx - ty)).
    { unfold Handlers.compareStart, Handlers.startTime in *.
      destruct (Handlers.startOf x), (Handlers.startOf y); congruence. }
    rewrite Hcmp. destruct (Z.leb_spec (tx - ty) 0) as [Hle | Hgt].
    + constructor; [now constructor |]. constructor.
      apply le_startOf. exists tx, ty. repeat split; [assumption | assumption | lia].
    + constructor; [now apply IH |].
      assert (Hyx : JsDate.le (Handlers.startOf y) (Handlers.startOf x) = true).
      { apply le_startOf. exists ty, tx. repeat split; [assumption | assumption | lia]. }
      destruct r as [| z r']; cbn [Handlers.insertByStart].
      * now constructor.
      * destruct (match Handlers.compareStart x z with Some c => c <=? 0 | None => true end);
          constructor; [exact Hyx |]. now inversion Hy.
Qed.

Lemma sortByStart_valid l :
  Forall (fun ev => exists t, Handlers.startTime ev = Some t) l ->
  Forall (fun ev => exists t, Handlers.startTime ev = Some t) (Handlers.sortByStart l).
Proof.
  intros H. apply List.Forall_forall. intros ev Hin.
  apply (Permutation_in _ (sortByStart_perm l)) in Hin.
  exact (proj1 (List.Forall_forall _ _) H ev Hin).
Qed.

Lemma sortByStart_sorted l :
  Forall (fun ev => exists t, Handlers.startTime ev = Some t) l ->
  Sorted (fun a b => JsDate.le (Handlers.startOf a) (Handlers.startOf b) = true)
         (Handlers.sortByStart l).
Proof.
  induction l as [| x r IH]; intros Hvalid; [constructor |].
  apply List.Forall_cons_iff in Hvalid as [Hx Hr].
  cbn [Handlers.sortByStart fold_right]. fold (Handlers.sortByStart r).
  apply insertByStart_sorted; [exact Hx | now apply sortByStart_valid | now apply IH].
Qed.

(** Events with the same start time keep their order. *)
Lemma insertByStart_stable t x l :
  List.filter (fun ev => negb (JsDate.timeDiffers (Handlers.startOf ev) (JsDate.Instant t)))
              (Handlers.insertByStart x l)
  = List.filter (fun ev => negb (JsDate.timeDiffers (Handlers.startOf ev) (JsDate.Instant t)))
                (x :: l).
Proof.
  induction l as [| y r IH]; [reflexivity |]. cbn [Handlers.insertByStart].
  destruct (match Handlers.compareStart x y with Some c => c <=? 0 | None => true end) eqn:Hc;
    [reflexivity |].
  cbn [List.filter] in *. rewrite IH.
  unfold Handlers.compareStart in Hc.
  destruct (Handlers.startOf x) as [tx |], (Handlers.startOf y) as [ty |];
    try discriminate Hc; cbn [JsDate.timeDiffers negb].
  apply Z.leb_gt in Hc.
  destruct (Z.eqb_spec tx t), (Z.eqb_spec ty t); cbn [negb]; try reflexivity. lia.
Qed.

Lemma sortByStart_stable t l :
  List.filter (fun ev => negb (JsDate.timeDiffers (Handlers.startOf ev) (JsDate.Instant t)))
              (Handlers.sortByStart l)
  = List.filter (fun ev => negb (JsDate.timeDiffers (Handlers.startOf ev) (JsDate.Instant t))) l.
Proof.
  induction l as [| x r IH]; [reflexivity |]. cbn [Handlers.sortByStart fold_right].
  fold (Handlers.sortByStart r). rewrite insertByStart_stable. cbn [List.filter].
  now rewrite IH.
Qed.

(** ** Callbacks that can throw *)

Lemma mapOutcome_cases {A B} (f : A -> Outcome B) (bad : A -> bool) (m : string) l :
  (forall x, if bad x then f x = Thrown m else exists y, f x = Returned y) ->
  if existsb bad l then Handlers.mapOutcome f l = Thrown m
  else exists ys, Handlers.mapOutcome f l = Returned ys.
Proof.
  intros Hf. induction l as [| x r IH]; cbn [existsb Handlers.mapOutcome].
  - now exists [].
  - specialize (Hf x). destruct (bad x); cbn [orb].
    + now rewrite Hf.
    + destruct Hf as [y ->]. cbn [Handlers.bind]. destruct (existsb bad r).
      * now rewrite IH.
      * destruct IH as [ys ->]. cbn [Handlers.bind]. now exists (y :: ys).
Qed.

Section HandlerFacts.
Variable tz : Z.
Variable parseDate parseISO : string -> JsDate.Date.
Variable createTeamStatusUI createWorkloadAnalysisUI : list Workload.Entry -> string.
Variable createBestAssigneeUI : Workload.Entry -> list Workload.Entry -> string.
Variable createPersonScheduleUI : list CalendarEvent -> option string -> Z -> string.
Variable createCalendarUI : list CalendarEvent -> string.
Variable destructuringMessage : string -> string.
Variable numberToString : Z -> string.
Variable now : Z.

Local Abbreviation call :=
  (Handlers.callTool tz parseDate parseISO createTeamStatusUI createWorkloadAnalysisUI
     createBestAssigneeUI createPersonScheduleUI createCalendarUI destructuringMessage
     numberToString now).

Lemma formatMedium_returns t : exists s, Handlers.formatMedium tz (JsDate.Instant t) = Returned s.
Proof.
  unfold Handlers.formatMedium.
  destruct (JsDate.civilFromDays (JsDate.localDay tz t)) as [[y m] d]. eauto.
Qed.

Lemma endText_cases ev :
  if Handlers.endIsInvalid ev then Handlers.endText tz ev = Thrown "Invalid time value"
  else exists s, Handlers.endText tz ev = Returned s.
Proof.
  unfold Handlers.endIsInvalid, Handlers.endText.
  destruct (endDate ev) as [[e |] |]; [apply formatMedium_returns | reflexivity | eauto].
Qed.

Lemma scheduleEntry_cases ev :
  if Handlers.hasInvalidDate ev
  then Handlers.scheduleEntry tz ev = Thrown "Invalid time value"
  else exists s, Handlers.scheduleEntry tz ev = Returned s.
Proof.
  unfold Handlers.hasInvalidDate, Handlers.scheduleEntry.
  destruct (Handlers.startOf ev) as [t |]; [| reflexivity].
  destruct (formatMedium_returns t) as [s0 ->]. cbn [Handlers.bind].
  pose proof (endText_cases ev) as He. destruct (Handlers.endIsInvalid ev).
  - now rewrite He.
  - destruct He as [s1 ->]. cbn [Handlers.bind]. eauto.
Qed.

Lemma calendarEntry_cases ev :
  if Handlers.hasInvalidDate ev
  then Handlers.calendarEntry tz ev = Thrown "Invalid time value"
  else exists s, Handlers.calendarEntry tz ev = Returned s.
Proof.
  unfold Handlers.hasInvalidDate, Handlers.calendarEntry.
  destruct (Handlers.startOf ev) as [t |]; [| reflexivity].
  destruct (formatMedium_returns t) as [s0 ->]. cbn [Handlers.bind].
  pose proof (endText_cases ev) as He. destruct (Handlers.endIsInvalid ev).
  - now rewrite He.
  - destruct He as [s1 ->]. cbn [Handlers.bind]. eauto.
Qed.

(** ** Who is listed by [get_person_schedule] *)

Lemma personEvents_selected_valid name days events :
  Forall (fun ev => exists t, Handlers.startTime ev = Some t)
         (List.filter
            (fun ev => Handlers.assignedTo name ev
                       && JsDate.le (Handlers.startOf ev) (Handlers.horizon now days))
            events).
Proof.
  apply List.Forall_forall. intros ev Hin. apply filter_In in Hin as [_ H].
  apply andb_true_iff in H as [_ H]. unfold Handlers.startTime, JsDate.le in *.
  destruct (Handlers.startOf ev) as [t |]; [eauto | discriminate].
Qed.

Lemma personEvents_valid name days events :
  Forall (fun ev => exists t, Handlers.startTime ev = Some t)
         (Handlers.personEvents now name days events).
Proof.
  unfold Handlers.personEvents. apply sortByStart_valid, personEvents_selected_valid.
Qed.

Lemma horizon_in_range days :
  days = 0 \/ Z.abs (now + days * JsDate.msPerDay) <= Handlers.maxTime ->
  Handlers.horizon now days = JsDate.Instant (now + days * JsDate.msPerDay).
Proof.
  intros H. unfold Handlers.horizon. destruct (Z.eqb_spec days 0) as [-> | Hne].
  - f_equal. lia.
  - cbv zeta. destruct (Z.leb_spec (Z.abs (now + days * JsDate.msPerDay)) Handlers.maxTime);
      [reflexivity | lia].
Qed.

Lemma horizon_out_of_range days :
  days <> 0 -> Handlers.maxTime < Z.abs (now + days * JsDate.msPerDay) ->
  Handlers.horizon now days = JsDate.InvalidDate.
Proof.
  intros Hne H. unfold Handlers.horizon. destruct (Z.eqb_spec days 0); [contradiction |].
  cbv zeta. destruct (Z.leb_spec (Z.abs (now + days * JsDate.msPerDay)) Handlers.maxTime);
    [lia | reflexivity].
Qed.

(** X20: the schedule of a person.  When now plus the number of days is
    a time value that a date can hold, [get_person_schedule] lists the
    events that are assigned to the login and whose start date is a
    valid date not after it; there is no lower bound and no test of the
    state, so closed events and events that began long ago are listed.
    When it is not, the bound is an invalid date and no event is listed.
    The list is in ascending order of the start dates, and events with
    the same start date keep the order in which they were fetched. *)
Theorem person_schedule_lists_events_by_start (name : option string) (days : Z)
    (events : list CalendarEvent) :
  (days = 0 \/ Z.abs (now + days * JsDate.msPerDay) <= Handlers.maxTime ->
   forall ev,
     In ev (Handlers.personEvents now name days events)
     <-> In ev events
         /\ Handlers.assignedTo name ev = true
         /\ exists t, Handlers.startTime ev = Some t
                      /\ t <= now + days * JsDate.msPerDay)
  /\ (days <> 0 -> Handlers.maxTime < Z.abs (now + days * JsDate.msPerDay) ->
      Handlers.personEvents now name days events = [])
  /\ StronglySorted
       (fun a b => JsDate.le (Handlers.startOf a) (Handlers.startOf b) = true)
       (Handlers.personEvents now name days events)
  /\ (forall t,
        List.filter
          (fun ev => negb (JsDate.timeDiffers (Handlers.startOf ev) (JsDate.Instant t)))
          (Handlers.personEvents now name days events)
        = List.filter
            (fun ev => negb (JsDate.timeDiffers (Handlers.startOf ev) (JsDate.Instant t)))
            (List.filter
               (fun ev => Handlers.assignedTo name ev
                          && JsDate.le (Handlers.startOf ev) (Handlers.horizon now days))
               events)).
Proof.
  split; [| split; [| split]].
  - intros Hrange ev. unfold Handlers.personEvents.
    rewrite (horizon_in_range days Hrange). split.
    + intros Hin. apply (Permutation_in _ (sortByStart_perm _)) in Hin.
      apply filter_In in Hin as [Hev H]. apply andb_true_iff in H as [Ha Hle].
      split; [exact Hev |]. split; [exact Ha |].
      unfold Handlers.startTime in *.
      destruct (Handlers.startOf ev) as [t |]; [| discriminate].
      exists t. split; [reflexivity | now apply Z.leb_le].
    + intros (Hev & Ha & t & Ht & Hle).
      apply (Permutation_in _ (Permutation_sym (sortByStart_perm _))).
      apply filter_In. split; [exact Hev |]. rewrite Ha. cbn [andb].
      unfold Handlers.startTime in *.
      destruct (Handlers.startOf ev) as [t' |]; [| discriminate].
      injection Ht as ->. now apply Z.leb_le.
  - intros Hne Hout. unfold Handlers.personEvents.
    rewrite (horizon_out_of_range days Hne Hout).
    assert (Hnone : List.filter
                      (fun event => Handlers.assignedTo name event
                                    && JsDate.le (Handlers.startOf event) JsDate.InvalidDate)
                      events = []).
    { induction events as [| ev r IH]; [reflexivity |]. cbn [List.filter].
      assert (Hle : JsDate.le (Handlers.startOf ev) JsDate.InvalidDate = false)
        by (unfold JsDate.le; now destruct (Handlers.startOf ev)).
      rewrite Hle, andb_false_r. exact IH. }
    now rewrite Hnone.
  - apply Sorted_StronglySorted.
    + intros a b c Hab Hbc. apply le_startOf in Hab as (x & y & Hx & Hy & Hxy).
      apply le_startOf in Hbc as (y' & z & Hy' & Hz & Hyz).
      apply le_startOf. exists x, z. repeat split; [assumption | assumption |].
      rewrite Hy in Hy'. injection Hy' as <-. lia.
    + apply sortByStart_sorted, personEvents_selected_valid.
  - intros t. unfold Handlers.personEvents. apply sortByStart_stable.
Qed.

(** ** Which tools can fail *)

Ltac pick_case :=
  unfold Handlers.callTool, Dispatch.callTool, Dispatch.runTool;
  repeat match goal with
  | |- context [String.eqb ?a ?b] =>
      let v := eval vm_compute in (String.eqb a b) in change (String.eqb a b) with v
  end;
  cbv iota.

(** X21: the three tools on the workload never answer with an error,
    whatever the two APIs do: each returns its text and its view of the
    ranking of the events fetched, [isError] is not set, and no error
    line is written. *)
Theorem workload_tools_answer_without_error (args : option Handlers.Args)
    (w : Fetch.World) :
  exists events w1,
    Fetch.getCalendarEvents parseDate Fetch.DEFAULT_ORG Fetch.DEFAULT_PROJECT_NUMBER None w
    = (Returned events, w1)
    /\ call "get_team_status" args w
       = (Handlers.teamStatusResult createTeamStatusUI now
            (Workload.analyzeTeamWorkload now events), w1)
    /\ call "analyze_workload" args w
       = (Handlers.analyzeWorkloadResult createWorkloadAnalysisUI now
            (Workload.analyzeTeamWorkload now events), w1)
    /\ call "find_best_assignee" args w
       = (Dispatch.bestAssigneeResult createBestAssigneeUI now
            (Workload.analyzeTeamWorkload now events), w1)
    /\ Dispatch.isError (fst (call "get_team_status" args w)) = false
    /\ Dispatch.isError (fst (call "analyze_workload" args w)) = false
    /\ Dispatch.isError (fst (call "find_best_assignee" args w)) = false.
Proof.
  destruct (getCalendarEvents_returns parseDate Fetch.DEFAULT_ORG
              Fetch.DEFAULT_PROJECT_NUMBER None w) as (items & w1 & _ & Hev).
  exists (List.map (Extractor.transformItem parseDate) items), w1.
  split; [exact Hev |].
  assert (H1 : call "get_team_status" args w
               = (Handlers.teamStatusResult createTeamStatusUI now
                    (Workload.analyzeTeamWorkload now
                       (List.map (Extractor.transformItem parseDate) items)), w1)).
  { pick_case. unfold Handlers.teamStatusCase. now rewrite Hev. }
  assert (H2 : call "analyze_workload" args w
               = (Handlers.analyzeWorkloadResult createWorkloadAnalysisUI now
                    (Workload.analyzeTeamWorkload now
                       (List.map (Extractor.transformItem parseDate) items)), w1)).
  { pick_case. unfold Handlers.analyzeWorkloadCase. now rewrite Hev. }
  assert (H3 : call "find_best_assignee" args w
               = (Dispatch.bestAssigneeResult createBestAssigneeUI now
                    (Workload.analyzeTeamWorkload now
                       (List.map (Extractor.transformItem parseDate) items)), w1)).
  { pick_case. unfold Dispatch.findBestAssigneeCase. now rewrite Hev. }
  rewrite H1, H2, H3. repeat split.
  cbn [fst]. unfold Dispatch.bestAssigneeResult.
  destruct (Dispatch.bestAssignee _); reflexivity.
Qed.

(** X22: when [get_person_schedule] fails.  A request without an
    argument object fails on the destructuring of [args], before
    anything is fetched, with the message of that [TypeError].  With an
    argument object the tool fails exactly on an invalid end date: when
    one of the events listed has an end date that is an invalid date,
    the whole answer is the error result with the text
    [Error: Invalid time value]; otherwise the tool answers without
    error.  Either failure writes an error line.  The start dates of the
    events listed are valid. *)
Theorem person_schedule_fails_on_an_invalid_end_date (w w1 : Fetch.World)
    (events : list CalendarEvent) :
  Fetch.getCalendarEvents parseDate Fetch.DEFAULT_ORG Fetch.DEFAULT_PROJECT_NUMBER None w
  = (Returned events, w1) ->
  call "get_person_schedule" None w
  = (Dispatch.errorResult (destructuringMessage "login"),
     Fetch.emit (Fetch.Console "Error in tool get_person_schedule:") w)
  /\ forall args : Handlers.Args,
       if existsb Handlers.endIsInvalid
            (Handlers.personEvents now (Handlers.login args)
               (default 7 (Handlers.days args)) events)
       then call "get_person_schedule" (Some args) w
            = (Dispatch.errorResult "Invalid time value",
               Fetch.emit (Fetch.Console "Error in tool get_person_schedule:") w1)
       else snd (call "get_person_schedule" (Some args) w) = w1
            /\ Dispatch.isError (fst (call "get_person_schedule" (Some args) w)) = false.
Proof.
  intros Hev. split; [pick_case; reflexivity |].
  intros args. pick_case. unfold Handlers.personScheduleCase. cbv zeta. rewrite Hev.
  unfold Handlers.personScheduleResult. cbv zeta.
  set (selected := Handlers.personEvents now (Handlers.login args)
                     (default 7 (Handlers.days args)) events).
  assert (Hsame : existsb Handlers.hasInvalidDate selected
                  = existsb Handlers.endIsInvalid selected).
  { pose proof (personEvents_valid (Handlers.login args) (default 7 (Handlers.days args))
                  events) as Hvalid.
    fold selected in Hvalid. induction Hvalid as [| ev r [t Ht] _ IH]; [reflexivity |].
    cbn [existsb]. rewrite IH. f_equal.
    unfold Handlers.hasInvalidDate, Handlers.startTime in *.
    destruct (Handlers.startOf ev); [reflexivity | discriminate]. }
  pose proof (mapOutcome_cases (Handlers.scheduleEntry tz) Handlers.hasInvalidDate
                "Invalid time value" selected scheduleEntry_cases) as Hmap.
  rewrite Hsame in Hmap. unfold Handlers.scheduleText.
  destruct selected as [| ev r] eqn:Hsel.
  - cbn [existsb Handlers.bind]. now split.
  - rewrite <- Hsel in *. destruct (existsb Handlers.endIsInvalid selected).
    + rewrite Hmap. reflexivity.
    + destruct Hmap as [ys ->]. cbn [Handlers.bind]. now split.
Qed.

(** X23: when [get_calendar_events] fails.  A request without an
    argument object fails on the destructuring of [args], before
    anything is fetched, with the message of that [TypeError].  With an
    argument object the tool fails exactly on an invalid date: when one
    of the events listed has a start date or an end date that is an
    invalid date, the whole answer is the error result with the text
    [Error: Invalid time value]; otherwise the tool answers without
    error. *)
Theorem calendar_events_fail_on_an_invalid_date (args : Handlers.Args)
    (w w1 : Fetch.World) (events : list CalendarEvent) :
  Fetch.getCalendarEvents parseDate
    (default Fetch.DEFAULT_ORG (Handlers.org args))
    (default Fetch.DEFAULT_PROJECT_NUMBER (Handlers.project args))
    (Handlers.sinceDate parseISO args) w
  = (Returned events, w1) ->
  call "get_calendar_events" None w
  = (Dispatch.errorResult (destructuringMessage "org"),
     Fetch.emit (Fetch.Console "Error in tool get_calendar_events:") w)
  /\ if existsb Handlers.hasInvalidDate
          (Handlers.filterByAssignee (Handlers.assignee args) events)
     then call "get_calendar_events" (Some args) w
          = (Dispatch.errorResult "Invalid time value",
             Fetch.emit (Fetch.Console "Error in tool get_calendar_events:") w1)
     else snd (call "get_calendar_events" (Some args) w) = w1
          /\ Dispatch.isError (fst (call "get_calendar_events" (Some args) w)) = false.
Proof.
  intros Hev. split; [pick_case; reflexivity |].
  pick_case. unfold Handlers.calendarEventsCase. rewrite Hev.
  unfold Handlers.calendarEventsResult.
  set (listed := Handlers.filterByAssignee (Handlers.assignee args) events).
  pose proof (mapOutcome_cases (Handlers.calendarEntry tz) Handlers.hasInvalidDate
                "Invalid time value" listed calendarEntry_cases) as Hmap.
  destruct listed as [| ev r] eqn:Hsel.
  - cbn [existsb]. now split.
  - rewrite <- Hsel in *. destruct (existsb Handlers.hasInvalidDate listed).
    + rewrite Hmap. reflexivity.
    + destruct Hmap as [ys ->]. cbn [Handlers.bind]. now split.
Qed.

(** X24: a cutoff that [parseISO] cannot read empties the answer.  When
    [since] is a string that is not empty and that [parseISO] reads as
    an invalid date, [get_calendar_events] answers that no events were
    found, whatever the project holds, without an error and without a
    search request. *)
Theorem unreadable_since_finds_no_events (args : Handlers.Args) (w : Fetch.World)
    (s : string) :
  Handlers.since args = Some s ->
  s <> "" ->
  parseISO s = JsDate.InvalidDate ->
  fst (call "get_calendar_events" (Some args) w)
  = Handlers.noEventsResult createCalendarUI now
  /\ Fetch.searchRequests (Fetch.effects (snd (call "get_calendar_events" (Some args) w)))
     = Fetch.searchRequests (Fetch.effects w).
Proof.
  intros Hs Hne Hinvalid. pick_case. unfold Handlers.calendarEventsCase.
  assert (Hsince : Handlers.sinceDate parseISO args = Some JsDate.InvalidDate).
  { unfold Handlers.sinceDate. rewrite Hs.
    destruct (String.eqb_spec s ""); [contradiction | now rewrite Hinvalid]. }
  rewrite Hsince. unfold Fetch.getCalendarEvents.
  destruct (invalid_cutoff_fetch parseDate
              (default Fetch.DEFAULT_ORG (Handlers.org args))
              (default Fetch.DEFAULT_PROJECT_NUMBER (Handlers.project args)) w)
    as (w' & -> & Hlog).
  cbn [Extractor.transformToCalendarEvents List.map fst snd].
  assert (Hnone : Handlers.filterByAssignee (Handlers.assignee args) [] = []).
  { unfold Handlers.filterByAssignee. destruct (Handlers.assignee args) as [a |];
      [destruct (String.eqb a "") |]; reflexivity. }
  change (Extractor.transformToCalendarEvents parseDate []) with (@nil CalendarEvent).
  rewrite Hnone.
  cbn [Handlers.calendarEventsResult fst snd]. now split.
Qed.

End HandlerFacts.

Ltac decide_listed H :=
  match type of H with
  | if ?c then _ else _ =>
      let v := eval vm_compute in c in change c with v in H
  end;
  cbv iota in H.

Lemma person_schedule_witness :
  fst (HandlerSamples.callTool "get_person_schedule" (Some HandlerSamples.forAlice)
         HandlerSamples.undatedWorld)
  = Dispatch.errorResult "Invalid time value".
Proof.
  pose proof (fun w1 events E =>
    proj2 (person_schedule_fails_on_an_invalid_end_date 0 JsDate.isoParse JsDate.isoParse
             HandlerSamples.noTeamView HandlerSamples.noTeamView Samples.noView
             HandlerSamples.noScheduleView HandlerSamples.noCalendarView
             HandlerSamples.v8Message JsString.ofZ Samples.noon10
             HandlerSamples.undatedWorld w1 events E) HandlerSamples.forAlice) as H.
  specialize (H _ _ eq_refl). decide_listed H.
  exact (f_equal fst H).
Defined.

Lemma calendar_events_witness :
  fst (HandlerSamples.callTool "get_calendar_events" (Some Handlers.noArgs)
         HandlerSamples.undatedWorld)
  = Dispatch.errorResult "Invalid time value".
Proof.
  pose proof (fun w1 events E =>
    proj2 (calendar_events_fail_on_an_invalid_date 0 JsDate.isoParse JsDate.isoParse
             HandlerSamples.noTeamView HandlerSamples.noTeamView Samples.noView
             HandlerSamples.noScheduleView HandlerSamples.noCalendarView
             HandlerSamples.v8Message JsString.ofZ Samples.noon10
             Handlers.noArgs HandlerSamples.undatedWorld w1 events E)) as H.
  specialize (H _ _ eq_refl). decide_listed H.
  exact (f_equal fst H).
Defined.

Lemma unreadable_since_witness :
  fst (HandlerSamples.callTool "get_calendar_events" (Some HandlerSamples.sinceLastWeek)
         FetchLog.twoPages)
  = Handlers.noEventsResult HandlerSamples.noCalendarView Samples.noon10.
Proof.
  exact (proj1 (unreadable_since_finds_no_events 0 JsDate.isoParse JsDate.isoParse
                  HandlerSamples.noTeamView HandlerSamples.noTeamView Samples.noView
                  HandlerSamples.noScheduleView HandlerSamples.noCalendarView
                  HandlerSamples.v8Message JsString.ofZ Samples.noon10
                  HandlerSamples.sinceLastWeek FetchLog.twoPages "last week"
                  eq_refl ltac:(discriminate) eq_refl)).
Defined.

(** The schedule of alice in the next seven days: the closed event and
    the event of August are listed, the two events of 12 September keep
    their order, and the event of 30 September is left out. *)
Example schedule_of_alice :
  List.map id
    (Handlers.personEvents Samples.noon10 (Some "alice") 7 HandlerSamples.mixedEvents)
  = ["26"; "22"; "21"; "25"].
Proof. vm_compute. reflexivity. Qed.

(** A hundred million days from now is past the last time value: the
    bound is an invalid date, no event is listed, and the tool answers
    without error. *)
Example schedule_past_the_last_date :
  Handlers.horizon Samples.noon10 100000000 = JsDate.InvalidDate
  /\ Handlers.personEvents Samples.noon10 (Some "alice") 100000000
       HandlerSamples.mixedEvents = []
  /\ List.map (fun b => match b with
                        | Dispatch.TextBlock t => t
                        | Dispatch.UIResource u _ => u
                        end)
       (Dispatch.content
          (fst (HandlerSamples.callTool "get_person_schedule"
                  (Some HandlerSamples.forAliceForever) HandlerSamples.undatedWorld)))
     = [ "# Schedule for alice (Next 100000000 days)" +:+ JsString.LF +:+ JsString.LF
         +:+ "No upcoming work found for alice in the next 100000000 days.";
         "ui://person-schedule/alice/1757505600000" ].
Proof. vm_compute. repeat split. Qed.

(** A request without an argument object: the two tools that read
    their arguments fail before they fetch, the others answer. *)
Example request_without_arguments :
  HandlerSamples.callTool "get_person_schedule" None FetchLog.twoPages
  = (Dispatch.errorResult
       "Cannot destructure property 'login' of 'args' as it is undefined.",
     Fetch.emit (Fetch.Console "Error in tool get_person_schedule:") FetchLog.twoPages)
  /\ HandlerSamples.callTool "get_calendar_events" None FetchLog.twoPages
     = (Dispatch.errorResult
          "Cannot destructure property 'org' of 'args' as it is undefined.",
        Fetch.emit (Fetch.Console "Error in tool get_calendar_events:") FetchLog.twoPages)
  /\ Dispatch.isError
       (fst (HandlerSamples.callTool "get_team_status" None FetchLog.twoPages)) = false.
Proof. vm_compute. repeat split. Qed.

(** With the two dated issues that [twoPages] keeps, both tools
    answer. *)
Example dated_world_answers :
  Dispatch.isError
    (fst (HandlerSamples.callTool "get_calendar_events" (Some Handlers.noArgs)
            FetchLog.twoPages))
  = false
  /\ List.map (fun b => match b with
                        | Dispatch.TextBlock t => t
                        | Dispatch.UIResource u _ => u
                        end)
       (Dispatch.content
          (fst (HandlerSamples.callTool "get_person_schedule" (Some HandlerSamples.forAlice)
                  FetchLog.twoPages)))
     = [ "# Schedule for alice (Next 7 days)" +:+ JsString.LF +:+ JsString.LF
         +:+ "**Issue 1** (open)" +:+ JsString.LF
         +:+ "- Start: Aug 15, 2025" +:+ JsString.LF
         +:+ "- End: No end date" +:+ JsString.LF
         +:+ "- URL: https://github.com/squareup/repo/issues/1"
         +:+ JsString.LF +:+ JsString.LF
         +:+ "**Issue 4** (open)" +:+ JsString.LF
         +:+ "- Start: Aug 21, 2025" +:+ JsString.LF
         +:+ "- End: No end date" +:+ JsString.LF
         +:+ "- URL: https://github.com/squareup/repo/issues/4";
         "ui://person-schedule/alice/1757505600000" ].
Proof. vm_compute. split; reflexivity. Qed.

(* ===================================================================== *)
(** * The colours of the calendar *)
(* ===================================================================== *)

Lemma firsts_NoDup l : forall seen, List.NoDup (Workload.firsts seen l).
Proof.
  induction l as [| x r IH]; intros seen; cbn [Workload.firsts]; [constructor |].
  destruct (existsb (String.eqb x) seen); [apply IH |].
  constructor; [| apply IH].
  intros Hin. apply firsts_In in Hin as [_ Hnot]. apply Hnot, in_or_app. right. now left.
Qed.

Lemma getOwn_setColor_same login color (m : JsObject.t string) :
  login <> "__proto__" ->
  JsObject.getOwn login (CalendarView.setColor login color m) = Some color.
Proof.
  intros Hne. unfold CalendarView.setColor.
  destruct (String.eqb_spec login "__proto__"); [contradiction |].
  destruct (JsObject.getOwn login m) eqn:Hget.
  - now apply (getOwn_replaceOwn_eq m login color s).
  - now apply getOwn_addOwn_eq.
Qed.

Lemma getOwn_setColor_other k login color (m : JsObject.t string) :
  k <> login ->
  JsObject.getOwn k (CalendarView.setColor login color m) = JsObject.getOwn k m.
Proof.
  intros Hne. unfold CalendarView.setColor.
  destruct (String.eqb login "__proto__"); [reflexivity |].
  destruct (JsObject.getOwn login m).
  - now apply getOwn_replaceOwn_ne.
  - now apply getOwn_addOwn_ne.
Qed.

Lemma getOwn_setColor_proto login color (m : JsObject.t string) :
  JsObject.getOwn "__proto__" (CalendarView.setColor login color m)
  = JsObject.getOwn "__proto__" m.
Proof.
  destruct (String.eqb_spec login "__proto__") as [-> | Hne].
  - unfold CalendarView.setColor. now rewrite String.eqb_refl.
  - apply getOwn_setColor_other. congruence.
Qed.

Lemma colorsFrom_keeps k logins : forall index (m : JsObject.t string),
  ~ In k logins ->
  JsObject.getOwn k (CalendarView.colorsFrom index logins m) = JsObject.getOwn k m.
Proof.
  induction logins as [| l r IH]; intros index m Hnot; [reflexivity |].
  cbn [CalendarView.colorsFrom]. rewrite IH by (intros H; apply Hnot; now right).
  apply getOwn_setColor_other. intros ->. apply Hnot. now left.
Qed.

Lemma colorsFrom_proto logins : forall index (m : JsObject.t string),
  JsObject.getOwn "__proto__" (CalendarView.colorsFrom index logins m)
  = JsObject.getOwn "__proto__" m.
Proof.
  induction logins as [| l r IH]; intros index m; [reflexivity |].
  cbn [CalendarView.colorsFrom]. rewrite IH. apply getOwn_setColor_proto.
Qed.

Lemma colorsFrom_at logins : forall index (m : JsObject.t string) i k,
  List.NoDup logins ->
  nth_error logins i = Some k ->
  k <> "__proto__" ->
  JsObject.getOwn k (CalendarView.colorsFrom index logins m)
  = Some (CalendarView.paletteAt (index + i)).
Proof.
  induction logins as [| l r IH]; intros index m i k Hnd Hi Hne; [now destruct i |].
  apply List.NoDup_cons_iff in Hnd as [Hl Hr]. cbn [CalendarView.colorsFrom].
  destruct i as [| i]; cbn [nth_error] in Hi.
  - injection Hi as ->. rewrite colorsFrom_keeps by assumption.
    rewrite Nat.add_0_r. now apply getOwn_setColor_same.
  - rewrite (IH (S index) _ i k Hr Hi Hne). f_equal. f_equal. lia.
Qed.

Lemma paletteAt_In index : In (CalendarView.paletteAt index) CalendarView.assigneeColors.
Proof.
  unfold CalendarView.paletteAt. apply nth_In.
  apply Nat.mod_upper_bound. discriminate.
Qed.

(** X25: the colour of an event.  An event of the calendar that has an
    assignee is drawn in the colour of its first assignee, which is the
    colour of the palette at the position, modulo ten, at which that
    login first appears among the assignees of all events: the colour is
    never undefined, the same login has the same colour on every event,
    and with more than ten logins colours repeat.  The login [__proto__]
    is the exception: no colour is stored for it, and what is read is the
    inherited value. *)
Theorem event_colour_follows_first_appearance (events : list CalendarEvent)
    (ev : CalendarEvent) (primary : Assignee.t) (rest : list Assignee.t) :
  In ev events ->
  ev_assignees ev = primary :: rest ->
  exists i,
    nth_error (CalendarView.uniqueAssignees events) i = Some (Assignee.login primary)
    /\ CalendarView.eventColor events ev
       = (if String.eqb (Assignee.login primary) "__proto__"
          then CalendarView.InheritedValue
          else CalendarView.Hex (CalendarView.paletteAt i))
    /\ In (CalendarView.paletteAt i) CalendarView.assigneeColors
    /\ CalendarView.paletteAt (i + 10) = CalendarView.paletteAt i.
Proof.
  intros Hev Hassignees.
  assert (Hin : In (Assignee.login primary) (CalendarView.uniqueAssignees events)).
  { unfold CalendarView.uniqueAssignees. apply firsts_In. split; [| intros []].
    apply in_flat_map. exists ev. split; [exact Hev |].
    rewrite Hassignees. now left. }
  apply In_nth_error in Hin as [i Hi]. exists i. split; [exact Hi |].
  split; [| split; [apply paletteAt_In |]].
  - unfold CalendarView.eventColor, CalendarView.readColor, CalendarView.assigneeColorMap.
    rewrite Hassignees.
    destruct (String.eqb_spec (Assignee.login primary) "__proto__") as [-> | Hne].
    + rewrite colorsFrom_proto. reflexivity.
    + rewrite (colorsFrom_at (CalendarView.uniqueAssignees events) 0 [] i _
                 (firsts_NoDup _ _) Hi Hne). reflexivity.
  - unfold CalendarView.paletteAt. cbn [List.length CalendarView.assigneeColors].
    f_equal. rewrite <- (Nat.Div0.add_mod_idemp_r i 10 10). cbn [Nat.modulo].
    change (10 mod 10)%nat with 0%nat. now rewrite Nat.add_0_r.
Qed.

Lemma event_colour_witness :
  exists i,
    nth_error (CalendarView.uniqueAssignees CalendarView.busyDay) i = Some "alice"
    /\ CalendarView.eventColor CalendarView.busyDay Samples.augustToSeptember
       = CalendarView.Hex (CalendarView.paletteAt i)
    /\ In (CalendarView.paletteAt i) CalendarView.assigneeColors
    /\ CalendarView.paletteAt (i + 10) = CalendarView.paletteAt i.
Proof.
  exact (event_colour_follows_first_appearance CalendarView.busyDay
           Samples.augustToSeptember (Samples.person "alice") []
           (or_intror (or_introl eq_refl)) eq_refl).
Defined.

(** The logins of [busyDay] in the order of their first appearance, and
    the colours of its events; the event without assignee is grey. *)
Example busy_day_colours :
  CalendarView.uniqueAssignees CalendarView.busyDay = ["bob"; "alice"; "carol"]
  /\ List.map (CalendarView.eventColor CalendarView.busyDay) CalendarView.busyDay
     = [ CalendarView.Hex "#3b82f6"; CalendarView.Hex "#10b981"; CalendarView.Hex "#3b82f6";
         CalendarView.Hex "#f59e0b"; CalendarView.Hex "#6b7280"; CalendarView.Hex "#3b82f6" ].
Proof. vm_compute. split; reflexivity. Qed.
